(** * Autograder4Canvas: the submission-analysis engine of
      [Programs/Academic_Dishonesty_Check_v1-3.py]

    A shallow embedding of the text heuristics, the profile system, the
    per-submission analyser, the draft comparison, the scan for
    self-plagiarism and for matches between students, the white-text
    keywords, the key phrases and their normal form, and the analysis of an
    assignment and of a discussion, followed by the properties stated about
    them.

    Modelling conventions.
    - A Python [str] is a [string]; its characters are read as the code
      points 0..255, with Python's classification of those code points
      ([str.isspace], [str.lower], [str.isupper]).
    - A Python float that the code obtains by dividing two integers is the
      exact rational ([Q]); decimal literals such as [0.85] are the exact
      decimals and comparisons are the exact ones.  The one square root, in
      the score of paragraph uniformity, is taken in the real numbers.
    - A [set] of words is a [gset string]; a dictionary is a [gmap], or a
      record when its keys are fixed.
    - A dictionary field read with [.get] is a [field]: missing, present
      with the value [None], or present with a value.
    - Code that divides, indexes or reads an attribute returns a [result],
      so that an exception of Python is a value [Raise] here.
    - Python's [re] is a class [Regex] of functions on the patterns as the
      source writes them; written out are [re.split(r'[.!?]+', _)], on which
      the sentence checks rest, and the three substitutions of the key
      phrases, [re.sub] of [<[^>]+>], of [\s+] and of [[^\w\s]].
    - What the program fetches from the API is an argument of the function
      that uses it; a dictionary whose order of insertion matters is the list
      of its entries.
    - A flag is a constructor carrying the values that the message prints. *)

From Stdlib Require Import Ascii QArith Qpower Reals Qreals Lra.
From stdpp Require Import gmap strings list pretty sorting.

(** ** Characters *)

Definition code (c : ascii) : N := N_of_ascii c.

(** [str.isspace] on one character. *)
Definition isspace (c : ascii) : bool :=
  let n := code c in
  ((9 <=? n) && (n <=? 13) || (28 <=? n) && (n <=? 32)
   || (n =? 133) || (n =? 160))%N.

(** [str.isupper] on one character. *)
Definition isupper (c : ascii) : bool :=
  let n := code c in
  ((65 <=? n) && (n <=? 90) || (192 <=? n) && (n <=? 222) && negb (n =? 215))%N.

(** [str.lower] on one character. *)
Definition lower_char (c : ascii) : ascii :=
  if isupper c then ascii_of_N (code c + 32) else c.

(** ** Strings *)

Definition nonempty (s : string) : bool :=
  match s with EmptyString => false | String _ _ => true end.

Fixpoint lower (s : string) : string :=
  match s with
  | EmptyString => EmptyString
  | String c s' => String (lower_char c) (lower s')
  end.

Fixpoint lstrip (s : string) : string :=
  match s with
  | EmptyString => EmptyString
  | String c s' => if isspace c then lstrip s' else s
  end.

Definition rstrip (s : string) : string := String.rev (lstrip (String.rev s)).

(** [s.strip()] *)
Definition strip (s : string) : string := rstrip (lstrip s).

(** [s.split()]: the maximal runs of characters that are not white space.
    [acc] holds the current run, last character first. *)
Fixpoint split_ws_from (acc s : string) : list string :=
  match s with
  | EmptyString => if nonempty acc then [String.rev acc] else []
  | String c s' =>
      if isspace c
      then (if nonempty acc then String.rev acc :: split_ws_from "" s'
            else split_ws_from "" s')
      else split_ws_from (String c acc) s'
  end.

Definition split_ws (s : string) : list string := split_ws_from "" s.

Definition string_eqb (a b : string) : bool := bool_decide (a = b).

(** [s.startswith(p)] *)
Fixpoint startswith (p s : string) : bool :=
  match p, s with
  | EmptyString, _ => true
  | String a p', String b s' => bool_decide (a = b) && startswith p' s'
  | String _ _, EmptyString => false
  end.

(** [s.split(sep)] for a separator that is not empty: the text is cut at the
    occurrences of [sep] found from left to right, empty pieces included.
    [skip] counts the characters of a recognised separator still to pass. *)
Fixpoint split_sep_from (sep : string) (skip : nat) (acc s : string) : list string :=
  match s with
  | EmptyString => [String.rev acc]
  | String c s' =>
      match skip with
      | S k => split_sep_from sep k acc s'
      | O =>
          if startswith sep s
          then String.rev acc :: split_sep_from sep (String.length sep - 1) "" s'
          else split_sep_from sep 0 (String c acc) s'
      end
  end.

Definition split_sep (sep s : string) : list string := split_sep_from sep 0 "" s.

(** [s.count(sub)] for a [sub] that is not empty: occurrences that do not
    overlap, found from left to right. *)
Fixpoint count_from (sub : string) (skip : nat) (s : string) : nat :=
  match s with
  | EmptyString => 0
  | String c s' =>
      match skip with
      | S k => count_from sub k s'
      | O =>
          if startswith sub s
          then S (count_from sub (String.length sub - 1) s')
          else count_from sub 0 s'
      end
  end.

Definition str_count (s sub : string) : nat := count_from sub 0 s.

(** [sub in s] *)
Fixpoint contains (sub s : string) : bool :=
  startswith sub s ||
  match s with
  | EmptyString => false
  | String _ s' => contains sub s'
  end.

(** [s.endswith(p)] *)
Definition endswith (p s : string) : bool :=
  startswith (String.rev p) (String.rev s).

(** [s.replace(c, "")] for a one-character [c]. *)
Fixpoint remove_char (c : ascii) (s : string) : string :=
  match s with
  | EmptyString => EmptyString
  | String a s' => if bool_decide (a = c) then remove_char c s' else String a (remove_char c s')
  end.

(** [re.split(r'[.!?]+', s)]: the text is cut at the maximal runs of the
    characters [.], [!] and [?]; the pieces before the first run and after the
    last one are kept also when they are empty.  [in_run] says that the
    previous character belonged to a run. *)
Definition sentence_end (c : ascii) : bool :=
  bool_decide (c = "."%char) || bool_decide (c = "!"%char) || bool_decide (c = "?"%char).

Fixpoint re_split_from (in_run : bool) (acc s : string) : list string :=
  match s with
  | EmptyString => [String.rev acc]
  | String c s' =>
      if sentence_end c
      then (if in_run then re_split_from true "" s'
            else String.rev acc :: re_split_from true "" s')
      else re_split_from false (String c acc) s'
  end.

Definition re_split_sentences (s : string) : list string := re_split_from false "" s.

Definition newline : string := String "010"%char "".
Definition tab : string := String "009"%char "".

(** ** Exceptions *)

Inductive exn := TypeError | AttributeError | IndexError | KeyError | ZeroDivisionError.

Inductive result (A : Type) : Type :=
  | Ok (a : A)
  | Raise (e : exn).
Arguments Ok {A} a.
Arguments Raise {A} e.

Global Instance result_ret : MRet result := @Ok.
Global Instance result_bind : MBind result :=
  λ A B f m, match m with Ok a => f a | Raise e => Raise e end.

(** [l[0]] *)
Definition index0 {A} (l : list A) : result A :=
  match l with
  | [] => Raise IndexError
  | x :: _ => Ok x
  end.

(** [l[i]] for [i >= 0] and [l[-1]] *)
Definition index {A} (l : list A) (i : nat) : result A :=
  match l !! i with
  | Some x => Ok x
  | None => Raise IndexError
  end.

Definition index_last {A} (l : list A) : result A :=
  match last l with
  | Some x => Ok x
  | None => Raise IndexError
  end.

(** [s[0]] *)
Definition str_index0 (s : string) : result ascii :=
  match s with
  | EmptyString => Raise IndexError
  | String c _ => Ok c
  end.

(** [a / b] *)
Definition truediv (a b : Q) : result Q :=
  if Qeq_bool b 0 then Raise ZeroDivisionError else Ok (a / b)%Q.

(** ** Dictionary fields *)

Inductive field (A : Type) : Type :=
  | Missing
  | PyNone
  | Present (a : A).
Arguments Missing {A}.
Arguments PyNone {A}.
Arguments Present {A} a.

(** [d.get(key, default)]; the result is a Python value, [None] included. *)
Definition get_or {A} (f : field A) (default : A) : option A :=
  match f with
  | Missing => Some default
  | PyNone => None
  | Present a => Some a
  end.

(** [d.get(key)] *)
Definition get {A} (f : field A) : option A :=
  match f with
  | Present a => Some a
  | _ => None
  end.

(** The truth value of a Python value that is a string or [None]. *)
Definition truthy (v : option string) : bool :=
  match v with
  | Some s => nonempty s
  | None => false
  end.

(** ** Numbers *)

(** [n / d] on two non-negative integers, where the code has made sure that
    [d] is not zero. *)
Definition ratio (n d : nat) : Q := Z.of_nat n # Pos.of_nat d.

Definition Qltb (a b : Q) : bool := negb (Qle_bool b a).
Definition Qgtb (a b : Q) : bool := Qltb b a.
Definition Qgeb (a b : Q) : bool := Qle_bool b a.
Definition QofN (n : nat) : Q := inject_Z (Z.of_nat n).

(** ** Word count and similarity *)

Definition count_words (text : string) : nat :=
  if nonempty text then length (split_ws text) else 0.

Definition word_set (t : string) : gset string := list_to_set (split_ws t).

Definition calculate_text_similarity (text1 text2 : string) : Q :=
  if negb (nonempty text1) || negb (nonempty text2) then 0
  else
    let t1 := strip (lower text1) in
    let t2 := strip (lower text2) in
    if string_eqb t1 t2 then 1
    else
      let words1 := word_set t1 in
      let words2 := word_set t2 in
      if bool_decide (words1 = ∅) || bool_decide (words2 = ∅) then 0
      else
        let intersection := words1 ∩ words2 in
        let union := words1 ∪ words2 in
        if bool_decide (union = ∅) then 0
        else ratio (size intersection) (size union).


(** ** Thresholds for flagging *)

Definition MIN_WORD_COUNT : nat := 50.
Definition MIN_FILE_SIZE : Z := 1024.
Definition DUPLICATE_SIMILARITY_THRESHOLD : Q := 0.85.

(** ** Assignment type profiles *)

(** The three dictionaries of a profile that the analysis reads.  A profile
    without an ["invert_checks"] entry has the empty one, which is what
    [profile.get("invert_checks", {})] makes of it. *)
Record profile := {
  checks_enabled : gmap string bool;
  thresholds : gmap string Z;
  invert_checks : gmap string bool
}.

Definition notes_brainstorm : profile := {|
  checks_enabled := list_to_map [
    ("ai_transitions", false); ("hedge_phrases", false);
    ("inflated_vocabulary", true); ("generic_phrases", false);
    ("balance_markers", false); ("passive_voice", false);
    ("personal_markers", false); ("emotional_markers", false);
    ("complete_sentences", true); ("paragraph_structure", true);
    ("copy_paste", true); ("cross_submission", true);
    ("essay_organization", true); ("headings_structure", true)];
  thresholds := list_to_map [
    ("min_word_count", 20%Z); ("ai_transition_count", 999%Z);
    ("passive_voice_percent", 100%Z); ("complete_sentence_percent", 50%Z);
    ("paragraph_count_suspicious", 3%Z)];
  invert_checks := list_to_map [
    ("complete_sentences", true); ("paragraph_structure", true)]
|}.

Definition rough_draft : profile := {|
  checks_enabled := list_to_map [
    ("ai_transitions", true); ("hedge_phrases", false);
    ("inflated_vocabulary", true); ("generic_phrases", true);
    ("balance_markers", false); ("passive_voice", false);
    ("personal_markers", false); ("emotional_markers", false);
    ("complete_sentences", false); ("copy_paste", true);
    ("cross_submission", true)];
  thresholds := list_to_map [
    ("min_word_count", 30%Z); ("ai_transition_count", 5%Z);
    ("passive_voice_percent", 60%Z); ("complete_sentence_percent", 90%Z)];
  invert_checks := ∅
|}.

Definition personal_reflection : profile := {|
  checks_enabled := list_to_map [
    ("ai_transitions", true); ("hedge_phrases", true);
    ("inflated_vocabulary", true); ("generic_phrases", true);
    ("balance_markers", true); ("passive_voice", true);
    ("personal_markers", true); ("emotional_markers", true);
    ("complete_sentences", true); ("copy_paste", true);
    ("cross_submission", true)];
  thresholds := list_to_map [
    ("min_word_count", 50%Z); ("ai_transition_count", 3%Z);
    ("passive_voice_percent", 40%Z); ("complete_sentence_percent", 85%Z)];
  invert_checks := ∅
|}.

Definition discussion_post : profile := {|
  checks_enabled := list_to_map [
    ("ai_transitions", true); ("hedge_phrases", true);
    ("inflated_vocabulary", true); ("generic_phrases", true);
    ("balance_markers", true); ("passive_voice", false);
    ("personal_markers", true); ("emotional_markers", true);
    ("complete_sentences", false); ("copy_paste", true);
    ("cross_submission", true)];
  thresholds := list_to_map [
    ("min_word_count", 30%Z); ("ai_transition_count", 2%Z);
    ("passive_voice_percent", 50%Z); ("complete_sentence_percent", 90%Z)];
  invert_checks := ∅
|}.

Definition analytical_essay : profile := {|
  checks_enabled := list_to_map [
    ("ai_transitions", true); ("hedge_phrases", true);
    ("inflated_vocabulary", true); ("generic_phrases", true);
    ("balance_markers", true); ("passive_voice", true);
    ("personal_markers", false); ("emotional_markers", false);
    ("complete_sentences", true); ("copy_paste", true);
    ("cross_submission", true)];
  thresholds := list_to_map [
    ("min_word_count", 50%Z); ("ai_transition_count", 3%Z);
    ("passive_voice_percent", 45%Z); ("complete_sentence_percent", 80%Z)];
  invert_checks := ∅
|}.

Definition research_paper : profile := {|
  checks_enabled := list_to_map [
    ("ai_transitions", true); ("hedge_phrases", true);
    ("inflated_vocabulary", true); ("generic_phrases", true);
    ("balance_markers", true); ("passive_voice", true);
    ("personal_markers", false); ("emotional_markers", false);
    ("complete_sentences", true); ("copy_paste", true);
    ("cross_submission", true)];
  thresholds := list_to_map [
    ("min_word_count", 100%Z); ("ai_transition_count", 4%Z);
    ("passive_voice_percent", 55%Z); ("complete_sentence_percent", 75%Z)];
  invert_checks := ∅
|}.

Definition creative_writing : profile := {|
  checks_enabled := list_to_map [
    ("ai_transitions", false); ("hedge_phrases", false);
    ("inflated_vocabulary", true); ("generic_phrases", true);
    ("balance_markers", false); ("passive_voice", false);
    ("personal_markers", false); ("emotional_markers", true);
    ("complete_sentences", false); ("copy_paste", true);
    ("cross_submission", true)];
  thresholds := list_to_map [
    ("min_word_count", 50%Z); ("ai_transition_count", 999%Z);
    ("passive_voice_percent", 100%Z); ("complete_sentence_percent", 100%Z)];
  invert_checks := ∅
|}.

Definition standard : profile := {|
  checks_enabled := list_to_map [
    ("ai_transitions", true); ("hedge_phrases", true);
    ("inflated_vocabulary", true); ("generic_phrases", true);
    ("balance_markers", true); ("passive_voice", true);
    ("personal_markers", true); ("emotional_markers", true);
    ("complete_sentences", true); ("copy_paste", true);
    ("cross_submission", true)];
  thresholds := list_to_map [
    ("min_word_count", 50%Z); ("ai_transition_count", 3%Z);
    ("passive_voice_percent", 45%Z); ("complete_sentence_percent", 80%Z)];
  invert_checks := ∅
|}.

Definition ASSIGNMENT_PROFILES : gmap string profile := list_to_map [
  ("notes_brainstorm", notes_brainstorm);
  ("rough_draft", rough_draft);
  ("personal_reflection", personal_reflection);
  ("discussion_post", discussion_post);
  ("analytical_essay", analytical_essay);
  ("research_paper", research_paper);
  ("creative_writing", creative_writing);
  ("standard", standard)].

(** [ASSIGNMENT_PROFILES.get(profile_key, ASSIGNMENT_PROFILES["standard"])];
    the table binds ["standard"] to [standard]. *)
Definition get_profile (profile_key : string) : profile :=
  default standard (ASSIGNMENT_PROFILES !! profile_key).

(** The defaults of [get_threshold] when no profile is selected. *)
Definition default_thresholds : gmap string Z := list_to_map [
  ("min_word_count", 50%Z); ("ai_transition_count", 3%Z);
  ("passive_voice_percent", 45%Z); ("complete_sentence_percent", 80%Z)].

(** ** Phrase tables *)

Definition AI_TRANSITIONS : list string := [
  "it is important to note"; "it should be noted"; "it is worth noting";
  "in conclusion"; "to sum up"; "in summary"; "to summarize";
  "furthermore"; "moreover"; "additionally"; "in addition";
  "this essay will explore"; "this paper will examine"; "this section will discuss";
  "as previously mentioned"; "as stated above"; "as discussed earlier";
  "on the one hand"; "on the other hand"; "conversely"; "however";
  "firstly"; "secondly"; "thirdly"; "lastly"; "finally"].

Definition HEDGE_PHRASES : list string := [
  "it can be argued that"; "it could be said that"; "one might argue";
  "it is possible that"; "arguably"; "presumably"; "ostensibly";
  "it appears that"; "it seems that"; "tends to suggest"].

Definition INFLATED_VOCAB : list (string * string) := [
  ("utilize", "use"); ("demonstrate", "show"); ("individuals", "people");
  ("commence", "start"); ("terminate", "end"); ("endeavor", "try");
  ("facilitate", "help"); ("implement", "do"); ("ascertain", "find out");
  ("optimal", "best"); ("subsequent", "next"); ("prior to", "before");
  ("in order to", "to"); ("due to the fact that", "because")].

Definition GENERIC_PHRASES : list string := [
  "many things"; "various aspects"; "in today's society"; "in today's world";
  "throughout history"; "since the beginning of time"; "it can be said";
  "some people believe"; "it is believed that"; "one could argue";
  "studies show"; "research indicates"; "experts say"; "it has been shown";
  "this shows that"; "this proves that"; "overall"; "basically";
  "a variety of"; "a number of"; "plays a crucial role"; "of paramount importance"].

Definition BALANCE_MARKERS : list string := [
  "both sides"; "both perspectives"; "different viewpoints"; "various opinions";
  "while some argue"; "others contend"; "there are arguments for and against"].

Definition PASSIVE_PATTERNS : list string := [
  "\b(is|are|was|were|be|been|being)\s+\w+ed\b";
  "\b(can|could|may|might|should|would)\s+be\s+\w+ed\b"].

Definition PERSONAL_MARKERS : list string := [
  "\bi\s"; "\bmy\b"; "\bme\b"; "\bmine\b";
  "\bwe\b"; "\bour\b"; "\bus\b";
  "as a\b"; "being a\b"; "growing up"].

Definition EMOTIONAL_MARKERS : list string := [
  "i feel"; "i felt"; "i was"; "i struggled"; "i realized"; "i noticed";
  "confused"; "frustrated"; "excited"; "surprised"; "shocked"; "angry";
  "it hurt"; "i cried"; "i laughed"; "nervous"; "scared"; "proud"].

Definition GENERIC_FILENAMES : list string := [
  "^untitled\d*\..*$"; "^document\d*\..*$"; "^assignment\d*\..*$";
  "^file\d*\..*$"; "^download\d*\..*$"; "^new file\d*\..*$";
  "^copy of .*$"].

(** [sum(text_lower.count(p) for p in phrases)] *)
Definition count_phrases (phrases : list string) (text : string) : nat :=
  if nonempty text
  then let text_lower := lower text in
       sum_list ((λ phrase, str_count text_lower phrase) <$> phrases)
  else 0.

Definition check_ai_transitions : string → nat := count_phrases AI_TRANSITIONS.
Definition check_hedge_phrases : string → nat := count_phrases HEDGE_PHRASES.
Definition check_generic_content : string → nat := count_phrases GENERIC_PHRASES.
Definition check_balance_markers : string → nat := count_phrases BALANCE_MARKERS.
Definition check_emotional_markers : string → nat := count_phrases EMOTIONAL_MARKERS.

Definition check_inflated_vocabulary (text : string) : list string :=
  if nonempty text
  then let text_lower := lower text in
       (λ p, p.1 +:+ " (vs " +:+ p.2 +:+ ")") <$>
         List.filter (λ p, contains p.1 text_lower) INFLATED_VOCAB
  else [].

(** ** Paragraphs and sentences *)

(** [[p.strip() for p in text.split(sep) if p.strip()]] *)
Definition stripped_pieces (pieces : list string) : list string :=
  List.filter nonempty (strip <$> pieces).

Definition paragraphs_of (text : string) : list string :=
  stripped_pieces (split_sep (newline +:+ newline) text).

Definition Qsum (l : list Q) : Q := foldr Qplus 0%Q l.

(** [sum(l) / len(l)] over word counts, and
    [sum((l - avg) ** 2 for l in lengths) / len(lengths)] *)
Definition mean (lengths : list nat) : result Q :=
  truediv (QofN (sum_list lengths)) (QofN (length lengths)).

Definition variance_about (avg : Q) (lengths : list nat) : result Q :=
  truediv (Qsum ((λ l, (QofN l - avg) ^ 2)%Q <$> lengths)) (QofN (length lengths)).

(** ** Paragraph uniformity *)

(** The score is [1 - sqrt(variance) / avg_length], a real number. *)
Definition check_paragraph_uniformity (text : string) : result R :=
  if negb (nonempty text) then Ok 0%R
  else
    let paragraphs := paragraphs_of text in
    if length paragraphs <? 3 then Ok 0%R
    else
      let lengths := (λ p, length (split_ws p)) <$> paragraphs in
      avg_length ← mean lengths;
      variance ← variance_about avg_length lengths;
      let std_dev := sqrt (Q2R variance) in
      if Qeq_bool avg_length 0 then Ok 0%R
      else
        let coefficient_of_variation := (std_dev / Q2R avg_length)%R in
        Ok (if Rlt_dec coefficient_of_variation 1
            then (1 - coefficient_of_variation)%R else 0%R).

(** [sqrt(variance) / avg < c], for [variance >= 0], [avg > 0] and [c > 0],
    decided on the squares. *)
Definition cv_below (variance avg c : Q) : bool :=
  Qltb variance ((c * avg) ^ 2)%Q.

(** The test [check_paragraph_uniformity(text) > 0.8] of the analyser,
    decided exactly: the score exceeds 0.8 when the coefficient of variation
    is below 0.2 ([uniform_paragraphs_spec] relates the two). *)
Definition uniform_paragraphs (text : string) : result bool :=
  if negb (nonempty text) then Ok false
  else
    let paragraphs := paragraphs_of text in
    if length paragraphs <? 3 then Ok false
    else
      let lengths := (λ p, length (split_ws p)) <$> paragraphs in
      avg_length ← mean lengths;
      variance ← variance_about avg_length lengths;
      if Qeq_bool avg_length 0 then Ok false
      else Ok (cv_below variance avg_length 0.2).

(** ** Repetitive reasoning *)

(** The sentences the check works on. *)
Definition long_sentences (text : string) : list string :=
  (λ s, lower (strip s)) <$>
    List.filter (λ s, 20 <? String.length (strip s)) (re_split_sentences text).

(** The two nested loops over [i < j]. *)
Fixpoint count_similar_pairs (sentences : list string) : nat :=
  match sentences with
  | [] => 0
  | s :: rest =>
      length (List.filter (λ t, Qgtb (calculate_text_similarity s t) 0.7) rest)
      + count_similar_pairs rest
  end.

Definition check_repetitive_reasoning (text : string) : result bool :=
  if negb (nonempty text) then Ok false
  else
    let sentences := long_sentences text in
    if length sentences <? 5 then Ok false
    else
      let similar_pairs := count_similar_pairs sentences in
      total_pairs ← truediv (QofN (length sentences * (length sentences - 1))) 2;
      if Qltb 0 total_pairs
      then r ← truediv (QofN similar_pairs) total_pairs; Ok (Qgtb r 0.2)
      else Ok false.

(** ** Sentence completeness *)

(** [[s.strip() for s in re.split(r'[.!?]+', text) if s.strip()]] *)
Definition sentences_of (text : string) : list string :=
  stripped_pieces (re_split_sentences text).

(** [len(words) >= 8 and sentence[0].isupper()] *)
Definition is_complete (sentence : string) : result bool :=
  let words := split_ws sentence in
  if 8 <=? length words
  then c ← str_index0 sentence; Ok (isupper c)
  else Ok false.

Fixpoint count_when {A} (p : A → result bool) (l : list A) : result nat :=
  match l with
  | [] => Ok 0
  | x :: rest =>
      b ← p x;
      n ← count_when p rest;
      Ok (if (b : bool) then S n else n)
  end.

Definition check_sentence_completeness (text : string) : result Q :=
  if negb (nonempty text) then Ok 0%Q
  else
    let sentences := sentences_of text in
    if bool_decide (sentences = []) then Ok 0%Q
    else
      complete_count ← count_when is_complete sentences;
      truediv (QofN complete_count) (QofN (length sentences)).

(** ** Helpers for the checks *)

Definition flag_if {A} (b : bool) (f : A) : list A := if b then [f] else [].

(** [[f(x) for x in l]] for an [f] that can raise. *)
Fixpoint for_each {A B} (f : A → result B) (l : list A) : result (list B) :=
  match l with
  | [] => Ok []
  | x :: rest =>
      y ← f x;
      ys ← for_each f rest;
      Ok (y :: ys)
  end.

(** [l[1:-1]] *)
Definition inner {A} (l : list A) : list A := removelast (tail l).

(** [abs(a - b)] *)
Definition abs_diff (a b : nat) : Z := Z.abs (Z.of_nat a - Z.of_nat b).

(** ** Flags *)

(** A flag is the message of the source with the values printed in it; the
    constructors follow the message templates, which differ pairwise in their
    fixed text. *)

(** The messages of [check_essay_organization]. *)
Inductive essay_flag :=
  | FormulaicIntroduction      (* "Formulaic AI-style introduction" *)
  | FormulaicConclusion        (* "Formulaic AI-style conclusion" *)
  | FiveParagraphStructure     (* "Classic 5-paragraph essay structure (common in AI)" *)
  | UniformParagraphLengths (variance avg_words : Q)
                               (* "Suspiciously uniform paragraph lengths (CV: ...)" *)
  | TransitionHeavy            (* "Most body paragraphs start with transitions (mechanical)" *)
  | FormulaicTopicSentences.   (* "Every paragraph follows topic-sentence formula" *)

(** The messages of [check_headings_structure]. *)
Inductive heading_flag :=
  | AITypicalHeadings (ai_style_count : nat)
                               (* "AI-typical heading structure (... generic headings)" *)
  | NumberedHeadings.          (* "Numbered section headings (common in AI output)" *)

(** The messages of [check_paragraph_as_prose_in_notes]. *)
Inductive prose_flag :=
  | ProseNotNotes (prose_indicators : nat)
                               (* "Submission appears to be prose, not notes/outline (indicators: ...)" *)
  | StrongProseEvidence.       (* "Strong evidence: Polished prose submitted as 'notes'" *)

(** The messages of [check_bibliographic_markers]. *)
Inductive bib_flag :=
  | VagueCitations (vague_count : nat)
                               (* "Vague citation language without specific sources (... instances)" *)
  | RoundYears (round_years total : nat)
                               (* "Suspicious: Many citations from round years (.../...)" *)
  | CommonSurnames (generic_authors : nat)
                               (* "Multiple citations with very common author surnames (...)" *)
  | ClusteredYear (most_common_year : string) (count : nat)
                               (* "Many citations clustered in ... (... citations)" *)
  | MissingReferences          (* "In-text citations present but no References/Works Cited section" *)
  | NotVerified (not_found : nat)
                               (* "... citation(s) could not be verified:" *)
  | NotVerifiedItem (author year : string)
                               (* "   - author (year)" *)
  | NotVerifiedMore (more : nat).
                               (* "   - ... and ... more" *)

(** The messages of [analyze_submission]. *)
Inductive flag :=
  | VeryShortText (word_count : nat)          (* "Very short text (... words)" *)
  | ClichedTransitions (transition_count : nat)
                                              (* "Clichéd transitions (... instances)" *)
  | ExcessiveHedging (hedge_count : nat)      (* "Excessive hedging (... hedge phrases)" *)
  | InflatedVocabulary (inflated : list string)
                                              (* "Inflated vocabulary: ..." *)
  | GenericContent (generic_count : nat)      (* "Generic/vague content (... vague phrases)" *)
  | OverBalanced (balance_count : nat)        (* "Over-balanced/false equivalence (... markers)" *)
  | ExcessivePassiveVoice (passive_ratio : Q) (* "Excessive passive voice (...%)" *)
  | LacksPersonalLanguage                     (* "Lacks personal/embodied language" *)
  | NoEmotionalLanguage                       (* "No emotional/vulnerable language" *)
  | UniformParagraphs                         (* "Suspiciously uniform paragraphs (mechanical structure)" *)
  | RepetitiveReasoning                       (* "Repetitive/circular reasoning detected" *)
  | CopyPasteIndicators (indicators : list string)
                                              (* "Copy-paste indicators: ..." *)
  | TooPolishedForNotes (completeness : Q)    (* "Too polished for notes (...% complete sentences - expected fragments)" *)
  | SuspiciouslyPolished (completeness : Q)   (* "Suspiciously polished (...% complete sentences)" *)
  | EssayFlag (f : essay_flag)
  | HeadingFlag (f : heading_flag)
  | ProseFlag (f : prose_flag)
  | BibFlag (f : bib_flag)
  | HighlySimilar (other_user_name : string) (similarity : Q)
                                              (* "Highly similar to ...'s submission (...% match)" *)
  | SmallFile (file_name : string) (file_size : Z)
                                              (* "Small file '...' (... bytes)" *)
  | GenericFilename (file_name : string)      (* "Generic filename: '...'" *)
  | UrlNoDescription.                         (* "URL with no description" *)

(** ** Submission records *)

Record user_info := { u_name : field string }.

Record attachment := {
  a_filename : field string;
  a_size : field Z
}.

Record submission := {
  s_user_id : field Z;
  s_body : field string;
  s_attachments : field (list attachment);
  s_url : field string;
  s_user : field user_info
}.

(** How an f-string prints a value that is a string or [None], and one that
    is an integer or [None]. *)
Definition fmt_str (v : option string) : string := default "None" v.
Definition fmt_int (v : option Z) : string :=
  match v with Some z => pretty z | None => "None" end.

(** ** The regular-expression library *)

(** The functions of Python's [re] that the checks call, on the patterns as
    they are written in the source.  [re_search] and [re_match] say whether
    there is a match; [re_findall] is for patterns with at most one group
    and [re_findall2] for patterns with two, which yield pairs. *)
Inductive re_flags := NoFlags | IGNORECASE | MULTILINE.

Class Regex := {
  re_search : string → string → bool;
  re_match : string → string → re_flags → bool;
  re_findall : string → string → re_flags → list string;
  re_findall2 : string → string → list (string * string)
}.

(** ** Citation verification *)

Inductive citation_status := StatusVerified | StatusNotFound | StatusError.

(** What the analysis reads in the result of [verify_citations_batch]. *)
Record verification := {
  v_verified : nat;
  v_not_found : nat;
  v_details : list (string * string * citation_status)
}.

(** ** Counting the years of the citations *)

(** [Counter(years)]: the distinct years in the order of their first
    occurrence, each with the number of its occurrences. *)
Fixpoint counter_add (y : string) (c : list (string * nat)) : list (string * nat) :=
  match c with
  | [] => [(y, 1)]
  | (k, n) :: rest =>
      if string_eqb k y then (k, S n) :: rest else (k, n) :: counter_add y rest
  end.

Definition Counter (l : list string) : list (string * nat) :=
  foldl (λ c y, counter_add y c) [] l.

(** [most_common(1)]: the first entry among those with the largest count. *)
Fixpoint max_first (best : string * nat) (l : list (string * nat)) : string * nat :=
  match l with
  | [] => best
  | x :: rest => if best.2 <? x.2 then max_first x rest else max_first best rest
  end.

Definition most_common_1 (c : list (string * nat)) : list (string * nat) :=
  match c with
  | [] => []
  | x :: rest => [max_first x rest]
  end.

(** ** Draft comparison *)

Inductive draft_flag :=
  | NoRevision             (* "CRITICAL: Drafts are essentially identical - no revision occurred" *)
  | MinimalRevision        (* "Drafts are nearly identical (>95% similar) - minimal revision" *)
  | FewSentenceChanges     (* "Very few sentence-level changes between drafts" *)
  | PossibleRegeneration   (* "Low text similarity but similar paragraph structure - possible AI regeneration" *)
  | SignificantlyShorter   (* "Final draft significantly shorter than rough draft - unusual" *)
  | InsufficientRevision.  (* "Insufficient revision between drafts" *)

(** The values stored in the [details] dictionary. *)
Inductive detail :=
  | DInt (z : Z)
  | DNum (q : Q)
  | DStr (s : string)
  | DBool (b : bool).

(** The dictionary that [compare_drafts] returns; [details] lists the
    entries in the order in which they were stored. *)
Record comparison := {
  c_flags : list draft_flag;
  c_details : list (string * detail);
  revision_score : Z
}.

(** [set(s.strip().lower() for s in re.split(r'[.!?]+', draft) if s.strip())] *)
Definition sentence_set (draft : string) : gset string :=
  list_to_set ((λ s, lower (strip s)) <$>
                 List.filter (λ s, nonempty (strip s)) (re_split_sentences draft)).

(** [sum(1 for p1, p2 in zip(paras1, paras2)
         if abs(len(p1.split()) - len(p2.split())) < 10)] *)
Definition similar_length_paragraphs (paras1 paras2 : list string) : nat :=
  length (List.filter
            (λ p, (abs_diff (length (split_ws p.1)) (length (split_ws p.2)) <? 10)%Z)
            (zip paras1 paras2)).

Definition compare_drafts (draft1 draft2 : string) : result comparison :=
  if negb (nonempty draft1) || negb (nonempty draft2)
  then Ok {| c_flags := []; c_details := []; revision_score := 0 |}
  else
    (* Basic metrics *)
    let words1 := split_ws draft1 in
    let words2 := split_ws draft2 in
    let word_change := (Z.of_nat (length words2) - Z.of_nat (length words1))%Z in
    word_change_percent ←
      (if bool_decide (words1 ≠ [])
       then r ← truediv (inject_Z word_change) (QofN (length words1)); Ok (r * 100)%Q
       else Ok 0%Q);
    (* 1. Check for identical submission *)
    let similarity := calculate_text_similarity draft1 draft2 in
    let details := [
      ("draft1_words", DInt (Z.of_nat (length words1)));
      ("draft2_words", DInt (Z.of_nat (length words2)));
      ("word_change", DInt word_change);
      ("word_change_percent", DNum word_change_percent);
      ("overall_similarity", DNum similarity)] in
    if Qgeb similarity 0.98
    then Ok {| c_flags := [NoRevision]; c_details := details; revision_score := 0 |}
    else
      let flags1 := flag_if (Qgeb similarity 0.95) MinimalRevision in
      (* 2. Check sentence-level changes *)
      let sentences1 := sentence_set draft1 in
      let sentences2 := sentence_set draft2 in
      let unchanged := sentences1 ∩ sentences2 in
      let added := sentences2 ∖ sentences1 in
      let removed := sentences1 ∖ sentences2 in
      let total_sentences := size (sentences1 ∪ sentences2) in
      change_ratio ←
        (if 0 <? total_sentences
         then truediv (QofN (size added + size removed)) (QofN total_sentences)
         else Ok 0%Q);
      (* 3. Evaluate revision quality *)
      let '(score1, revision_level, flags2) :=
        if Qgeb change_ratio 0.3 then (30%Z, "substantial", [])
        else if Qgeb change_ratio 0.15 then (20%Z, "moderate", [])
        else if Qgeb change_ratio 0.05 then (10%Z, "light", [])
        else (0%Z, "minimal", [FewSentenceChanges]) in
      (* Check for structural changes *)
      let paras1 := paragraphs_of draft1 in
      let paras2 := paragraphs_of draft2 in
      let structure_changed := negb (length paras1 =? length paras2) in
      let score2 := if structure_changed then 10%Z else 0%Z in
      (* Check for word-level changes *)
      let words1_set : gset string := list_to_set words1 in
      let words2_set : gset string := list_to_set words2 in
      let new_words := words2_set ∖ words1_set in
      let unique_new_words :=
        length (List.filter (λ w, 4 <? String.length w) (elements new_words)) in
      let score3 :=
        if 20 <=? unique_new_words then 20%Z
        else if 10 <=? unique_new_words then 10%Z
        else 0%Z in
      (* 4. Check for suspicious patterns *)
      flags3 ←
        (if Qltb similarity 0.5 && (length paras1 =? length paras2)
         then para_structure_sim ←
                truediv (QofN (similar_length_paragraphs paras1 paras2)) (QofN (length paras1));
              Ok (flag_if (Qgtb para_structure_sim 0.7) PossibleRegeneration)
         else Ok []);
      let flags4 :=
        flag_if (Qltb (QofN (length words2)) (QofN (length words1) * 0.7)) SignificantlyShorter in
      (* Calculate final revision score (0-100) *)
      let revision_score := Z.min (score1 + score2 + score3) 100 in
      let flags5 := flag_if (revision_score <? 20)%Z InsufficientRevision in
      Ok {| c_flags := flags1 ++ flags2 ++ flags3 ++ flags4 ++ flags5;
            c_details :=
              details ++ [
                ("sentences_unchanged", DInt (Z.of_nat (size unchanged)));
                ("sentences_added", DInt (Z.of_nat (size added)));
                ("sentences_removed", DInt (Z.of_nat (size removed)));
                ("sentence_change_ratio", DNum change_ratio);
                ("revision_level", DStr revision_level)]
              ++ flag_if structure_changed ("paragraph_structure_changed", DBool true)
              ++ [("new_vocabulary_words", DInt (Z.of_nat unique_new_words))]
              ++ ((λ _, ("possible_regeneration", DBool true)) <$> flags3);
            revision_score := revision_score |}.

(** ** Similarity across assignments *)

(** What [check_cross_assignment_similarity] reads of an entry of [all_data]. *)
Record assignment_data := {
  ad_name : string;
  ad_submission_texts : gmap Z string
}.

(** An entry of a student's list in the self-plagiarism dictionary. *)
Record similar_pair := {
  sp_assignment1 : string;
  sp_assignment1_id : Z;
  sp_assignment2 : string;
  sp_assignment2_id : Z;
  sp_similarity : Q
}.

(** An entry of the cross-student list. *)
Record cross_match := {
  cm_student1 : string;
  cm_student1_id : Z;
  cm_assignment1 : string;
  cm_assignment1_id : Z;
  cm_student2 : string;
  cm_student2_id : Z;
  cm_assignment2 : string;
  cm_assignment2_id : Z;
  cm_similarity : Q
}.

(** [all_data[aid]["name"]] *)
Definition assignment_name (all_data : gmap Z assignment_data) (aid : Z) : result string :=
  match all_data !! aid with
  | Some d => Ok (ad_name d)
  | None => Raise KeyError
  end.

(** Only check substantial submissions. *)
Definition substantial (text : string) : bool :=
  nonempty text && (50 <? length (split_ws text)).

(** [student_submissions[user_id][assignment_id] = text] on a
    [defaultdict(dict)], for a substantial text. *)
Definition add_submission (assignment_id user_id : Z) (text : string)
    (student_submissions : gmap Z (gmap Z string)) : gmap Z (gmap Z string) :=
  if substantial text
  then <[user_id := <[assignment_id := text]> (default ∅ (student_submissions !! user_id))]>
         student_submissions
  else student_submissions.

(** The structure [{user_id: {assignment_id: text}}]. *)
Definition build_student_submissions (all_data : gmap Z assignment_data)
  : gmap Z (gmap Z string) :=
  map_fold (λ assignment_id data acc,
              map_fold (add_submission assignment_id) acc (ad_submission_texts data))
           ∅ all_data.

(** The comparison of one pair of a student's texts. *)
Definition self_pair (all_data : gmap Z assignment_data) (x y : Z * string)
  : result (list similar_pair) :=
  let similarity := calculate_text_similarity x.2 y.2 in
  if Qgeb similarity 0.7
  then assignment_name1 ← assignment_name all_data x.1;
       assignment_name2 ← assignment_name all_data y.1;
       Ok [{| sp_assignment1 := assignment_name1; sp_assignment1_id := x.1;
              sp_assignment2 := assignment_name2; sp_assignment2_id := y.1;
              sp_similarity := similarity |}]
  else Ok [].

(** The two nested loops over a student's assignments, [i < j]. *)
Fixpoint similar_pairs_of (all_data : gmap Z assignment_data) (assignments : list (Z * string))
  : result (list similar_pair) :=
  match assignments with
  | [] => Ok []
  | x :: rest =>
      here ← for_each (self_pair all_data x) rest;
      later ← similar_pairs_of all_data rest;
      Ok (concat here ++ later)
  end.

(** Check 1: the loop over the students. *)
Fixpoint self_plagiarism_of (all_data : gmap Z assignment_data)
    (students : list (Z * gmap Z string)) : result (gmap Z (list similar_pair)) :=
  match students with
  | [] => Ok ∅
  | (user_id, assignments) :: rest =>
      similar_pairs ← similar_pairs_of all_data (map_to_list assignments);
      others ← self_plagiarism_of all_data rest;
      Ok (if bool_decide (similar_pairs ≠ []) then <[user_id := similar_pairs]> others
          else others)
  end.

(** [tuple(sorted([(user1, aid1), (user2, aid2)]))] *)
Definition pair_leb (p q : Z * Z) : bool :=
  (p.1 <? q.1)%Z || ((p.1 =? q.1)%Z && (p.2 <=? q.2)%Z).

Definition sorted_pair (p q : Z * Z) : (Z * Z) * (Z * Z) :=
  if pair_leb p q then (p, q) else (q, p).

(** [student_names.get(user, f"User {user}")] *)
Definition student_name (student_names : gmap Z string) (user : Z) : string :=
  default ("User " +:+ pretty user) (student_names !! user).

(** The body of the inner loop of check 2; the state is the set of checked
    pairs and the list of matches found so far. *)
Definition cross_step (all_data : gmap Z assignment_data) (student_names : gmap Z string)
    (x y : Z * Z * string)
    (st : gset ((Z * Z) * (Z * Z)) * list cross_match)
  : result (gset ((Z * Z) * (Z * Z)) * list cross_match) :=
  let '(user1, aid1, text1) := x in
  let '(user2, aid2, text2) := y in
  if bool_decide (user1 = user2) || bool_decide (aid1 = aid2) then Ok st
  else
    let pair_key := sorted_pair (user1, aid1) (user2, aid2) in
    if bool_decide (pair_key ∈ st.1) then Ok st
    else
      let checked_pairs := {[pair_key]} ∪ st.1 in
      let similarity := calculate_text_similarity text1 text2 in
      if Qgeb similarity 0.75
      then assignment1 ← assignment_name all_data aid1;
           assignment2 ← assignment_name all_data aid2;
           Ok (checked_pairs,
               st.2 ++ [{| cm_student1 := student_name student_names user1;
                           cm_student1_id := user1;
                           cm_assignment1 := assignment1;
                           cm_assignment1_id := aid1;
                           cm_student2 := student_name student_names user2;
                           cm_student2_id := user2;
                           cm_assignment2 := assignment2;
                           cm_assignment2_id := aid2;
                           cm_similarity := similarity |}])
      else Ok (checked_pairs, st.2).

Fixpoint fold_result {A S} (f : A → S → result S) (l : list A) (s : S) : result S :=
  match l with
  | [] => Ok s
  | x :: rest => s' ← f x s; fold_result f rest s'
  end.

(** Check 2: the two nested loops over all submissions, [i < j]. *)
Fixpoint cross_student_of (all_data : gmap Z assignment_data) (student_names : gmap Z string)
    (all_submissions : list (Z * Z * string))
    (st : gset ((Z * Z) * (Z * Z)) * list cross_match)
  : result (gset ((Z * Z) * (Z * Z)) * list cross_match) :=
  match all_submissions with
  | [] => Ok st
  | x :: rest =>
      st' ← fold_result (cross_step all_data student_names x) rest st;
      cross_student_of all_data student_names rest st'
  end.

Definition check_cross_assignment_similarity (all_data : gmap Z assignment_data)
    (student_names : gmap Z string)
  : result (gmap Z (list similar_pair) * list cross_match) :=
  let student_submissions := build_student_submissions all_data in
  (* Check 1: Self-plagiarism *)
  self_plagiarism ← self_plagiarism_of all_data (map_to_list student_submissions);
  (* Check 2: Cross-student plagiarism *)
  let all_submissions :=
    '(user_id, assignments) ← map_to_list student_submissions;
    '(assignment_id, text) ← map_to_list assignments;
    [(user_id, assignment_id, text)] in
  st ← cross_student_of all_data student_names all_submissions (∅, []);
  Ok (self_plagiarism, st.2).

Section Checks.

Context {RE : Regex}.

(** The process-wide selection of a profile. *)
Variable CURRENT_PROFILE : option string.

(** Whether citations are verified over the network, and the verification
    itself, which gets the citations without duplicates and never raises. *)
Variable VERIFY_CITATIONS : bool.
Variable verify_citations_batch : gset (string * string) → verification.

(** *** The profile in force *)

Definition is_check_enabled (check_name : string) : bool :=
  match CURRENT_PROFILE with
  | None => true
  | Some key => default true (checks_enabled (get_profile key) !! check_name)
  end.

Definition get_threshold (threshold_name : string) : Z :=
  match CURRENT_PROFILE with
  | None => default 50%Z (default_thresholds !! threshold_name)
  | Some key => default 50%Z (thresholds (get_profile key) !! threshold_name)
  end.

(** [profile.get("invert_checks", {})] with
    [profile = get_profile(CURRENT_PROFILE) if CURRENT_PROFILE else {}] *)
Definition current_invert_checks : gmap string bool :=
  match CURRENT_PROFILE with
  | Some key => if nonempty key then invert_checks (get_profile key) else ∅
  | None => ∅
  end.

(** [invert_checks.get(check_name)], as a truth value. *)
Definition inverted (check_name : string) : bool :=
  default false (current_invert_checks !! check_name).

(** *** Checks that match patterns *)

Definition any_search (patterns : list string) (text : string) : bool :=
  existsb (λ pattern, re_search pattern text) patterns.

Definition check_passive_voice (text : string) : nat :=
  if nonempty text
  then sum_list ((λ pattern, length (re_findall pattern text IGNORECASE)) <$> PASSIVE_PATTERNS)
  else 0.

Definition check_personal_markers (text : string) : nat :=
  if nonempty text
  then let text_lower := lower text in
       sum_list ((λ pattern, length (re_findall pattern text_lower NoFlags)) <$> PERSONAL_MARKERS)
  else 0.

Definition check_copy_paste_indicators (text : string) : list string :=
  if nonempty text
  then flag_if (re_search "  +" text) "Multiple consecutive spaces"
       ++ flag_if (re_search "\n{3,}" text) "Excessive line breaks"
       ++ flag_if (contains tab text && contains "    " text) "Mixed tab/space formatting"
       ++ flag_if (re_search "\x00|\x0c|\ufeff" text) "Special formatting characters"
  else [].

Definition check_generic_filename (filename : option string) : bool :=
  match filename with
  | None => false
  | Some filename =>
      if nonempty filename
      then let filename_lower := lower filename in
           existsb (λ pattern, re_match pattern filename_lower NoFlags) GENERIC_FILENAMES
      else false
  end.

(** *** Essay organisation *)

Definition intro_patterns : list string := [
  "this essay will (explore|examine|discuss|analyze|argue)";
  "in this (essay|paper|analysis|discussion)";
  "the purpose of this (essay|paper)";
  "this (paper|essay) aims to";
  "throughout this (essay|paper)";
  "the following (essay|paper|analysis) will"].

Definition conclusion_patterns : list string := [
  "in conclusion,?\s*(it is clear|we can see|this essay has)";
  "to (sum up|summarize|conclude),?\s*(the|this|it)";
  "all (things considered|in all)";
  "in (summary|closing),?\s*(this|the|it)";
  "as (this essay|we) have (shown|seen|demonstrated|discussed)";
  "the (foregoing|preceding|above) (discussion|analysis|examination)"].

Definition transition_starters : list string := [
  "first"; "second"; "third"; "additionally"; "furthermore";
  "moreover"; "however"; "in addition"; "another"; "finally";
  "next"; "then"; "also"; "similarly"; "consequently"].

Definition word_counts_of (paragraphs : list string) : list nat :=
  (λ p, length (split_ws p)) <$> paragraphs.

(** [para.split('.')[0].lower() if para else ""] *)
Definition first_sentence_of (para : string) : result string :=
  if nonempty para
  then s ← index0 (split_sep "." para); Ok (lower s)
  else Ok "".

Definition check_essay_organization (text : string) : result (list essay_flag) :=
  if negb (nonempty text) || (String.length text <? 200) then Ok []
  else
    let paragraphs := paragraphs_of text in
    let paragraphs :=
      if length paragraphs <? 2
      then (* Try single newline split *)
           strip <$> List.filter (λ p, nonempty (strip p) && (50 <? String.length (strip p)))
                                 (split_sep newline text)
      else paragraphs in
    (* Check 1: Formulaic introduction patterns *)
    check1 ← (if bool_decide (paragraphs ≠ [])
              then p ← index0 paragraphs;
                   let first_para := lower p in
                   Ok (flag_if (any_search intro_patterns first_para) FormulaicIntroduction)
              else Ok []);
    (* Check 2: Formulaic conclusion patterns *)
    check2 ← (if 1 <? length paragraphs
              then p ← index_last paragraphs;
                   let last_para := lower p in
                   Ok (flag_if (any_search conclusion_patterns last_para) FormulaicConclusion)
              else Ok []);
    (* Check 3: Perfect 5-paragraph essay structure *)
    check3 ← (if length paragraphs =? 5
              then let word_counts := word_counts_of paragraphs in
                   w0 ← index word_counts 0;
                   w2 ← index word_counts 2;
                   w4 ← index word_counts 4;
                   w1 ← index word_counts 1;
                   w3 ← index word_counts 3;
                   Ok (flag_if ((w0 <? w2) && (w4 <? w2)
                                && (abs_diff w1 w2 <? 30)%Z && (abs_diff w2 w3 <? 30)%Z)
                               FiveParagraphStructure)
              else Ok []);
    (* Check 4: Suspiciously uniform paragraph lengths *)
    check4 ← (if 3 <=? length paragraphs
              then let word_counts := word_counts_of paragraphs in
                   avg_words ← mean word_counts;
                   if Qltb 30 avg_words
                   then variance ← variance_about avg_words word_counts;
                        Ok (flag_if (cv_below variance avg_words 0.15)
                                    (UniformParagraphLengths variance avg_words))
                   else Ok []
              else Ok []);
    (* Check 5: Each paragraph starts with topic sentence + transition *)
    check5 ← (if 3 <=? length paragraphs
              then first_sentences ← for_each first_sentence_of (inner paragraphs);
                   let transition_starts :=
                     length (List.filter (λ first_sentence,
                               existsb (λ starter, startswith starter first_sentence)
                                       transition_starters) first_sentences) in
                   let topic_sentence_pattern :=
                     length (List.filter (λ first_sentence,
                               re_match "^[a-z]+ (is|are|was|were|has|have|can|should|must|will)"
                                        first_sentence NoFlags) first_sentences) in
                   let body_para_count := length paragraphs - 2 in
                   if 0 <? body_para_count
                   then r1 ← truediv (QofN transition_starts) (QofN body_para_count);
                        r2 ← truediv (QofN topic_sentence_pattern) (QofN body_para_count);
                        Ok (flag_if (Qgtb r1 0.6) TransitionHeavy
                            ++ flag_if (Qgtb r2 0.8) FormulaicTopicSentences)
                   else Ok []
              else Ok []);
    Ok (check1 ++ check2 ++ check3 ++ check4 ++ check5).

(** *** Headings *)

Definition heading_patterns : list string := [
  "^#{1,3}\s+.+$";
  "^[A-Z][^.!?]*:$";
  "^\*\*[^*]+\*\*$";
  "^[IVX]+\.\s+[A-Z]";
  "^\d+\.\s+[A-Z][^.!?]{5,}$";
  "^[A-Z][a-z]+(\s+[A-Z][a-z]+){1,5}$"].

Definition ai_heading_patterns : list string := [
  "introduction";
  "background";
  "overview";
  "main\s*(body|points?|arguments?)";
  "(key\s*)?(points?|findings?|takeaways?)";
  "(analysis|discussion)";
  "conclusion";
  "(final\s*)?thoughts?";
  "summary"].

Definition check_headings_structure (text : string) : list heading_flag :=
  if negb (nonempty text) then []
  else
    let lines := split_sep newline text in
    let headings_found :=
      List.filter (λ line,
          nonempty line && existsb (λ pattern, re_match pattern line MULTILINE) heading_patterns)
        (strip <$> lines) in
    if 3 <=? length headings_found
    then
      let ai_style_count :=
        length (List.filter (λ heading, any_search ai_heading_patterns (lower heading))
                            headings_found) in
      let numbered :=
        length (List.filter (λ h, re_match "^\d+\.?\s" h NoFlags) headings_found) in
      flag_if (2 <=? ai_style_count) (AITypicalHeadings ai_style_count)
      ++ flag_if (3 <=? numbered) NumberedHeadings
    else [].

(** *** Prose handed in as notes *)

Definition prose_transition_words : list string := [
  "however"; "therefore"; "furthermore"; "additionally";
  "moreover"; "consequently"; "thus"; "hence"].

Definition bullet_patterns : string :=
  "^[\-\*\•\◦\▪]\s|^\d+[\.\)]\s|^[a-z][\.\)]\s".

Definition check_paragraph_as_prose_in_notes (text : string) : result (list prose_flag) :=
  if negb (nonempty text) then Ok []
  else
    let paragraphs := paragraphs_of text in
    let paragraphs :=
      if bool_decide (paragraphs = [])
      then stripped_pieces (split_sep newline text)
      else paragraphs in
    (* 1. Long continuous paragraphs *)
    let long_paragraphs :=
      length (List.filter (λ p, 40 <? length (split_ws p)) paragraphs) in
    let indicator1 := if 2 <=? long_paragraphs then 1 else 0 in
    (* 2. Lack of bullet points or numbering *)
    let bulleted_lines :=
      length (List.filter (λ line, re_match bullet_patterns (strip line) NoFlags)
                          (split_sep newline text)) in
    let total_lines :=
      length (List.filter (λ l, nonempty (strip l)) (split_sep newline text)) in
    indicator2 ← (if 5 <? total_lines
                  then r ← truediv (QofN bulleted_lines) (QofN total_lines);
                       Ok (if Qltb r 0.2 then 1 else 0)
                  else Ok 0);
    (* 3. Sentences connected with transitions *)
    let transition_count :=
      sum_list ((λ t, str_count (lower text) t) <$> prose_transition_words) in
    let indicator3 := if 3 <=? transition_count then 1 else 0 in
    (* 4. High complete sentence ratio *)
    let sentences := sentences_of text in
    complete ← count_when is_complete sentences;
    ratio ← (if bool_decide (sentences ≠ [])
             then truediv (QofN complete) (QofN (length sentences))
             else Ok 0%Q);
    let indicator4 := if Qgtb ratio 0.6 then 1 else 0 in
    let prose_indicators := indicator1 + indicator2 + indicator3 + indicator4 in
    Ok (flag_if (2 <=? prose_indicators) (ProseNotNotes prose_indicators)
        ++ flag_if (3 <=? prose_indicators) StrongProseEvidence).

(** *** Bibliographic markers *)

Definition vague_citations : list string := [
  "according to (?:research|studies|experts|scientists)";
  "studies (?:show|suggest|indicate|have shown)";
  "research (?:shows|suggests|indicates|has shown)";
  "experts (?:say|believe|argue|suggest)";
  "it has been (?:shown|proven|demonstrated|found)"].

(** APA style: (Author, Year) and Author (Year). *)
Definition apa_parenthetical : string :=
  "\(([A-Z][a-z]+(?:\s+(?:&|and)\s+[A-Z][a-z]+)?(?:\s+et\s+al\.)?),?\s*(\d{4})\)".
Definition apa_narrative : string :=
  "([A-Z][a-z]+(?:\s+(?:&|and)\s+[A-Z][a-z]+)?(?:\s+et\s+al\.)?)\s*\((\d{4})\)".

Definition common_names : list string :=
  ["smith"; "johnson"; "williams"; "brown"; "jones"; "davis"; "miller"].

(** [(author.split()[0].replace(",", ""), year)] *)
Definition first_author (citation : string * string) : result (string * string) :=
  surname ← index0 (split_ws citation.1);
  Ok (remove_char ","%char surname, citation.2).

(** The block under [if all_citations:], for citations that are there. *)
Definition citation_pattern_flags (all_citations : list (string * string))
  : result (list bib_flag) :=
  (* Check for round years *)
  let round_years := length (List.filter (λ c, endswith "0" c.2) all_citations) in
  round ← (if 3 <=? length all_citations
           then r ← truediv (QofN round_years) (QofN (length all_citations));
                Ok (flag_if (Qgtb r 0.5) (RoundYears round_years (length all_citations)))
           else Ok []);
  (* Check for very common/generic author names *)
  let generic_authors :=
    length (List.filter (λ c, bool_decide (lower c.1 ∈ common_names)) all_citations) in
  let generic := flag_if (2 <=? generic_authors) (CommonSurnames generic_authors) in
  (* Check for citations clustered in same year *)
  let years := snd <$> all_citations in
  let year_counts := Counter years in
  top ← (if bool_decide (year_counts ≠ [])
         then index0 (most_common_1 year_counts)
         else Ok ("None", 0));
  let '(most_common_year, count) := top in
  clustered ← (if 3 <=? count
               then r ← truediv (QofN count) (QofN (length all_citations));
                    Ok (flag_if (Qgtb r 0.4) (ClusteredYear most_common_year count))
               else Ok []);
  Ok (round ++ generic ++ clustered).

(** The flags that report citations the verification did not find. *)
Definition verification_flags (verification_results : verification) : list bib_flag :=
  if 0 <? v_not_found verification_results
  then
    let not_found_list :=
      List.filter (λ d, match d.2 with StatusNotFound => true | _ => false end)
                  (v_details verification_results) in
    NotVerified (v_not_found verification_results)
    :: ((λ item, NotVerifiedItem item.1.1 item.1.2) <$> take 3 not_found_list)
    ++ flag_if (3 <? length not_found_list) (NotVerifiedMore (length not_found_list - 3))
  else [].

Definition check_bibliographic_markers (text : string) (verify_citations : bool)
  : result (list bib_flag) :=
  if negb (nonempty text) then Ok []
  else
    let text_lower := lower text in
    (* 1. Check for vague citation language *)
    let vague_count :=
      sum_list ((λ pattern, length (re_findall pattern text_lower NoFlags)) <$> vague_citations) in
    let vague := flag_if (3 <=? vague_count) (VagueCitations vague_count) in
    (* 2. Extract actual citations *)
    let apa_citations := re_findall2 apa_parenthetical text ++ re_findall2 apa_narrative text in
    all_citations ← for_each first_author apa_citations;
    (* 3. Check for suspicious patterns in citations *)
    patterns ← (if bool_decide (all_citations ≠ [])
                then citation_pattern_flags all_citations
                else Ok []);
    (* 4. Check for missing reference list *)
    let has_references_section :=
      re_search "(references|works?\s+cited|bibliography)\s*[\n:]" text_lower in
    let missing :=
      flag_if ((3 <=? length all_citations) && negb has_references_section) MissingReferences in
    (* 5. Verify citations if requested *)
    let verified :=
      if verify_citations && bool_decide (all_citations ≠ [])
      then verification_flags (verify_citations_batch (list_to_set all_citations))
      else [] in
    Ok (vague ++ patterns ++ missing ++ verified).

(** *** The analysis of one submission *)

(** [other_sub.get("user", {}).get("name", f"User {other_user_id}")] *)
Definition other_name (other_sub : submission) (other_user_id : option Z) : result string :=
  let fallback := "User " +:+ fmt_int other_user_id in
  match s_user other_sub with
  | Missing => Ok fallback
  | PyNone => Raise AttributeError
  | Present u => Ok (fmt_str (get_or (u_name u) fallback))
  end.

(** 18. The loop over the other submissions. *)
Fixpoint cross_submission_scan (body : string) (current_user_id : option Z)
    (all_submissions : list submission) : result (list flag) :=
  match all_submissions with
  | [] => Ok []
  | other_sub :: rest =>
      let other_user_id := get (s_user_id other_sub) in
      if bool_decide (other_user_id = current_user_id)
      then cross_submission_scan body current_user_id rest
      else
        let other_body := get_or (s_body other_sub) "" in
        if truthy other_body
        then
          let similarity := calculate_text_similarity body (default "" other_body) in
          if Qgeb similarity DUPLICATE_SIMILARITY_THRESHOLD
          then other_user_name ← other_name other_sub other_user_id;
               Ok [HighlySimilar other_user_name similarity]
          else cross_submission_scan body current_user_id rest
        else cross_submission_scan body current_user_id rest
  end.

(** The checks on a body that is not empty, in the order of the source;
    each definition is one numbered step of [analyze_submission]. *)

(** 1. Length check (always enabled) *)
Definition length_flags (body : string) : list flag :=
  let word_count := count_words body in
  let min_words := get_threshold "min_word_count" in
  flag_if ((0 <? word_count) && (Z.of_nat word_count <? min_words)%Z)
          (VeryShortText word_count).

(** 2. AI Transitions check *)
Definition transition_flags (body : string) : list flag :=
  if is_check_enabled "ai_transitions"
  then let transition_count := check_ai_transitions body in
       let threshold := get_threshold "ai_transition_count" in
       flag_if (threshold <=? Z.of_nat transition_count)%Z (ClichedTransitions transition_count)
  else [].

(** 3. Hedge phrases *)
Definition hedge_flags (body : string) : list flag :=
  if is_check_enabled "hedge_phrases"
  then let hedge_count := check_hedge_phrases body in
       flag_if (2 <=? hedge_count) (ExcessiveHedging hedge_count)
  else [].

(** 4. Vocabulary inflation *)
Definition vocabulary_flags (body : string) : list flag :=
  if is_check_enabled "inflated_vocabulary"
  then let inflated := check_inflated_vocabulary body in
       flag_if (3 <=? length inflated) (InflatedVocabulary (take 3 inflated))
  else [].

(** 5. Generic/vague content *)
Definition generic_flags (body : string) : list flag :=
  if is_check_enabled "generic_phrases"
  then let generic_count := check_generic_content body in
       flag_if (3 <=? generic_count) (GenericContent generic_count)
  else [].

(** 6. Over-balanced writing *)
Definition balance_flags (body : string) : list flag :=
  if is_check_enabled "balance_markers"
  then let balance_count := check_balance_markers body in
       flag_if (2 <=? balance_count) (OverBalanced balance_count)
  else [].

(** 7. Excessive passive voice *)
Definition passive_voice_flags (body : string) : result (list flag) :=
  if is_check_enabled "passive_voice"
  then let passive_count := check_passive_voice body in
       let total_sentences := length (re_split_sentences body) in
       passive_threshold ← truediv (inject_Z (get_threshold "passive_voice_percent")) 100;
       if 5 <? total_sentences
       then r ← truediv (QofN passive_count) (QofN total_sentences);
            Ok (flag_if (Qgtb r passive_threshold) (ExcessivePassiveVoice r))
       else Ok []
  else Ok [].

(** 8. Lack of personal markers *)
Definition personal_flags (body : string) : list flag :=
  if is_check_enabled "personal_markers"
  then let personal_count := check_personal_markers body in
       flag_if ((200 <? count_words body) && (personal_count <? 3)) LacksPersonalLanguage
  else [].

(** 9. Lack of emotional markers *)
Definition emotional_flags (body : string) : list flag :=
  if is_check_enabled "emotional_markers"
  then let emotional_count := check_emotional_markers body in
       flag_if ((200 <? count_words body) && (emotional_count =? 0)) NoEmotionalLanguage
  else [].

(** 10. Uniform paragraph structure *)
Definition uniformity_flags (body : string) : result (list flag) :=
  if is_check_enabled "complete_sentences"
  then uniform ← uniform_paragraphs body;
       Ok (flag_if uniform UniformParagraphs)
  else Ok [].

(** 11. Repetitive reasoning (always enabled) *)
Definition repetitive_flags (body : string) : result (list flag) :=
  repetitive ← check_repetitive_reasoning body;
  Ok (flag_if repetitive RepetitiveReasoning).

(** 12. Copy-paste indicators *)
Definition copy_paste_flags (body : string) : list flag :=
  if is_check_enabled "copy_paste"
  then let copy_indicators := check_copy_paste_indicators body in
       flag_if (bool_decide (copy_indicators ≠ [])) (CopyPasteIndicators copy_indicators)
  else [].

(** 13. Suspiciously polished (complete sentences) *)
Definition polish_flags (body : string) : result (list flag) :=
  if is_check_enabled "complete_sentences"
  then completeness ← check_sentence_completeness body;
       completeness_threshold ←
         truediv (inject_Z (get_threshold "complete_sentence_percent")) 100;
       if inverted "complete_sentences"
       then (* For notes: flag HIGH completeness as suspicious *)
            Ok (flag_if (Qgtb completeness completeness_threshold && (50 <? count_words body))
                        (TooPolishedForNotes completeness))
       else (* Normal: flag high completeness as AI indicator *)
            Ok (flag_if (Qgtb completeness completeness_threshold && (100 <? count_words body))
                        (SuspiciouslyPolished completeness))
  else Ok [].

(** 14. Essay-level organization checks *)
Definition organization_flags (body : string) : result (list flag) :=
  if is_check_enabled "essay_organization"
  then org_results ← check_essay_organization body;
       Ok (EssayFlag <$> (org_results : list essay_flag))
  else Ok [].

(** 15. Heading structure checks *)
Definition heading_flags (body : string) : list flag :=
  if is_check_enabled "headings_structure"
  then HeadingFlag <$> check_headings_structure body
  else [].

(** 16. For notes/outlines: check if submission is actually prose *)
Definition prose_flags (body : string) : result (list flag) :=
  if is_check_enabled "paragraph_structure"
  then if inverted "paragraph_structure"
       then prose_results ← check_paragraph_as_prose_in_notes body;
            Ok (ProseFlag <$> (prose_results : list prose_flag))
       else Ok []
  else Ok [].

(** 17. Bibliographic checks (if text is long enough to likely have citations) *)
Definition bibliographic_flags (body : string) : result (list flag) :=
  if 300 <? count_words body
  then bib_results ← check_bibliographic_markers body VERIFY_CITATIONS;
       Ok (BibFlag <$> (bib_results : list bib_flag))
  else Ok [].

(** 18. Check for cross-submission similarity *)
Definition cross_submission_flags (body : string) (current_user_id : option Z)
    (all_submissions : list submission) : result (list flag) :=
  if is_check_enabled "cross_submission"
  then cross_submission_scan body current_user_id all_submissions
  else Ok [].

Definition analyze_body (body : string) (current_user_id : option Z)
    (all_submissions : list submission) : result (list flag) :=
  f7 ← passive_voice_flags body;
  f10 ← uniformity_flags body;
  f11 ← repetitive_flags body;
  f13 ← polish_flags body;
  f14 ← organization_flags body;
  f16 ← prose_flags body;
  f17 ← bibliographic_flags body;
  f18 ← cross_submission_flags body current_user_id all_submissions;
  Ok (length_flags body ++ transition_flags body ++ hedge_flags body
      ++ vocabulary_flags body ++ generic_flags body ++ balance_flags body
      ++ f7 ++ personal_flags body ++ emotional_flags body ++ f10 ++ f11
      ++ copy_paste_flags body ++ f13 ++ f14 ++ heading_flags body ++ f16
      ++ f17 ++ f18).

(** The two checks on one attached file. *)
Definition check_attachment (file : attachment) : result (list flag) :=
  let file_size := get_or (a_size file) 0%Z in
  let file_name := get_or (a_filename file) "unknown" in
  match file_size with
  | None => Raise TypeError
  | Some file_size =>
      Ok (flag_if ((0 <? file_size)%Z && (file_size <? MIN_FILE_SIZE)%Z)
                  (SmallFile (fmt_str file_name) file_size)
          ++ flag_if (check_generic_filename file_name)
                     (GenericFilename (fmt_str file_name)))
  end.

Definition analyze_submission (sub : submission) (all_submissions : list submission)
  : result (list flag) :=
  (* Check text body *)
  let body := get_or (s_body sub) "" in
  text_flags ← (if truthy body
                then analyze_body (default "" body) (get (s_user_id sub)) all_submissions
                else Ok []);
  (* Check attachments (always enabled) *)
  let attachments := default [] (get_or (s_attachments sub) []) in
  file_flags ← for_each check_attachment attachments;
  let url := get (s_url sub) in
  Ok (text_flags ++ concat file_flags
      ++ flag_if (truthy url && negb (truthy body) && bool_decide (attachments = []))
                 UrlNoDescription).

(** ** The analysis of an assignment and of a discussion *)

(** A dictionary with integer keys, as the list of its entries in the order
    of their insertion: [d[k] = v] and [d.get(k)]. *)
Fixpoint dict_set {V} (k : Z) (v : V) (d : list (Z * V)) : list (Z * V) :=
  match d with
  | [] => [(k, v)]
  | (k', v') :: rest =>
      if bool_decide (k' = k) then (k, v) :: rest else (k', v') :: dict_set k v rest
  end.

Fixpoint dict_get {V} (k : Z) (d : list (Z * V)) : option V :=
  match d with
  | [] => None
  | (k', v') :: rest => if bool_decide (k' = k) then Some v' else dict_get k rest
  end.

(** An identifier that counts as true: an integer other than 0. *)
Definition truthy_id (v : option Z) : option Z :=
  match v with
  | Some z => if bool_decide (z = 0%Z) then None else Some z
  | None => None
  end.

(** A submission as the API delivers it: what [analyze_submission] reads of
    it, and its ["workflow_state"]. *)
Record fetched_submission := {
  f_submission : submission;
  f_workflow_state : field string
}.

(** What the program reads of an enrolment. *)
Record enrollment := { e_user_id : field Z }.

(** [get_submissions], from the list [data] that the API has answered:
    [{sub.get("user_id"): sub for sub in data if sub.get("user_id")}].  A
    request that fails gives the empty dictionary, as the empty list does. *)
Definition get_submissions (data : list fetched_submission)
  : list (Z * fetched_submission) :=
  foldl (λ d sub,
           match truthy_id (get (s_user_id (f_submission sub))) with
           | Some user_id => dict_set user_id sub d
           | None => d
           end)
        [] data.

(** The body of the loop of [analyze_assignment] over the students; the state
    is the pair of [student_flags] and [submission_texts]. *)
Definition analyze_student (submissions : list (Z * fetched_submission))
    (all_submissions_list : list submission) (student : enrollment)
    (st : gmap Z (list flag) * gmap Z string)
  : result (gmap Z (list flag) * gmap Z string) :=
  match truthy_id (get (e_user_id student)) with
  | None => Ok st
  | Some user_id =>
      match dict_get user_id submissions with
      | Some sub =>
          if bool_decide (get (f_workflow_state sub) ≠ Some "unsubmitted")
          then
            flags ← analyze_submission (f_submission sub) all_submissions_list;
            let student_flags :=
              if bool_decide (flags ≠ []) then <[user_id := flags]> st.1 else st.1 in
            (* Store submission text for cross-assignment analysis *)
            let body := get_or (s_body (f_submission sub)) "" in
            let submission_texts :=
              if truthy body then <[user_id := default "" body]> st.2 else st.2 in
            Ok (student_flags, submission_texts)
          else Ok st
      | None => Ok st
      end
  end.

(** [analyze_assignment], from the answer [data] of the API to the request
    for the submissions of the assignment. *)
Definition analyze_assignment (data : list fetched_submission) (students : list enrollment)
  : result (gmap Z (list flag) * gmap Z string) :=
  let submissions := get_submissions data in
  if bool_decide (submissions = []) then Ok (∅, ∅)
  else
    let all_submissions_list := (λ entry, f_submission entry.2) <$> submissions in
    fold_result (analyze_student submissions all_submissions_list) students (∅, ∅).

(** An entry of a discussion: what the program reads of it.  The entries of
    a discussion carry their text under ["message"]; ["body"] is the key
    under which [analyze_submission] looks for the text of the other
    entries. *)
Inductive post := Post {
  p_user_id : field Z;
  p_message : field string;
  p_body : field string;
  p_user : field user_info;
  p_replies : field (list post)
}.

(** [flatten_posts]: an entry, then its replies and theirs, in this order.
    An entry whose ["replies"] is [None] cannot be iterated over. *)
Fixpoint flatten_post (p : post) : result (list post) :=
  match p_replies p with
  | Missing => Ok [p]
  | PyNone => Raise TypeError
  | Present replies =>
      rest ← (fix flatten_all (posts : list post) : result (list post) :=
                match posts with
                | [] => Ok []
                | q :: posts' =>
                    here ← flatten_post q;
                    later ← flatten_all posts';
                    Ok (here ++ later)
                end) replies;
      Ok (p :: rest)
  end.

Fixpoint flatten_posts (posts : list post) : result (list post) :=
  match posts with
  | [] => Ok []
  | q :: posts' =>
      here ← flatten_post q;
      later ← flatten_posts posts';
      Ok (here ++ later)
  end.

(** An entry among the [all_submissions] of [analyze_submission], which
    reads the user, the body and the name of the other submissions only. *)
Definition post_as_submission (p : post) : submission := {|
  s_user_id := p_user_id p;
  s_body := p_body p;
  s_attachments := Missing;
  s_url := Missing;
  s_user := p_user p
|}.

(** [{"body": message, "user_id": user_id, "workflow_state": "submitted"}] *)
Definition post_submission (user_id : Z) (message : string) : submission := {|
  s_user_id := Present user_id;
  s_body := Present message;
  s_attachments := Missing;
  s_url := Missing;
  s_user := Missing
|}.

(** [{student.get("user_id") for student in students if student.get("user_id")}] *)
Definition student_user_ids (students : list enrollment) : gset Z :=
  list_to_set (omap (λ student, truthy_id (get (e_user_id student))) students).

(** The body of the loop of [analyze_discussion_posts] over the posts; the
    state is the pair of [student_flags] and [post_texts]. *)
Definition analyze_post (ids : gset Z) (all_posts : list post) (p : post)
    (st : gmap Z (list flag) * gmap Z string)
  : result (gmap Z (list flag) * gmap Z string) :=
  match get (p_user_id p) with
  | None => Ok st
  | Some user_id =>
      (* Only analyze posts from enrolled students *)
      if bool_decide (user_id ∈ ids)
      then
        let message := get_or (p_message p) "" in
        if truthy message
        then
          let message := default "" message in
          flags ← analyze_submission (post_submission user_id message)
                     (post_as_submission <$> all_posts);
          let student_flags :=
            if bool_decide (flags ≠ [])
            then <[user_id := default [] (st.1 !! user_id) ++ flags]> st.1
            else st.1 in
          (* Store post text for cross-analysis *)
          let post_texts :=
            <[user_id := default "" (st.2 !! user_id) +:+ " " +:+ message]> st.2 in
          Ok (student_flags, post_texts)
        else Ok st
      else Ok st
  end.

(** [analyze_discussion_posts], from the entries that the API has answered
    for the topic. *)
Definition analyze_discussion_posts (entries : list post) (students : list enrollment)
  : result (gmap Z (list flag) * gmap Z string) :=
  if bool_decide (entries = []) then Ok (∅, ∅)
  else
    (* Flatten replies to get all posts *)
    all_posts ← flatten_posts entries;
    fold_result (analyze_post (student_user_ids students) all_posts) all_posts (∅, ∅).

(** ** White-text keywords *)

Inductive white_text_flag :=
  | KeywordsDetected (found : list string)
      (* f"White text keywords detected: {', '.join(found)}" *)
  | HighConfidence
      (* "HIGH CONFIDENCE: Most/all white text keywords present - likely AI-generated from prompt" *)
  | MediumConfidence.
      (* "MEDIUM CONFIDENCE: Multiple white text keywords found" *)

(** The dictionary that [check_white_text_keywords] returns, without its
    entry ["detection_rate"], which renders the score as a text. *)
Record white_text := {
  wt_flags : list white_text_flag;
  wt_found : list string;
  wt_missing : list string;
  wt_score : Q
}.

(** The loop over the keywords: the lists [found] and [missing], each in the
    order of the keywords. *)
Fixpoint find_keywords (text_lower : string) (keywords : list string)
  : list string * list string :=
  match keywords with
  | [] => ([], [])
  | keyword :: rest =>
      let keyword_lower := strip (lower keyword) in
      let '(found, missing) := find_keywords text_lower rest in
      if contains keyword_lower text_lower
      then (keyword :: found, missing)
      else (found, keyword :: missing)
  end.

Definition check_white_text_keywords (text : string) (keywords : list string)
  : result white_text :=
  if negb (nonempty text) || bool_decide (keywords = [])
  then Ok {| wt_flags := []; wt_found := []; wt_missing := []; wt_score := 0 |}
  else
    let text_lower := lower text in
    let '(found, missing) := find_keywords text_lower keywords in
    score ← (if bool_decide (keywords ≠ [])
             then truediv (QofN (length found)) (QofN (length keywords))
             else Ok 0%Q);
    let flags :=
      if bool_decide (found ≠ [])
      then KeywordsDetected found
           :: (if Qgeb score 0.8 then [HighConfidence]
               else if Qgeb score 0.5 then [MediumConfidence]
               else [])
      else [] in
    Ok {| wt_flags := flags; wt_found := found; wt_missing := missing; wt_score := score |}.

(** ** Key phrases *)

(** [sep.join(l)] *)
Fixpoint join (sep : string) (l : list string) : string :=
  match l with
  | [] => ""
  | x :: rest =>
      match rest with
      | [] => x
      | _ :: _ => x +:+ sep +:+ join sep rest
      end
  end.

(** The characters of [s] that satisfy [keep], in their order. *)
Fixpoint filter_chars (keep : ascii → bool) (s : string) : string :=
  match s with
  | EmptyString => EmptyString
  | String c s' => if keep c then String c (filter_chars keep s') else filter_chars keep s'
  end.

(** The position of the first [c] in [s]. *)
Fixpoint find_char (c : ascii) (s : string) : option nat :=
  match s with
  | EmptyString => None
  | String a s' => if bool_decide (a = c) then Some 0 else S <$> find_char c s'
  end.

(** [re.sub(r'<[^>]+>', '', s)]: a [<] opens a tag when a [>] follows it
    later in the text and at least one character lies between them; the tag
    ends at the first such [>].  Tags are found from left to right and
    removed.  [skip] counts the characters of a recognised tag still to
    pass. *)
Fixpoint remove_tags_from (skip : nat) (s : string) : string :=
  match s with
  | EmptyString => EmptyString
  | String c s' =>
      match skip with
      | S k => remove_tags_from k s'
      | O =>
          if bool_decide (c = "<"%char)
          then match find_char ">"%char s' with
               | Some (S j) => remove_tags_from (S (S j)) s'
               | _ => String c (remove_tags_from 0 s')
               end
          else String c (remove_tags_from 0 s')
      end
  end.

Definition remove_tags (s : string) : string := remove_tags_from 0 s.

(** [re.sub(r'\s+', ' ', s)]: every maximal run of white space becomes one
    space.  [in_run] says that the previous character was white space. *)
Fixpoint collapse_ws_from (in_run : bool) (s : string) : string :=
  match s with
  | EmptyString => EmptyString
  | String c s' =>
      if isspace c
      then (if in_run then collapse_ws_from true s'
            else String " "%char (collapse_ws_from true s'))
      else String c (collapse_ws_from false s')
  end.

Definition collapse_ws (s : string) : string := collapse_ws_from false s.

(** [range(a, b)] *)
Definition range (a b : nat) : list nat := seq a (b - a).

(** The phrases that one sentence contributes: the windows of [min_words] to
    [max_words] consecutive words, the shorter windows first and each length
    from left to right, in lower case, that have at least [min_words - 1]
    words of more than three characters. *)
Definition phrases_of_sentence (min_words max_words : nat) (sentence : string)
  : list string :=
  let words := split_ws (strip sentence) in
  if length words <? min_words then []
  else
    len ← range min_words (min (max_words + 1) (length words + 1));
    i ← seq 0 (Z.to_nat (Z.of_nat (length words) - Z.of_nat len + 1));
    let phrase := lower (join " " (take len (drop i words))) in
    let content_words := List.filter (λ w, 3 <? String.length w) (split_ws phrase) in
    if (Z.of_nat min_words - 1 <=? Z.of_nat (length content_words))%Z
    then [phrase] else [].

(** [extract_key_phrases(text, min_words, max_words)] for numbers of words
    that are not negative; the program calls it with the defaults 3 and 8. *)
Definition extract_key_phrases (text : string) (min_words max_words : nat) : list string :=
  if negb (nonempty text) then []
  else
    (* Clean text *)
    let text := remove_tags text in
    let text := strip (collapse_ws text) in
    let sentences := re_split_sentences text in
    sentence ← sentences;
    phrases_of_sentence min_words max_words sentence.

(** [\w] of Python's [re] in a pattern of type [str], on the code points
    below 256: the digits, the letters, the underscore, and the letters and
    numbers of Latin-1. *)
Definition is_word_char (c : ascii) : bool :=
  let n := code c in
  ((48 <=? n) && (n <=? 57) || (65 <=? n) && (n <=? 90) || (n =? 95)
   || (97 <=? n) && (n <=? 122) || (n =? 170) || (178 <=? n) && (n <=? 179)
   || (n =? 181) || (185 <=? n) && (n <=? 186) || (188 <=? n) && (n <=? 190)
   || (192 <=? n) && (n <=? 214) || (216 <=? n) && (n <=? 246) || (248 <=? n))%N.

(** The order of Python on [str]: by code points, a proper prefix first. *)
Fixpoint string_leb (a b : string) : bool :=
  match a, b with
  | EmptyString, _ => true
  | String _ _, EmptyString => false
  | String x a', String y b' =>
      (code x <? code y)%N || ((code x =? code y)%N && string_leb a' b')
  end.

Definition string_le (a b : string) : Prop := string_leb a b = true.

Global Instance string_le_dec (a b : string) : Decision (string_le a b).
Proof. unfold string_le. apply _. Defined.

(** [normalize_phrase]: the words of the phrase in lower case and without
    punctuation, in increasing order and joined by single spaces.  [sorted]
    is the merge sort of the library; on an order in which two texts that
    compare equal are the same text, every sorting function gives the same
    list. *)
Definition normalize_phrase (phrase : string) : string :=
  (* Remove punctuation *)
  let phrase := filter_chars (λ c, is_word_char c || isspace c) (lower phrase) in
  (* Sort words to handle reordering *)
  let words := merge_sort string_le (split_ws phrase) in
  join " " words.

(** ** Example inputs *)

(** [s * n] *)
Fixpoint str_repeat (n : nat) (s : string) : string :=
  match n with
  | O => ""
  | S k => s +:+ str_repeat k s
  end.

(** Notes of 56 words in 7 complete sentences. *)
Definition polished_notes : string :=
  str_repeat 7 "Alpha beta gamma delta epsilon zeta eta theta. ".

(** Three paragraphs of three words each. *)
Definition uniform_text : string :=
  "a b c" +:+ newline +:+ newline +:+ "a b c" +:+ newline +:+ newline +:+ "d e f".

Definition fox : string := "the quick brown fox jumps over the lazy dog".

(** Texts with one citation and with three citations of the same year. *)
Definition one_citation : string := "(Smith, 2019)".
Definition three_citations : string :=
  "(Smith, 2019) and (Jones, 2019) and (Brown, 2019).".

(** What Python's [re] finds for the patterns of the checks in the example
    texts above: the citations in parentheses of the last two texts, and no
    other match. *)
Definition example_engine : Regex := {|
  re_search := λ _ _, false;
  re_match := λ _ _ _, false;
  re_findall := λ _ _ _, [];
  re_findall2 := λ pattern text,
    if string_eqb pattern apa_parenthetical
    then if string_eqb text one_citation then [("Smith", "2019")]
         else if string_eqb text three_citations
              then [("Smith", "2019"); ("Jones", "2019"); ("Brown", "2019")]
              else []
    else []
|}.

(** A verification that has nothing to report. *)
Definition no_verification : verification :=
  {| v_verified := 0; v_not_found := 0; v_details := [] |}.

Definition notes_submission : submission := {|
  s_user_id := Present 1%Z;
  s_body := Present polished_notes;
  s_attachments := Missing;
  s_url := Missing;
  s_user := Missing
|}.

Definition uniform_submission : submission := {|
  s_user_id := Present 1%Z;
  s_body := Present uniform_text;
  s_attachments := PyNone;
  s_url := PyNone;
  s_user := Missing
|}.

(** A submission with a small attached file and no URL, and three other
    submissions: one of the same student, one of Ada with the same body, and a
    later one with the same body again. *)
Definition fox_submission : submission := {|
  s_user_id := Present 1%Z;
  s_body := Present fox;
  s_attachments := Present [{| a_filename := Present "essay_final.docx";
                               a_size := Present 500%Z |}];
  s_url := PyNone;
  s_user := Present {| u_name := Present "Grace" |}
|}.

Definition unrelated_submission : submission := {|
  s_user_id := Present 2%Z;
  s_body := Present "an entirely different answer about something else";
  s_attachments := Missing;
  s_url := Missing;
  s_user := Missing
|}.

Definition ada_submission : submission := {|
  s_user_id := Present 3%Z;
  s_body := Present "The quick brown fox jumps over the lazy dog ";
  s_attachments := Missing;
  s_url := Missing;
  s_user := Present {| u_name := Present "Ada" |}
|}.

Definition later_submission : submission := {|
  s_user_id := Present 4%Z;
  s_body := Present fox;
  s_attachments := Missing;
  s_url := Missing;
  s_user := Present {| u_name := Present "Alan" |}
|}.

(** A submission that is a link and nothing else. *)
Definition link_submission : submission := {|
  s_user_id := Present 5%Z;
  s_body := PyNone;
  s_attachments := Missing;
  s_url := Present "https://example.org/essay";
  s_user := Missing
|}.

(** Two assignments: Grace hands in the notes for the first, and Ada hands in
    the same text for the second. *)
Definition two_assignments : gmap Z assignment_data :=
  {[ 10%Z := {| ad_name := "Essay 1"; ad_submission_texts := {[ 1%Z := polished_notes ]} |};
     20%Z := {| ad_name := "Essay 2"; ad_submission_texts := {[ 3%Z := polished_notes ]} |} ]}.

Definition two_names : gmap Z string := {[ 1%Z := "Grace"; 3%Z := "Ada" ]}.

(** The match that the check across students reports for them. *)
Definition ada_grace_match : cross_match :=
  {| cm_student1 := "Ada"; cm_student1_id := 3;
     cm_assignment1 := "Essay 2"; cm_assignment1_id := 20;
     cm_student2 := "Grace"; cm_student2_id := 1;
     cm_assignment2 := "Essay 1"; cm_assignment2_id := 10;
     cm_similarity := 1 |}.

(** The submissions of Grace and of Ada as the API delivers them, and the
    two students. *)
Definition fetched_submissions : list fetched_submission := [
  {| f_submission := fox_submission; f_workflow_state := Present "submitted" |};
  {| f_submission := ada_submission; f_workflow_state := Present "submitted" |}].

Definition two_students : list enrollment := [
  {| e_user_id := Present 1%Z |}; {| e_user_id := Present 3%Z |}].

(** A post of Grace with a reply of Ada that repeats it. *)
Definition fox_thread : list post := [
  {| p_user_id := Present 1%Z; p_message := Present fox; p_body := Missing;
     p_user := Missing;
     p_replies := Present [
       {| p_user_id := Present 3%Z; p_message := Present fox; p_body := Missing;
          p_user := Missing; p_replies := Missing |}] |}].

(** ** Notions used in the statements *)

(** The numbered step of [analyze_submission] that issues a flag; 19 stands
    for the checks of the attachments and 20 for the check of the URL. *)
Definition step_of (f : flag) : nat :=
  match f with
  | VeryShortText _ => 1
  | ClichedTransitions _ => 2
  | ExcessiveHedging _ => 3
  | InflatedVocabulary _ => 4
  | GenericContent _ => 5
  | OverBalanced _ => 6
  | ExcessivePassiveVoice _ => 7
  | LacksPersonalLanguage => 8
  | NoEmotionalLanguage => 9
  | UniformParagraphs => 10
  | RepetitiveReasoning => 11
  | CopyPasteIndicators _ => 12
  | TooPolishedForNotes _ | SuspiciouslyPolished _ => 13
  | EssayFlag _ => 14
  | HeadingFlag _ => 15
  | ProseFlag _ => 16
  | BibFlag _ => 17
  | HighlySimilar _ _ => 18
  | SmallFile _ _ | GenericFilename _ => 19
  | UrlNoDescription => 20
  end.

Definition is_highly_similar (f : flag) : bool :=
  match f with HighlySimilar _ _ => true | _ => false end.

(** A submission that the cross-submission scan reports for [body]: it
    belongs to another student, has a body, and the similarity of the two
    bodies reaches the threshold. *)
Definition is_duplicate (body : string) (current_user_id : option Z)
    (other_sub : submission) : bool :=
  negb (bool_decide (get (s_user_id other_sub) = current_user_id))
  && truthy (get_or (s_body other_sub) "")
  && Qgeb (calculate_text_similarity body (default "" (get_or (s_body other_sub) "")))
          DUPLICATE_SIMILARITY_THRESHOLD.

(** The computation ends without an exception. *)
Definition returns {A} (r : result A) : Prop := ∃ a, r = Ok a.

(** What the two APA patterns ask of their first group: it begins with a
    capital letter. *)
Definition begins_with_capital (s : string) : Prop :=
  ∃ c rest, s = String c rest ∧ (65 ≤ code c ≤ 90)%N.

Definition apa_groups_capitalised {RE : Regex} : Prop :=
  ∀ pattern text author year,
    pattern ∈ [apa_parenthetical; apa_narrative] →
    (author, year) ∈ re_findall2 pattern text →
    begins_with_capital author.

(** A submission record as the analysis expects it: the size of an attached
    file, when it is given, is a number, and the user of the submission, when
    it is given, is a record. *)
Definition well_formed (s : submission) : Prop :=
  Forall (λ file, a_size file ≠ PyNone) (default [] (get_or (s_attachments s) []))
  ∧ s_user s ≠ PyNone.

(** A field that is missing or holds [None]. *)
Definition absent {A} (f : field A) : Prop := f = Missing ∨ f = PyNone.

(** All pairs of two entries of a list, the first one before the second. *)
Fixpoint all_pairs {A} (l : list A) : list (A * A) :=
  match l with
  | [] => []
  | x :: rest => ((λ y, (x, y)) <$> rest) ++ all_pairs rest
  end.

(** The sentences of a text, cut at the runs of [.], [!] and [?] and trimmed,
    that are longer than 20 characters. *)
Definition trimmed_long_sentences (text : string) : list string :=
  List.filter (λ s, 20 <? String.length s) (strip <$> re_split_sentences text).

(** Repetitive reasoning in the words of the specification: there are at
    least 5 such sentences, and more than 20% of all pairs of them have a
    similarity above 0.7. *)
Definition repetitive (text : string) : Prop :=
  let sentences := trimmed_long_sentences text in
  let pairs := all_pairs sentences in
  let similar :=
    List.filter (λ p, Qgtb (calculate_text_similarity p.1 p.2) 0.7) pairs in
  5 ≤ length sentences ∧ (0.2 * QofN (length pairs) < QofN (length similar))%Q.

(** A text of white space only. *)
Fixpoint blank (s : string) : bool :=
  match s with
  | EmptyString => true
  | String c s' => isspace c && blank s'
  end.

(** The number of the citations of a year. *)
Definition citations_in_year (year : string) (all_citations : list (string * string)) : nat :=
  length (List.filter (λ y, string_eqb y year) (snd <$> all_citations)).

(** More than 40% of the citations are of one year. *)
Definition clustered_in_one_year (all_citations : list (string * string)) : Prop :=
  ∃ year,
    (0.4 * QofN (length all_citations) < QofN (citations_in_year year all_citations))%Q.

(** The count that a [Counter] holds for a key. *)
Fixpoint count_in (y : string) (c : list (string * nat)) : nat :=
  match c with
  | [] => 0
  | (k, n) :: rest => if string_eqb k y then n else count_in y rest
  end.

(** The text that the structure [{user_id: {assignment_id: text}}] holds for a
    student and an assignment. *)
Definition text_of (student_submissions : gmap Z (gmap Z string)) (user_id assignment_id : Z)
  : option string :=
  student_submissions !! user_id ≫= λ assignments, assignments !! assignment_id.

(** ** Notions for the further properties *)

(** The name of the check that switches the step of a flag on and off; the
    steps 1, 11 and 17 and the checks of the attachments and of the URL have
    none. *)
Definition check_key (f : flag) : option string :=
  match step_of f with
  | 2 => Some "ai_transitions"
  | 3 => Some "hedge_phrases"
  | 4 => Some "inflated_vocabulary"
  | 5 => Some "generic_phrases"
  | 6 => Some "balance_markers"
  | 7 => Some "passive_voice"
  | 8 => Some "personal_markers"
  | 9 => Some "emotional_markers"
  | 10 | 13 => Some "complete_sentences"
  | 12 => Some "copy_paste"
  | 14 => Some "essay_organization"
  | 15 => Some "headings_structure"
  | 16 => Some "paragraph_structure"
  | 18 => Some "cross_submission"
  | _ => None
  end.

(** The step of a flag issues it for a body. *)
Definition issued (body : string) (current_user_id : option Z)
    (all_submissions : list submission) (f : flag) : Prop :=
  match step_of f with
  | 1 => f ∈ length_flags body
  | 2 => f ∈ transition_flags body
  | 3 => f ∈ hedge_flags body
  | 4 => f ∈ vocabulary_flags body
  | 5 => f ∈ generic_flags body
  | 6 => f ∈ balance_flags body
  | 7 => ∃ fl, passive_voice_flags body = Ok fl ∧ f ∈ fl
  | 8 => f ∈ personal_flags body
  | 9 => f ∈ emotional_flags body
  | 10 => ∃ fl, uniformity_flags body = Ok fl ∧ f ∈ fl
  | 11 => ∃ fl, repetitive_flags body = Ok fl ∧ f ∈ fl
  | 12 => f ∈ copy_paste_flags body
  | 13 => ∃ fl, polish_flags body = Ok fl ∧ f ∈ fl
  | 14 => ∃ fl, organization_flags body = Ok fl ∧ f ∈ fl
  | 15 => f ∈ heading_flags body
  | 16 => ∃ fl, prose_flags body = Ok fl ∧ f ∈ fl
  | 17 => ∃ fl, bibliographic_flags body = Ok fl ∧ f ∈ fl
  | 18 => ∃ fl, cross_submission_flags body current_user_id all_submissions = Ok fl ∧ f ∈ fl
  | _ => False
  end.

(** The words that [calculate_text_similarity] compares: those of the text in
    lower case, without the white space around it. *)
Definition words_of (text : string) : gset string := word_set (strip (lower text)).

(** ** Notions for the matches across students *)

(** The key of a submission in the list of all submissions: its student and
    its assignment. *)
Definition submission_key (x : Z * Z * string) : Z * Z := x.1.

(** The key under which the check remembers a pair of submissions. *)
Definition pair_key_of (p : (Z * Z * string) * (Z * Z * string)) : (Z * Z) * (Z * Z) :=
  sorted_pair (submission_key p.1) (submission_key p.2).

(** A pair of submissions that the check of different students reports. *)
Definition reportable (p : (Z * Z * string) * (Z * Z * string)) : Prop :=
  p.1.1.1 ≠ p.2.1.1 ∧ p.1.1.2 ≠ p.2.1.2
  ∧ (0.75 <= calculate_text_similarity p.1.2 p.2.2)%Q.

(** The entry that the check of different students appends for a pair. *)
Definition match_of (all_data : gmap Z assignment_data) (student_names : gmap Z string)
    (p : (Z * Z * string) * (Z * Z * string)) (m : cross_match) : Prop :=
  ∃ d1 d2,
    all_data !! p.1.1.2 = Some d1 ∧ all_data !! p.2.1.2 = Some d2
    ∧ m = {| cm_student1 := student_name student_names p.1.1.1;
             cm_student1_id := p.1.1.1;
             cm_assignment1 := ad_name d1;
             cm_assignment1_id := p.1.1.2;
             cm_student2 := student_name student_names p.2.1.1;
             cm_student2_id := p.2.1.1;
             cm_assignment2 := ad_name d2;
             cm_assignment2_id := p.2.1.2;
             cm_similarity := calculate_text_similarity p.1.2 p.2.2 |}.

(** The list of all submissions that check 2 builds. *)
Definition all_submissions_of (student_submissions : gmap Z (gmap Z string))
  : list (Z * Z * string) :=
  '(user_id, assignments) ← map_to_list student_submissions;
  '(assignment_id, text) ← map_to_list assignments;
  [(user_id, assignment_id, text)].

(** What check 2 has found when it has gone through the pairs [done]: every
    key it remembers is the key of a pair of [done], every match is the entry
    of a reportable pair of [done], and every reportable pair of [done] has
    its entry. *)
Definition cross_invariant (all_data : gmap Z assignment_data)
    (student_names : gmap Z string)
    (done : list ((Z * Z * string) * (Z * Z * string)))
    (st : gset ((Z * Z) * (Z * Z)) * list cross_match) : Prop :=
  (∀ key, key ∈ st.1 → key ∈ pair_key_of <$> done)
  ∧ (∀ m, m ∈ st.2 → ∃ p, p ∈ done ∧ reportable p ∧ match_of all_data student_names p m)
  ∧ (∀ p, p ∈ done → reportable p → ∃ m, m ∈ st.2 ∧ match_of all_data student_names p m).

(** ** Notions for the phrases *)

(** Every character of [s] satisfies [p]. *)
Fixpoint string_forall (p : ascii → bool) (s : string) : bool :=
  match s with
  | EmptyString => true
  | String c s' => p c && string_forall p s'
  end.

(** A word: a text that is not empty and has no white space. *)
Definition is_word (w : string) : Prop :=
  nonempty w = true ∧ string_forall (λ c, negb (isspace c)) w = true.

(** The characters that [normalize_phrase] keeps. *)
Definition kept (c : ascii) : bool := is_word_char c || isspace c.

(** ** Notions for the analysis of an assignment *)

(** A student of the list of enrolments. *)
Definition enrolled (students : list enrollment) (user_id : Z) : Prop :=
  ∃ student, student ∈ students ∧ truthy_id (get (e_user_id student)) = Some user_id.

(** The submissions of a student in the answer of the API. *)
Definition submissions_of (data : list fetched_submission) (user_id : Z)
  : list fetched_submission :=
  List.filter (λ sub, bool_decide (get (s_user_id (f_submission sub)) = Some user_id)) data.

(** The submission of a student that [analyze_assignment] analyses: the last
    one in the answer of the API, unless it is unsubmitted. *)
Definition handed_in (data : list fetched_submission) (user_id : Z)
    (sub : fetched_submission) : Prop :=
  last (submissions_of data user_id) = Some sub
  ∧ get (f_workflow_state sub) ≠ Some "unsubmitted".

(** ** Notions for the analysis of a discussion *)

(** The message of a post, when the post is of the given user and its message
    is not empty. *)
Definition message_of (user_id : Z) (p : post) : option string :=
  if bool_decide (get (p_user_id p) = Some user_id)
  then match get_or (p_message p) "" with
       | Some message => if nonempty message then Some message else None
       | None => None
       end
  else None.

(** The messages of the posts of a user, in the order of the posts. *)
Definition messages_of (user_id : Z) (all_posts : list post) : list string :=
  omap (message_of user_id) all_posts.

(** The text kept for a user: a space and a message, for every message. *)
Definition text_of_messages (messages : list string) : string :=
  foldl (λ text message, text +:+ " " +:+ message) "" messages.

(** * Properties *)

(** ** Exceptions and arithmetic *)

Lemma bind_Ok {A B} (m : result A) (f : A → result B) (b : B) :
  m ≫= f = Ok b ↔ ∃ a, m = Ok a ∧ f a = Ok b.
Proof.
  destruct m as [a|e]; simpl; split.
  - intros Hf. by exists a.
  - by intros (a' & [= <-] & Hf).
  - discriminate.
  - by intros (a' & [=] & _).
Qed.

Lemma nonempty_true (s : string) : nonempty s = true ↔ s ≠ "".
Proof. destruct s; simpl; split; congruence. Qed.

Lemma QofN_zero (n : nat) : Qeq_bool (QofN n) 0 = bool_decide (n = 0).
Proof.
  destruct n; [done|]. by rewrite bool_decide_eq_false_2.
Qed.

Lemma truediv_nat (a : Q) (n : nat) :
  n ≠ 0 → truediv a (QofN n) = Ok (a / QofN n)%Q.
Proof.
  intros Hn. unfold truediv. rewrite QofN_zero. by rewrite bool_decide_eq_false_2.
Qed.

Lemma ratio_range (n d : nat) : n ≤ d → 0 < d → (0 <= ratio n d <= 1)%Q.
Proof.
  intros Hle Hpos. unfold ratio, Qle. simpl. split; [lia|].
  rewrite Z.mul_1_r, Z.mul_1_l.
  assert (Z.pos (Pos.of_nat d) = Z.of_nat d) as ->; [|lia].
  destruct d; [lia|]. rewrite <- (Nat2Pos.id (S d)) at 2 by lia.
  by rewrite positive_nat_Z.
Qed.

Lemma Qgeb_true (a b : Q) : Qgeb a b = true ↔ (b <= a)%Q.
Proof. apply Qle_bool_iff. Qed.

Lemma Qltb_true (a b : Q) : Qltb a b = true ↔ (a < b)%Q.
Proof.
  unfold Qltb. rewrite negb_true_iff, <- not_true_iff_false, Qle_bool_iff.
  split; [apply Qnot_le_lt | apply Qlt_not_le].
Qed.

Lemma Qgtb_true (a b : Q) : Qgtb a b = true ↔ (b < a)%Q.
Proof. apply Qltb_true. Qed.

(** ** Similarity *)

Lemma similarity_symmetric (a b : string) :
  calculate_text_similarity a b = calculate_text_similarity b a.
Proof.
  unfold calculate_text_similarity, string_eqb.
  rewrite (orb_comm (negb (nonempty a))).
  destruct (negb (nonempty b) || negb (nonempty a)); [done|].
  rewrite (bool_decide_ext (strip (lower a) = strip (lower b))
                           (strip (lower b) = strip (lower a))) by (split; congruence).
  destruct (bool_decide (strip (lower b) = strip (lower a))); [done|].
  cbv zeta.
  rewrite (orb_comm (bool_decide (word_set (strip (lower a)) = ∅))).
  assert (∀ X Y : gset string, X ∩ Y = Y ∩ X) as Hi
    by (intros; apply set_eq; intros; rewrite !elem_of_intersection; tauto).
  assert (∀ X Y : gset string, X ∪ Y = Y ∪ X) as Hu
    by (intros; apply set_eq; intros; rewrite !elem_of_union; tauto).
  by rewrite (Hi (word_set (strip (lower a)))), (Hu (word_set (strip (lower a)))).
Qed.

Lemma similarity_reflexive (a : string) :
  a ≠ "" → calculate_text_similarity a a = 1%Q.
Proof.
  intros Ha%nonempty_true. unfold calculate_text_similarity, string_eqb.
  rewrite Ha. simpl. by rewrite bool_decide_eq_true_2.
Qed.

Lemma similarity_empty (x : string) :
  calculate_text_similarity "" x = 0%Q ∧ calculate_text_similarity x "" = 0%Q.
Proof.
  split; [done|]. unfold calculate_text_similarity. simpl. by rewrite orb_true_r.
Qed.

Lemma similarity_range (a b : string) : (0 <= calculate_text_similarity a b <= 1)%Q.
Proof.
  unfold calculate_text_similarity.
  destruct (negb (nonempty a) || negb (nonempty b)); [done|].
  destruct (string_eqb _ _); [done|]. cbv zeta.
  destruct (_ || _); [done|].
  case_bool_decide as Hu; [done|].
  apply ratio_range.
  - apply subseteq_size. intros x. rewrite elem_of_intersection, elem_of_union. tauto.
  - enough (size (word_set (strip (lower a)) ∪ word_set (strip (lower b))) ≠ 0) by lia.
    apply size_non_empty_iff. by intros ?%leibniz_equiv.
Qed.

(** C1. [calculate_text_similarity] is symmetric, gives 1.0 on a text that is
    not empty compared with itself, gives 0.0 as soon as one of the texts is
    empty, and always lies between 0 and 1. *)
Theorem similarity_score_invariant :
  (∀ a b, calculate_text_similarity a b = calculate_text_similarity b a)
  ∧ (∀ a, a ≠ "" → calculate_text_similarity a a = 1%Q)
  ∧ (∀ x, calculate_text_similarity "" x = 0%Q ∧ calculate_text_similarity x "" = 0%Q)
  ∧ (∀ a b, (0 <= calculate_text_similarity a b <= 1)%Q).
Proof.
  split; [exact similarity_symmetric|].
  split; [exact similarity_reflexive|].
  split; [exact similarity_empty | exact similarity_range].
Qed.

(** ** The steps of the analysis *)

Lemma Forall_flag_if {A} (P : A → Prop) (b : bool) (f : A) :
  P f → Forall P (flag_if b f).
Proof. destruct b; simpl; by repeat constructor. Qed.

Ltac invert_result :=
  repeat match goal with
  | H : _ ≫= _ = Ok _ |- _ => apply bind_Ok in H as (? & ? & H)
  | H : Ok _ = Ok _ |- _ => injection H as H; try subst
  | H : Raise _ = Ok _ |- _ => discriminate H
  | H : (if ?b then _ else _) = Ok _ |- _ => destruct b eqn:?
  end.

Ltac step_origin :=
  intros; invert_result;
  repeat match goal with
  | |- Forall _ (if ?b then _ else _) => destruct b
  | |- Forall _ (flag_if _ _) => by apply Forall_flag_if
  | |- Forall _ [] => constructor
  | |- Forall _ (_ <$> _) => by apply Forall_fmap, Forall_true
  end.

Lemma length_flags_step body : Forall (λ f, step_of f = 1) (length_flags body).
Proof. unfold length_flags. step_origin. Qed.

Lemma transition_flags_step body : Forall (λ f, step_of f = 2) (transition_flags body).
Proof. unfold transition_flags. step_origin. Qed.

Lemma hedge_flags_step body : Forall (λ f, step_of f = 3) (hedge_flags body).
Proof. unfold hedge_flags. step_origin. Qed.

Lemma vocabulary_flags_step body : Forall (λ f, step_of f = 4) (vocabulary_flags body).
Proof. unfold vocabulary_flags. step_origin. Qed.

Lemma generic_flags_step body : Forall (λ f, step_of f = 5) (generic_flags body).
Proof. unfold generic_flags. step_origin. Qed.

Lemma balance_flags_step body : Forall (λ f, step_of f = 6) (balance_flags body).
Proof. unfold balance_flags. step_origin. Qed.

Lemma passive_voice_flags_step body fl :
  passive_voice_flags body = Ok fl → Forall (λ f, step_of f = 7) fl.
Proof. unfold passive_voice_flags. step_origin. Qed.

Lemma personal_flags_step body : Forall (λ f, step_of f = 8) (personal_flags body).
Proof. unfold personal_flags. step_origin. Qed.

Lemma emotional_flags_step body : Forall (λ f, step_of f = 9) (emotional_flags body).
Proof. unfold emotional_flags. step_origin. Qed.

Lemma uniformity_flags_step body fl :
  uniformity_flags body = Ok fl → Forall (λ f, step_of f = 10) fl.
Proof. unfold uniformity_flags. step_origin. Qed.

Lemma repetitive_flags_step body fl :
  repetitive_flags body = Ok fl → Forall (λ f, step_of f = 11) fl.
Proof. unfold repetitive_flags. step_origin. Qed.

Lemma copy_paste_flags_step body : Forall (λ f, step_of f = 12) (copy_paste_flags body).
Proof. unfold copy_paste_flags. step_origin. Qed.

Lemma polish_flags_step body fl :
  polish_flags body = Ok fl → Forall (λ f, step_of f = 13) fl.
Proof. unfold polish_flags. step_origin. Qed.

Lemma organization_flags_step body fl :
  organization_flags body = Ok fl → Forall (λ f, step_of f = 14) fl.
Proof. unfold organization_flags. step_origin. Qed.

Lemma heading_flags_step body : Forall (λ f, step_of f = 15) (heading_flags body).
Proof. unfold heading_flags. step_origin. Qed.

Lemma prose_flags_step body fl :
  prose_flags body = Ok fl → Forall (λ f, step_of f = 16) fl.
Proof. unfold prose_flags. step_origin. Qed.

Lemma bibliographic_flags_step body fl :
  bibliographic_flags body = Ok fl → Forall (λ f, step_of f = 17) fl.
Proof. unfold bibliographic_flags. step_origin. Qed.

(** ** The cross-submission scan *)

Lemma scan_step body uid other rest :
  cross_submission_scan body uid (other :: rest) =
  if is_duplicate body uid other
  then other_user_name ← other_name other (get (s_user_id other));
       Ok [HighlySimilar other_user_name
             (calculate_text_similarity body (default "" (get_or (s_body other) "")))]
  else cross_submission_scan body uid rest.
Proof.
  unfold is_duplicate. simpl.
  destruct (bool_decide (get (s_user_id other) = uid)); [done|].
  destruct (truthy (get_or (s_body other) "")); [|done].
  by destruct (Qgeb _ _).
Qed.



Lemma scan_at_most_one body uid all flags :
  cross_submission_scan body uid all = Ok flags →
  length flags ≤ 1 ∧ Forall (λ f, step_of f = 18) flags.
Proof.
  revert flags. induction all as [|other rest IH]; intros flags.
  - intros [= <-]. split; [simpl; lia | constructor].
  - rewrite scan_step. destruct (is_duplicate body uid other); [|apply IH].
    intros (name & _ & [= <-])%bind_Ok. split; [simpl; lia | by repeat constructor].
Qed.

Lemma cross_submission_flags_step body uid all fl :
  cross_submission_flags body uid all = Ok fl → Forall (λ f, step_of f = 18) fl.
Proof.
  unfold cross_submission_flags. destruct (is_check_enabled _).
  - by intros [_ ?]%scan_at_most_one.
  - intros [= <-]. constructor.
Qed.

(** ** The flags of a body *)

Lemma analyze_body_Ok body uid all flags :
  analyze_body body uid all = Ok flags ↔
  ∃ f7 f10 f11 f13 f14 f16 f17 f18,
    passive_voice_flags body = Ok f7
    ∧ uniformity_flags body = Ok f10
    ∧ repetitive_flags body = Ok f11
    ∧ polish_flags body = Ok f13
    ∧ organization_flags body = Ok f14
    ∧ prose_flags body = Ok f16
    ∧ bibliographic_flags body = Ok f17
    ∧ cross_submission_flags body uid all = Ok f18
    ∧ flags = length_flags body ++ transition_flags body ++ hedge_flags body
        ++ vocabulary_flags body ++ generic_flags body ++ balance_flags body
        ++ f7 ++ personal_flags body ++ emotional_flags body ++ f10 ++ f11
        ++ copy_paste_flags body ++ f13 ++ f14 ++ heading_flags body ++ f16
        ++ f17 ++ f18.
Proof.
  unfold analyze_body. split.
  - intros H. invert_result. do 8 eexists. repeat (split; [eassumption|]). reflexivity.
  - intros (f7 & f10 & f11 & f13 & f14 & f16 & f17 & f18
            & -> & -> & -> & -> & -> & -> & -> & -> & ->). done.
Qed.

Lemma elem_of_step (k : nat) (l : list flag) (x : flag) :
  Forall (λ f, step_of f = k) l → x ∈ l → step_of x = k.
Proof. rewrite Forall_forall. auto. Qed.

(** A flag of step [k] is among the flags of a body exactly when step [k]
    has issued it. *)
Ltac flag_elsewhere :=
  match goal with
  | Hin : ?x ∈ ?l, Hstep : Forall (λ f, step_of f = ?k) ?l |- _ =>
      apply (elem_of_step k l x Hstep) in Hin; congruence
  end.

Ltac pose_steps body :=
  pose proof (length_flags_step body);
  pose proof (transition_flags_step body);
  pose proof (hedge_flags_step body);
  pose proof (vocabulary_flags_step body);
  pose proof (generic_flags_step body);
  pose proof (balance_flags_step body);
  pose proof (personal_flags_step body);
  pose proof (emotional_flags_step body);
  pose proof (copy_paste_flags_step body);
  pose proof (heading_flags_step body);
  repeat match goal with
  | H : passive_voice_flags _ = Ok _ |- _ => apply passive_voice_flags_step in H
  | H : uniformity_flags _ = Ok _ |- _ => apply uniformity_flags_step in H
  | H : repetitive_flags _ = Ok _ |- _ => apply repetitive_flags_step in H
  | H : polish_flags _ = Ok _ |- _ => apply polish_flags_step in H
  | H : organization_flags _ = Ok _ |- _ => apply organization_flags_step in H
  | H : prose_flags _ = Ok _ |- _ => apply prose_flags_step in H
  | H : bibliographic_flags _ = Ok _ |- _ => apply bibliographic_flags_step in H
  | H : cross_submission_flags _ _ _ = Ok _ |- _ => apply cross_submission_flags_step in H
  end.

Ltac body_flag_tac body :=
  let Hin := fresh "Hin" in
  intros (f7 & f10 & f11 & f13 & f14 & f16 & f17 & f18
          & H7 & H10 & H11 & H13 & H14 & H16 & H17 & H18 & ->)%analyze_body_Ok Hx;
  split;
  [ intros Hin; eexists; split; [eassumption|];
    pose_steps body;
    rewrite !elem_of_app in Hin;
    repeat (destruct Hin as [Hin|Hin]; [first [flag_elsewhere | done]|]);
    first [flag_elsewhere | done]
  | intros (fl & Heq & Hin);
    repeat match goal with
    | H : ?a = Ok _ |- _ => rewrite H in Heq; injection Heq as <-
    end;
    rewrite !elem_of_app; tauto ].

Lemma body_flag_step10 body uid all flags x :
  analyze_body body uid all = Ok flags → step_of x = 10 →
  x ∈ flags ↔ ∃ fl, uniformity_flags body = Ok fl ∧ x ∈ fl.
Proof. body_flag_tac body. Qed.

Lemma body_flag_step11 body uid all flags x :
  analyze_body body uid all = Ok flags → step_of x = 11 →
  x ∈ flags ↔ ∃ fl, repetitive_flags body = Ok fl ∧ x ∈ fl.
Proof. body_flag_tac body. Qed.

Lemma body_flag_step13 body uid all flags x :
  analyze_body body uid all = Ok flags → step_of x = 13 →
  x ∈ flags ↔ ∃ fl, polish_flags body = Ok fl ∧ x ∈ fl.
Proof. body_flag_tac body. Qed.

Lemma body_flag_step18 body uid all flags x :
  analyze_body body uid all = Ok flags → step_of x = 18 →
  x ∈ flags ↔ ∃ fl, cross_submission_flags body uid all = Ok fl ∧ x ∈ fl.
Proof. body_flag_tac body. Qed.

(** ** The checks return *)

Lemma returns_Ok {A} (a : A) : returns (Ok a).
Proof. by exists a. Qed.

Lemma returns_bind {A B} (m : result A) (f : A → result B) :
  returns m → (∀ a, m = Ok a → returns (f a)) → returns (m ≫= f).
Proof. intros [a ->] Hf. simpl. by apply Hf. Qed.

Lemma returns_if {A} (b : bool) (x y : result A) :
  (b = true → returns x) → (b = false → returns y) → returns (if b then x else y).
Proof. destruct b; auto. Qed.

Lemma returns_truediv_nat (a : Q) (n : nat) : n ≠ 0 → returns (truediv a (QofN n)).
Proof. intros Hn. rewrite truediv_nat by done. apply returns_Ok. Qed.

Lemma returns_truediv_pos (a b : Q) : Qltb 0 b = true → returns (truediv a b).
Proof.
  intros Hb%Qltb_true. unfold truediv.
  destruct (Qeq_bool b 0) eqn:Heq; [|apply returns_Ok].
  apply Qeq_bool_iff in Heq. rewrite Heq in Hb. by apply Qlt_irrefl in Hb.
Qed.

Lemma returns_mean (lengths : list nat) : lengths ≠ [] → returns (mean lengths).
Proof. intros Hl. apply returns_truediv_nat. by destruct lengths. Qed.

Lemma returns_variance (avg : Q) (lengths : list nat) :
  lengths ≠ [] → returns (variance_about avg lengths).
Proof. intros Hl. apply returns_truediv_nat. by destruct lengths. Qed.

Lemma returns_index0 {A} (l : list A) : l ≠ [] → returns (index0 l).
Proof. destruct l; [done|]. intros _. apply returns_Ok. Qed.

Lemma returns_index {A} (l : list A) (i : nat) : i < length l → returns (index l i).
Proof.
  intros [x Hx]%lookup_lt_is_Some_2. unfold index. rewrite Hx. apply returns_Ok.
Qed.

Lemma returns_index_last {A} (l : list A) : l ≠ [] → returns (index_last l).
Proof.
  intros Hl. unfold index_last. destruct (last l) eqn:Hlast; [apply returns_Ok|].
  by apply last_None in Hlast.
Qed.

Lemma returns_for_each {A B} (f : A → result B) (l : list A) :
  Forall (λ x, returns (f x)) l → returns (for_each f l).
Proof.
  induction 1 as [|x rest [y Hy] _ [ys IH]]; simpl; [apply returns_Ok|].
  rewrite Hy, IH. apply returns_Ok.
Qed.

Lemma returns_count_when {A} (p : A → result bool) (l : list A) :
  Forall (λ x, returns (p x)) l → returns (count_when p l).
Proof.
  induction 1 as [|x rest [y Hy] _ [ys IH]]; simpl; [apply returns_Ok|].
  rewrite Hy, IH. apply returns_Ok.
Qed.

Lemma returns_is_complete (sentence : string) :
  nonempty sentence = true → returns (is_complete sentence).
Proof.
  intros Hs. unfold is_complete. destruct (8 <=? _); [|apply returns_Ok].
  destruct sentence; [done|]. apply returns_Ok.
Qed.

Lemma stripped_pieces_nonempty (pieces : list string) :
  Forall (λ s, nonempty s = true) (stripped_pieces pieces).
Proof.
  unfold stripped_pieces. apply Forall_forall. intros s Hs.
  apply list_elem_of_In, filter_In in Hs. tauto.
Qed.

Lemma returns_count_complete (pieces : list string) :
  returns (count_when is_complete (stripped_pieces pieces)).
Proof.
  apply returns_count_when.
  eapply Forall_impl; [apply stripped_pieces_nonempty|].
  intros s. apply returns_is_complete.
Qed.

Lemma split_sep_from_nonempty sep skip acc s : split_sep_from sep skip acc s ≠ [].
Proof.
  revert skip acc. induction s as [|c s IH]; intros skip acc; simpl; [done|].
  destruct skip; [|apply IH]. destruct (startswith sep _); [done | apply IH].
Qed.

Lemma returns_uniform_paragraphs (text : string) : returns (uniform_paragraphs text).
Proof.
  unfold uniform_paragraphs.
  destruct (negb (nonempty text)); [apply returns_Ok|].
  destruct (length (paragraphs_of text) <? 3) eqn:Hlen; [apply returns_Ok|].
  apply Nat.ltb_ge in Hlen.
  assert ((λ p, length (split_ws p)) <$> paragraphs_of text ≠ []) as Hne.
  { intros Heq%(f_equal length). rewrite length_fmap in Heq. simpl in Heq. lia. }
  apply returns_bind; [by apply returns_mean|]. intros avg _.
  apply returns_bind; [by apply returns_variance|]. intros variance _.
  destruct (Qeq_bool avg 0); apply returns_Ok.
Qed.

Lemma returns_check_paragraph_uniformity (text : string) :
  returns (check_paragraph_uniformity text).
Proof.
  unfold check_paragraph_uniformity.
  destruct (negb (nonempty text)); [apply returns_Ok|].
  destruct (length (paragraphs_of text) <? 3) eqn:Hlen; [apply returns_Ok|].
  apply Nat.ltb_ge in Hlen.
  assert ((λ p, length (split_ws p)) <$> paragraphs_of text ≠ []) as Hne.
  { intros Heq%(f_equal length). rewrite length_fmap in Heq. simpl in Heq. lia. }
  apply returns_bind; [by apply returns_mean|]. intros avg _.
  apply returns_bind; [by apply returns_variance|]. intros variance _.
  destruct (Qeq_bool avg 0); apply returns_Ok.
Qed.

Lemma QofN_pos (n : nat) : 0 < n → Qltb 0 (QofN n) = true.
Proof.
  intros Hn. apply Qltb_true. unfold QofN, Qlt. simpl. lia.
Qed.

Lemma total_pairs_value (n : nat) :
  truediv (QofN (n * (n - 1))) 2 = Ok (QofN (n * (n - 1)) / 2)%Q.
Proof. done. Qed.

Lemma total_pairs_pos (n : nat) : 2 ≤ n → Qltb 0 (QofN (n * (n - 1)) / 2) = true.
Proof.
  intros Hn. apply Qltb_true. apply Qlt_shift_div_l; [done|].
  rewrite Qmult_0_l. apply Qltb_true, QofN_pos. nia.
Qed.

Lemma returns_check_repetitive_reasoning (text : string) :
  returns (check_repetitive_reasoning text).
Proof.
  unfold check_repetitive_reasoning.
  destruct (negb (nonempty text)); [apply returns_Ok|].
  destruct (length (long_sentences text) <? 5) eqn:Hlen; [apply returns_Ok|].
  apply Nat.ltb_ge in Hlen.
  rewrite total_pairs_value. simpl mbind.
  rewrite total_pairs_pos by lia.
  apply returns_bind; [|intros; apply returns_Ok].
  apply returns_truediv_pos, total_pairs_pos. lia.
Qed.

Lemma returns_check_sentence_completeness (text : string) :
  returns (check_sentence_completeness text).
Proof.
  unfold check_sentence_completeness.
  destruct (negb (nonempty text)); [apply returns_Ok|].
  case_bool_decide as Hs; [apply returns_Ok|].
  apply returns_bind; [apply returns_count_complete|]. intros n _.
  apply returns_truediv_nat. by destruct (sentences_of text).
Qed.

Lemma returns_first_sentence_of (para : string) : returns (first_sentence_of para).
Proof.
  unfold first_sentence_of. destruct (nonempty para); [|apply returns_Ok].
  apply returns_bind; [|intros; apply returns_Ok].
  apply returns_index0, split_sep_from_nonempty.
Qed.

Lemma word_counts_of_length (paragraphs : list string) :
  length (word_counts_of paragraphs) = length paragraphs.
Proof. apply length_fmap. Qed.

Lemma returns_check_essay_organization (text : string) :
  returns (check_essay_organization text).
Proof.
  unfold check_essay_organization.
  destruct (_ || _); [apply returns_Ok|].
  set (paragraphs := if length (paragraphs_of text) <? 2 then _ else _).
  apply returns_bind.
  { case_bool_decide; [|apply returns_Ok].
    apply returns_bind; [by apply returns_index0 | intros; apply returns_Ok]. }
  intros check1 _. apply returns_bind.
  { destruct (1 <? length paragraphs) eqn:Hlen; [|apply returns_Ok].
    apply Nat.ltb_lt in Hlen.
    apply returns_bind; [|intros; apply returns_Ok].
    apply returns_index_last. destruct paragraphs; [simpl in Hlen; lia | done]. }
  intros check2 _. apply returns_bind.
  { destruct (length paragraphs =? 5) eqn:Hlen; [|apply returns_Ok].
    apply Nat.eqb_eq in Hlen.
    repeat (apply returns_bind;
            [apply returns_index; rewrite word_counts_of_length; lia | intros ? _]).
    apply returns_Ok. }
  intros check3 _.
  assert (3 ≤ length paragraphs → word_counts_of paragraphs ≠ []) as Hne.
  { intros Hlen Heq%(f_equal length). rewrite word_counts_of_length in Heq.
    simpl in Heq. lia. }
  apply returns_bind.
  { destruct (3 <=? length paragraphs) eqn:Hlen; [|apply returns_Ok].
    apply Nat.leb_le in Hlen.
    apply returns_bind; [by apply returns_mean, Hne|]. intros avg _.
    destruct (Qltb 30 avg); [|apply returns_Ok].
    apply returns_bind; [by apply returns_variance, Hne | intros; apply returns_Ok]. }
  intros check4 _. apply returns_bind; [|intros; apply returns_Ok].
  destruct (3 <=? length paragraphs) eqn:Hlen; [|apply returns_Ok].
  apply returns_bind.
  { apply returns_for_each, Forall_forall. intros; apply returns_first_sentence_of. }
  intros first_sentences _.
  destruct (0 <? length paragraphs - 2) eqn:Hbody; [|apply returns_Ok].
  apply Nat.ltb_lt in Hbody.
  apply returns_bind; [apply returns_truediv_nat; lia|]. intros r1 _.
  apply returns_bind; [apply returns_truediv_nat; lia|]. intros r2 _.
  apply returns_Ok.
Qed.

Lemma returns_check_paragraph_as_prose_in_notes (text : string) :
  returns (check_paragraph_as_prose_in_notes text).
Proof.
  unfold check_paragraph_as_prose_in_notes.
  destruct (negb (nonempty text)); [apply returns_Ok|].
  apply returns_bind.
  { destruct (5 <? _) eqn:Hlines; [|apply returns_Ok].
    apply Nat.ltb_lt in Hlines.
    apply returns_bind; [apply returns_truediv_nat; lia | intros; apply returns_Ok]. }
  intros indicator2 _.
  apply returns_bind; [apply returns_count_complete|]. intros complete _.
  apply returns_bind; [|intros; apply returns_Ok].
  case_bool_decide as Hs; [|apply returns_Ok].
  apply returns_truediv_nat. by destruct (sentences_of text).
Qed.

Lemma split_ws_from_acc (acc s : string) :
  nonempty acc = true → split_ws_from acc s ≠ [].
Proof.
  revert acc. induction s as [|c s IH]; intros acc Hacc; simpl.
  - by rewrite Hacc.
  - destruct (isspace c); [by rewrite Hacc | by apply IH].
Qed.

Lemma capital_not_space (c : ascii) : (65 ≤ code c ≤ 90)%N → isspace c = false.
Proof.
  intros Hc. unfold isspace. cbv zeta.
  repeat match goal with
  | |- context [(?a <=? ?b)%N] => destruct (N.leb_spec a b)
  | |- context [(?a =? ?b)%N] => destruct (N.eqb_spec a b)
  end; simpl; try done; lia.
Qed.

Lemma returns_first_author (citation : string * string) :
  begins_with_capital citation.1 → returns (first_author citation).
Proof.
  intros (c & rest & Heq & Hc). unfold first_author. rewrite Heq.
  apply returns_bind; [|intros; apply returns_Ok].
  apply returns_index0. unfold split_ws. simpl.
  rewrite capital_not_space by done. by apply split_ws_from_acc.
Qed.

Lemma most_common_1_nonempty (c : list (string * nat)) : c ≠ [] → most_common_1 c ≠ [].
Proof. by destruct c. Qed.

Lemma returns_citation_pattern_flags (all_citations : list (string * string)) :
  all_citations ≠ [] → returns (citation_pattern_flags all_citations).
Proof.
  intros Hne. unfold citation_pattern_flags.
  assert (length all_citations ≠ 0) as Hlen by by destruct all_citations.
  apply returns_bind.
  { destruct (3 <=? _); [|apply returns_Ok].
    apply returns_bind; [by apply returns_truediv_nat | intros; apply returns_Ok]. }
  intros round _. apply returns_bind.
  { case_bool_decide; [|apply returns_Ok].
    by apply returns_index0, most_common_1_nonempty. }
  intros [most_common_year count] _.
  apply returns_bind; [|intros; apply returns_Ok].
  destruct (3 <=? count); [|apply returns_Ok].
  apply returns_bind; [by apply returns_truediv_nat | intros; apply returns_Ok].
Qed.

Lemma returns_check_bibliographic_markers (text : string) (verify_citations : bool) :
  apa_groups_capitalised →
  returns (check_bibliographic_markers text verify_citations).
Proof.
  intros Hapa. unfold check_bibliographic_markers.
  destruct (negb (nonempty text)); [apply returns_Ok|].
  apply returns_bind.
  { apply returns_for_each, Forall_forall. intros [author year] Hin.
    apply returns_first_author. simpl.
    apply elem_of_app in Hin as [Hin|Hin];
      eapply Hapa; [|exact Hin| |exact Hin]; set_solver. }
  intros all_citations _.
  apply returns_bind; [|intros; apply returns_Ok].
  case_bool_decide; [by apply returns_citation_pattern_flags | apply returns_Ok].
Qed.

(** ** The steps return *)

Lemma returns_passive_voice_flags body : returns (passive_voice_flags body).
Proof.
  unfold passive_voice_flags. destruct (is_check_enabled _); [|apply returns_Ok].
  apply returns_bind; [apply returns_Ok|]. intros passive_threshold _.
  destruct (5 <? _) eqn:Hlen; [|apply returns_Ok].
  apply Nat.ltb_lt in Hlen.
  apply returns_bind; [apply returns_truediv_nat; lia | intros; apply returns_Ok].
Qed.

Lemma returns_uniformity_flags body : returns (uniformity_flags body).
Proof.
  unfold uniformity_flags. destruct (is_check_enabled _); [|apply returns_Ok].
  apply returns_bind; [apply returns_uniform_paragraphs | intros; apply returns_Ok].
Qed.

Lemma returns_repetitive_flags body : returns (repetitive_flags body).
Proof.
  apply returns_bind; [apply returns_check_repetitive_reasoning | intros; apply returns_Ok].
Qed.

Lemma returns_polish_flags body : returns (polish_flags body).
Proof.
  unfold polish_flags. destruct (is_check_enabled _); [|apply returns_Ok].
  apply returns_bind; [apply returns_check_sentence_completeness|]. intros completeness _.
  apply returns_bind; [apply returns_Ok|]. intros threshold _.
  destruct (inverted _); apply returns_Ok.
Qed.

Lemma returns_organization_flags body : returns (organization_flags body).
Proof.
  unfold organization_flags. destruct (is_check_enabled _); [|apply returns_Ok].
  apply returns_bind; [apply returns_check_essay_organization | intros; apply returns_Ok].
Qed.

Lemma returns_prose_flags body : returns (prose_flags body).
Proof.
  unfold prose_flags. destruct (is_check_enabled _); [|apply returns_Ok].
  destruct (inverted _); [|apply returns_Ok].
  apply returns_bind;
    [apply returns_check_paragraph_as_prose_in_notes | intros; apply returns_Ok].
Qed.

Lemma returns_bibliographic_flags body :
  apa_groups_capitalised → returns (bibliographic_flags body).
Proof.
  intros Hapa. unfold bibliographic_flags. destruct (300 <? _); [|apply returns_Ok].
  apply returns_bind;
    [by apply returns_check_bibliographic_markers | intros; apply returns_Ok].
Qed.

Lemma returns_other_name other other_user_id :
  s_user other ≠ PyNone → returns (other_name other other_user_id).
Proof. unfold other_name. destruct (s_user other); [|done|]; intros _; apply returns_Ok. Qed.

Lemma returns_cross_submission_scan body uid all :
  Forall well_formed all → returns (cross_submission_scan body uid all).
Proof.
  induction 1 as [|other rest [_ Huser] _ IH]; [apply returns_Ok|].
  rewrite scan_step. destruct (is_duplicate _ _ _); [|done].
  apply returns_bind; [by apply returns_other_name | intros; apply returns_Ok].
Qed.

Lemma returns_cross_submission_flags body uid all :
  Forall well_formed all → returns (cross_submission_flags body uid all).
Proof.
  intros Hall. unfold cross_submission_flags.
  destruct (is_check_enabled _); [by apply returns_cross_submission_scan | apply returns_Ok].
Qed.

Lemma returns_analyze_body body uid all :
  apa_groups_capitalised → Forall well_formed all →
  returns (analyze_body body uid all).
Proof.
  intros Hapa Hall. unfold analyze_body.
  apply returns_bind; [apply returns_passive_voice_flags|]. intros f7 _.
  apply returns_bind; [apply returns_uniformity_flags|]. intros f10 _.
  apply returns_bind; [apply returns_repetitive_flags|]. intros f11 _.
  apply returns_bind; [apply returns_polish_flags|]. intros f13 _.
  apply returns_bind; [apply returns_organization_flags|]. intros f14 _.
  apply returns_bind; [apply returns_prose_flags|]. intros f16 _.
  apply returns_bind; [by apply returns_bibliographic_flags|]. intros f17 _.
  apply returns_bind; [by apply returns_cross_submission_flags|]. intros f18 _.
  apply returns_Ok.
Qed.

Lemma returns_check_attachment file :
  a_size file ≠ PyNone → returns (check_attachment file).
Proof.
  intros Hsize. unfold check_attachment.
  destruct (a_size file); [|done|]; apply returns_Ok.
Qed.

Lemma returns_analyze_submission sub all :
  apa_groups_capitalised → well_formed sub → Forall well_formed all →
  returns (analyze_submission sub all).
Proof.
  intros Hapa [Hfiles _] Hall. unfold analyze_submission.
  apply returns_bind.
  { destruct (truthy _); [by apply returns_analyze_body | apply returns_Ok]. }
  intros text_flags _.
  apply returns_bind; [|intros; apply returns_Ok].
  apply returns_for_each. eapply Forall_impl; [exact Hfiles|].
  intros file. apply returns_check_attachment.
Qed.

(** ** The flags of a submission *)

Lemma check_attachment_step file fl :
  check_attachment file = Ok fl → Forall (λ f, step_of f = 19) fl.
Proof.
  unfold check_attachment. destruct (get_or (a_size file) 0%Z); [|done].
  intros [= <-]. apply Forall_app. split; by apply Forall_flag_if.
Qed.

Lemma for_each_Forall {A B} (f : A → result B) (P : B → Prop) (l : list A) (ys : list B) :
  (∀ x y, f x = Ok y → P y) → for_each f l = Ok ys → Forall P ys.
Proof.
  intros Hf. revert ys. induction l as [|x rest IH]; intros ys; simpl.
  - intros [= <-]. constructor.
  - intros (y & Hy & (ys' & Hys' & [= <-])%bind_Ok)%bind_Ok. constructor; eauto.
Qed.

Lemma attachment_flags_step files file_flags :
  for_each check_attachment files = Ok file_flags →
  Forall (λ f, step_of f = 19) (concat file_flags).
Proof.
  intros H. apply Forall_concat.
  eapply for_each_Forall; [|exact H]. intros x y. apply check_attachment_step.
Qed.

Lemma analyze_body_steps body uid all flags :
  analyze_body body uid all = Ok flags → Forall (λ f, 1 ≤ step_of f ≤ 18) flags.
Proof.
  intros (f7 & f10 & f11 & f13 & f14 & f16 & f17 & f18
          & H7 & H10 & H11 & H13 & H14 & H16 & H17 & H18 & ->)%analyze_body_Ok.
  pose_steps body.
  repeat (apply Forall_app; split);
    (eapply Forall_impl; [eassumption|]); simpl; intros; lia.
Qed.

(** The flags of a submission are those of its body, when it has one, then
    those of its attached files, then the one about its URL. *)
Lemma analyze_submission_Ok sub all flags :
  analyze_submission sub all = Ok flags ↔
  ∃ text_flags file_flags,
    (if truthy (get_or (s_body sub) "")
     then analyze_body (default "" (get_or (s_body sub) "")) (get (s_user_id sub)) all
     else Ok []) = Ok text_flags
    ∧ for_each check_attachment (default [] (get_or (s_attachments sub) [])) = Ok file_flags
    ∧ flags = text_flags ++ concat file_flags
        ++ flag_if (truthy (get (s_url sub)) && negb (truthy (get_or (s_body sub) ""))
                    && bool_decide (default [] (get_or (s_attachments sub) []) = []))
                   UrlNoDescription.
Proof.
  unfold analyze_submission. split.
  - intros (text_flags & Ht & (file_flags & Hf & [= <-])%bind_Ok)%bind_Ok.
    by exists text_flags, file_flags.
  - intros (text_flags & file_flags & -> & -> & ->). done.
Qed.

(** A flag of the steps 1 to 18 is among the flags of a submission exactly
    when the submission has a body and the analysis of the body issues it. *)
Lemma submission_flag_of_body sub all flags x :
  analyze_submission sub all = Ok flags → 1 ≤ step_of x ≤ 18 →
  x ∈ flags ↔
  truthy (get_or (s_body sub) "") = true
  ∧ ∃ text_flags,
      analyze_body (default "" (get_or (s_body sub) "")) (get (s_user_id sub)) all
        = Ok text_flags
      ∧ x ∈ text_flags.
Proof.
  intros (text_flags & file_flags & Ht & Hf & ->)%analyze_submission_Ok Hx.
  apply attachment_flags_step in Hf.
  rewrite !elem_of_app. split.
  - intros [Hin|[Hin|Hin]].
    + destruct (truthy _); [eauto|]. injection Ht as <-. by apply elem_of_nil in Hin.
    + apply (elem_of_step _ _ _ Hf) in Hin. lia.
    + destruct (_ && _ && _); simpl in Hin;
        [apply list_elem_of_singleton in Hin as ->; simpl in Hx; lia
        | by apply elem_of_nil in Hin].
  - intros [Hbody (tf & Htf & Hin)]. rewrite Hbody, Htf in Ht.
    injection Ht as <-. tauto.
Qed.


(** C8. On submission records that are well formed, the analysis of a
    submission raises no exception and returns a list of flags; a body, a list
    of attachments or a URL that is missing or [None] contributes no flag,
    and with all three missing the list is empty. *)
Theorem analyze_submission_never_raises (sub : submission) (all : list submission) :
  apa_groups_capitalised → well_formed sub → Forall well_formed all →
  ∃ flags,
    analyze_submission sub all = Ok flags
    ∧ (absent (s_body sub) → Forall (λ f, 19 ≤ step_of f) flags)
    ∧ (absent (s_attachments sub) → Forall (λ f, step_of f ≠ 19) flags)
    ∧ (absent (s_url sub) → UrlNoDescription ∉ flags)
    ∧ (absent (s_body sub) → absent (s_attachments sub) → absent (s_url sub) →
       flags = []).
Proof.
  intros Hapa Hsub Hall.
  destruct (returns_analyze_submission sub all Hapa Hsub Hall) as [flags Hflags].
  exists flags. split; [done|].
  apply analyze_submission_Ok in Hflags as (text_flags & file_flags & Ht & Hf & ->).
  assert (absent (s_body sub) → text_flags = []) as Hbody.
  { intros [Hb|Hb]; rewrite Hb in Ht; simpl in Ht; by injection Ht as <-. }
  assert (absent (s_attachments sub) → concat file_flags = []) as Hfiles.
  { intros [Ha|Ha]; rewrite Ha in Hf; simpl in Hf; by injection Hf as <-. }
  assert (absent (s_url sub) → truthy (get (s_url sub)) = false) as Hurl.
  { by intros [-> | ->]. }
  pose proof (attachment_flags_step _ _ Hf) as Hstep.
  split; [|split; [|split]].
  - intros Hb. rewrite (Hbody Hb). simpl. apply Forall_app. split.
    + eapply Forall_impl; [exact Hstep|]. simpl. intros; lia.
    + apply Forall_flag_if. simpl. lia.
  - intros Ha. rewrite (Hfiles Ha). simpl. apply Forall_app. split.
    + destruct (truthy (get_or (s_body sub) "")).
      * apply analyze_body_steps in Ht.
        eapply Forall_impl; [exact Ht|]. simpl. intros; lia.
      * injection Ht as <-. constructor.
    + by apply Forall_flag_if.
  - intros Hu. rewrite (Hurl Hu). simpl. rewrite app_nil_r, elem_of_app.
    intros [Hin|Hin].
    + destruct (truthy (get_or (s_body sub) "")).
      * apply analyze_body_steps in Ht.
        apply (proj1 (Forall_forall _ _) Ht) in Hin. simpl in Hin. lia.
      * injection Ht as <-. by apply elem_of_nil in Hin.
    + apply (elem_of_step _ _ _ Hstep) in Hin. done.
  - intros Hb Ha Hu. by rewrite (Hbody Hb), (Hfiles Ha), (Hurl Hu).
Qed.

(** ** Paragraph uniformity *)

Lemma cv_below_spec (v avg c : Q) :
  (0 <= v)%Q → (0 < avg)%Q → (0 < c)%Q →
  cv_below v avg c = true ↔ (sqrt (Q2R v) / Q2R avg < Q2R c)%R.
Proof.
  intros Hv Havg Hc. unfold cv_below. rewrite Qltb_true.
  assert (0 <= Q2R v)%R as HV by (apply Qle_Rle in Hv; by rewrite RMicromega.Q2R_0 in Hv).
  assert (0 < Q2R avg)%R as HA by (apply Qlt_Rlt in Havg; by rewrite RMicromega.Q2R_0 in Havg).
  assert (0 < Q2R c)%R as HC by (apply Qlt_Rlt in Hc; by rewrite RMicromega.Q2R_0 in Hc).
  assert (0 < Q2R c * Q2R avg)%R as HCA by by apply Rmult_lt_0_compat.
  assert (Q2R ((c * avg) ^ 2) = (Q2R c * Q2R avg) * (Q2R c * Q2R avg))%R as Hsq.
  { simpl. by rewrite !Q2R_mult. }
  assert ((sqrt (Q2R v) / Q2R avg < Q2R c)%R ↔ (sqrt (Q2R v) < Q2R c * Q2R avg)%R) as ->.
  { split; intros H.
    - apply (Rmult_lt_compat_r (Q2R avg)) in H; [|done].
      unfold Rdiv in H. rewrite Rmult_assoc, Rinv_l, Rmult_1_r in H; [done|lra].
    - apply (Rmult_lt_reg_r (Q2R avg)); [done|].
      unfold Rdiv. rewrite Rmult_assoc, Rinv_l, Rmult_1_r; [done|lra]. }
  split.
  - intros H%Qlt_Rlt. rewrite Hsq in H.
    rewrite <- (sqrt_square (Q2R c * Q2R avg)) by lra.
    apply sqrt_lt_1_alt. lra.
  - intros H. apply Rlt_Qlt. rewrite Hsq.
    rewrite <- (sqrt_square (Q2R c * Q2R avg)) in H by lra.
    by apply sqrt_lt_0_alt in H.
Qed.

Lemma QofN_nonneg (n : nat) : (0 <= QofN n)%Q.
Proof. unfold QofN, Qle. simpl. lia. Qed.

Lemma Qdiv_nat_nonneg (a : Q) (n : nat) : (0 <= a)%Q → (0 <= a / QofN n)%Q.
Proof.
  intros Ha. apply Qmult_le_0_compat; [done|].
  apply Qinv_le_0_compat, QofN_nonneg.
Qed.

Lemma Qsum_nonneg (l : list Q) : Forall (λ q, 0 <= q)%Q l → (0 <= Qsum l)%Q.
Proof.
  induction 1 as [|q l Hq _ IH]; simpl; [done|].
  rewrite <- (Qplus_0_l 0). by apply Qplus_le_compat.
Qed.

Lemma truediv_Ok (a b r : Q) : truediv a b = Ok r → r = (a / b)%Q ∧ ¬ (b == 0)%Q.
Proof.
  unfold truediv. destruct (Qeq_bool b 0) eqn:Hb; [done|]. intros [= <-].
  split; [done|]. intros Heq%Qeq_bool_iff. congruence.
Qed.

Lemma mean_nonneg lengths avg : mean lengths = Ok avg → (0 <= avg)%Q.
Proof.
  intros [-> _]%truediv_Ok. apply Qdiv_nat_nonneg, QofN_nonneg.
Qed.

Lemma variance_nonneg avg lengths v : variance_about avg lengths = Ok v → (0 <= v)%Q.
Proof.
  intros [-> _]%truediv_Ok. apply Qdiv_nat_nonneg, Qsum_nonneg.
  apply Forall_fmap, Forall_true. intros l. apply Qsqr_nonneg.
Qed.

Lemma uniform_paragraphs_spec (text : string) :
  ∃ u b, check_paragraph_uniformity text = Ok u
         ∧ uniform_paragraphs text = Ok b
         ∧ (b = true ↔ (0.8 < u)%R).
Proof.
  assert (¬ (0.8 < 0)%R) as Hzero by lra.
  unfold check_paragraph_uniformity, uniform_paragraphs.
  destruct (negb (nonempty text)); [by exists 0%R, false|].
  destruct (length (paragraphs_of text) <? 3) eqn:Hlen; [by exists 0%R, false|].
  apply Nat.ltb_ge in Hlen.
  set (lengths := (λ p, length (split_ws p)) <$> paragraphs_of text).
  assert (lengths ≠ []) as Hne.
  { intros Heq%(f_equal length). unfold lengths in Heq.
    rewrite length_fmap in Heq. simpl in Heq. lia. }
  destruct (returns_mean lengths Hne) as [avg Havg]. rewrite Havg. simpl.
  destruct (returns_variance avg lengths Hne) as [v Hv]. rewrite Hv. simpl.
  destruct (Qeq_bool avg 0) eqn:Hz; [by exists 0%R, false|].
  do 2 eexists. split; [done|]. split; [done|].
  assert (0 < avg)%Q as Hpos.
  { apply mean_nonneg, Qle_lteq in Havg as [?|Heq]; [done|].
    symmetry in Heq. apply Qeq_bool_iff in Heq. congruence. }
  apply variance_nonneg in Hv.
  etrans; [by apply cv_below_spec|].
  destruct (Rlt_dec _ 1); lra.
Qed.

Lemma elem_of_flag_if {A} (b : bool) (f x : A) : x ∈ flag_if b f ↔ b = true ∧ x = f.
Proof.
  destruct b; simpl.
  - rewrite list_elem_of_singleton. tauto.
  - rewrite elem_of_nil. split; [done | by intros [? _]].
Qed.

Lemma uniformity_flags_spec (body : string) :
  ∃ fl u, uniformity_flags body = Ok fl
          ∧ check_paragraph_uniformity body = Ok u
          ∧ (UniformParagraphs ∈ fl ↔
             is_check_enabled "complete_sentences" = true ∧ (0.8 < u)%R).
Proof.
  destruct (uniform_paragraphs_spec body) as (u & b & Hu & Hb & Hiff).
  unfold uniformity_flags. rewrite Hb. simpl.
  destruct (is_check_enabled "complete_sentences").
  - exists (flag_if b UniformParagraphs), u. split; [done|]. split; [done|].
    rewrite elem_of_flag_if. tauto.
  - exists [], u. split; [done|]. split; [done|].
    rewrite elem_of_nil. split; [done | by intros [? _]].
Qed.

(** C9. The flag about uniform paragraphs depends on the check named
    "complete_sentences" and on nothing else of the profile: the analysis
    issues it exactly when that check is enabled, which it is when no profile
    is selected, and [check_paragraph_uniformity] gives the body a score
    above 0.8, a bound that no threshold of a profile enters. *)
Theorem uniform_paragraphs_gate (sub : submission) (all : list submission) (body : string) :
  apa_groups_capitalised → well_formed sub → Forall well_formed all →
  get_or (s_body sub) "" = Some body →
  ∃ flags u,
    analyze_submission sub all = Ok flags
    ∧ check_paragraph_uniformity body = Ok u
    ∧ (UniformParagraphs ∈ flags ↔
       is_check_enabled "complete_sentences" = true ∧ (0.8 < u)%R)
    ∧ (CURRENT_PROFILE = None → is_check_enabled "complete_sentences" = true).
Proof.
  intros Hapa Hsub Hall Hbody.
  destruct (returns_analyze_submission sub all Hapa Hsub Hall) as [flags Hflags].
  destruct (uniformity_flags_spec body) as (fl & u & Hfl & Hu & Hiff).
  exists flags, u. split; [done|]. split; [done|].
  split; [|by unfold is_check_enabled; intros ->].
  rewrite (submission_flag_of_body sub all flags) by (done || simpl; lia).
  rewrite Hbody. simpl. rewrite <- Hiff. split.
  - intros (_ & tf & Htf & Hin).
    apply (body_flag_step10 _ _ _ _ UniformParagraphs Htf eq_refl) in Hin as (fl' & Hfl' & Hin).
    congruence.
  - intros Hin. assert (nonempty body = true) as Hne.
    { destruct body; [|done]. exfalso.
      apply Hiff in Hin as [_ Hgt]. injection Hu as <-. lra. }
    split; [done|].
    pose proof Hflags as (tf & _ & Htf & _)%analyze_submission_Ok.
    rewrite Hbody in Htf. simpl in Htf. rewrite Hne in Htf.
    exists tf. split; [done|].
    apply (body_flag_step10 _ _ _ _ UniformParagraphs Htf eq_refl). eauto.
Qed.

(** ** Repetitive reasoning *)

Lemma lower_char_idempotent (c : ascii) : lower_char (lower_char c) = lower_char c.
Proof. by destruct c as [[] [] [] [] [] [] [] []]. Qed.

Lemma lower_idempotent (s : string) : lower (lower s) = lower s.
Proof. induction s as [|c s IH]; simpl; [done|]. by rewrite lower_char_idempotent, IH. Qed.

Lemma nonempty_lower (s : string) : nonempty (lower s) = nonempty s.
Proof. by destruct s. Qed.

Lemma similarity_lower (a b : string) :
  calculate_text_similarity (lower a) (lower b) = calculate_text_similarity a b.
Proof.
  unfold calculate_text_similarity. by rewrite !nonempty_lower, !lower_idempotent.
Qed.

Lemma long_sentences_trimmed (text : string) :
  long_sentences text = lower <$> trimmed_long_sentences text.
Proof.
  unfold long_sentences, trimmed_long_sentences.
  induction (re_split_sentences text) as [|s l IH]; [done|].
  rewrite fmap_cons. cbn [List.filter].
  destruct (20 <? String.length (strip s)); rewrite ?fmap_cons; by rewrite IH.
Qed.

Lemma count_similar_pairs_lower (l : list string) :
  count_similar_pairs (lower <$> l) = count_similar_pairs l.
Proof.
  induction l as [|s rest IH]; [done|].
  rewrite fmap_cons. cbn [count_similar_pairs]. rewrite IH. f_equal.
  clear IH. induction rest as [|t rest IH]; [done|].
  rewrite fmap_cons. cbn [List.filter].
  rewrite similarity_lower. destruct (Qgtb _ _); cbn [length]; by rewrite IH.
Qed.

Lemma count_similar_pairs_filter (l : list string) :
  count_similar_pairs l =
  length (List.filter (λ p, Qgtb (calculate_text_similarity p.1 p.2) 0.7) (all_pairs l)).
Proof.
  induction l as [|s rest IH]; [done|].
  cbn [count_similar_pairs all_pairs].
  rewrite List.filter_app, length_app, IH. f_equal.
  clear IH. induction rest as [|t rest IH]; [done|].
  rewrite fmap_cons. cbn [List.filter fst snd].
  destruct (Qgtb _ _); cbn [length]; by rewrite IH.
Qed.

Lemma all_pairs_length {A} (l : list A) :
  2 * length (all_pairs l) = length l * (length l - 1).
Proof.
  induction l as [|x rest IH]; [done|].
  cbn [all_pairs length]. rewrite length_app, length_fmap. nia.
Qed.

Lemma QofN_mult (a b : nat) : (QofN (a * b) == QofN a * QofN b)%Q.
Proof. unfold QofN. by rewrite Nat2Z.inj_mul, inject_Z_mult. Qed.

Lemma QofN_lt (a b : nat) : a < b → (QofN a < QofN b)%Q.
Proof. intros H. unfold QofN. rewrite <- Zlt_Qlt. lia. Qed.

(** The float test [similar / total > 0.2] of the code against the count
    of all pairs. *)
Lemma ratio_above_fifth (similar pairs n : nat) :
  2 * pairs = n * (n - 1) → 2 ≤ n →
  Qgtb (QofN similar / (QofN (n * (n - 1)) / 2)) 0.2 = true
  ↔ (0.2 * QofN pairs < QofN similar)%Q.
Proof.
  intros Hpairs Hn. rewrite Qgtb_true.
  assert (QofN (n * (n - 1)) / 2 == QofN pairs)%Q as ->.
  { rewrite <- Hpairs, QofN_mult. unfold QofN at 1. simpl. field. }
  assert (0 < QofN pairs)%Q as Hpos by (apply (QofN_lt 0); nia).
  split; intros H.
  - apply (Qmult_lt_r _ _ (QofN pairs)) in H; [|done].
    revert H. by field_simplify (QofN similar / QofN pairs * QofN pairs)%Q;
      [|intros Hz; rewrite Hz in Hpos; by apply Qlt_irrefl in Hpos].
  - by apply Qlt_shift_div_l.
Qed.

Lemma check_repetitive_reasoning_spec (text : string) :
  check_repetitive_reasoning text = Ok true ↔ repetitive text.
Proof.
  unfold check_repetitive_reasoning, repetitive. cbv zeta.
  rewrite long_sentences_trimmed, length_fmap, count_similar_pairs_lower,
    count_similar_pairs_filter.
  set (sentences := trimmed_long_sentences text).
  destruct (nonempty text) eqn:Htext; simpl negb; cbv iota.
  2:{ destruct text; [|done]. split; [done|]. intros [Hlen _]. simpl in Hlen. lia. }
  destruct (length sentences <? 5) eqn:Hlen.
  { apply Nat.ltb_lt in Hlen. split; [done|]. intros [? _]. lia. }
  apply Nat.ltb_ge in Hlen.
  rewrite total_pairs_value. simpl mbind. rewrite total_pairs_pos by lia.
  destruct (returns_truediv_pos
              (QofN (length (List.filter
                 (λ p, Qgtb (calculate_text_similarity p.1 p.2) 0.7) (all_pairs sentences))))
              _ (total_pairs_pos (length sentences) ltac:(lia))) as [r Hr].
  rewrite Hr. simpl. apply truediv_Ok in Hr as [-> _].
  rewrite <- (ratio_above_fifth _ (length (all_pairs sentences)) (length sentences))
    by (apply all_pairs_length || lia).
  split; [by intros [= ->] | by intros [_ ->]].
Qed.

(** C4. [check_repetitive_reasoning] returns, and returns [True] exactly
    when the text has at least 5 trimmed sentences of more than 20
    characters and more than 20% of all pairs of them have a similarity
    above 0.7; whatever profile is selected, the analysis of a submission
    runs the check on a body that is not empty and issues the flag exactly
    when the check returns [True]. *)
Theorem repetitive_reasoning_check (sub : submission) (all : list submission) (body : string) :
  (∀ text, returns (check_repetitive_reasoning text)
           ∧ (check_repetitive_reasoning text = Ok true ↔ repetitive text))
  ∧ (apa_groups_capitalised → well_formed sub → Forall well_formed all →
     get_or (s_body sub) "" = Some body → nonempty body = true →
     ∃ flags,
       analyze_submission sub all = Ok flags
       ∧ (RepetitiveReasoning ∈ flags ↔ check_repetitive_reasoning body = Ok true)).
Proof.
  split.
  { intros text. split;
      [apply returns_check_repetitive_reasoning | apply check_repetitive_reasoning_spec]. }
  intros Hapa Hsub Hall Hbody Hne.
  destruct (returns_analyze_submission sub all Hapa Hsub Hall) as [flags Hflags].
  exists flags. split; [done|].
  rewrite (submission_flag_of_body sub all flags) by (done || simpl; lia).
  rewrite Hbody. simpl. rewrite Hne.
  pose proof Hflags as (tf & _ & Htf & _)%analyze_submission_Ok.
  rewrite Hbody in Htf. simpl in Htf. rewrite Hne in Htf.
  assert (∀ fl, repetitive_flags body = Ok fl →
            RepetitiveReasoning ∈ fl ↔ check_repetitive_reasoning body = Ok true) as Hstep.
  { intros fl. unfold repetitive_flags.
    destruct (check_repetitive_reasoning body) as [b|e]; [|done].
    simpl. intros [= <-]. rewrite elem_of_flag_if. split; [by intros [-> _] | by intros [= ->]]. }
  split.
  - intros (_ & tf' & Htf' & Hin).
    apply (body_flag_step11 _ _ _ _ RepetitiveReasoning Htf' eq_refl) in Hin
      as (fl & Hfl & Hin).
    by apply (Hstep fl).
  - intros Hcheck. split; [done|]. exists tf. split; [done|].
    apply (body_flag_step11 _ _ _ _ RepetitiveReasoning Htf eq_refl).
    destruct (returns_repetitive_flags body) as [fl Hfl].
    exists fl. split; [done|]. by apply (Hstep fl).
Qed.

(** ** The inverted check of complete sentences *)

Lemma profile_of_table (key : string) (p : profile) :
  ASSIGNMENT_PROFILES !! key = Some p →
  (key, p) ∈ [("notes_brainstorm", notes_brainstorm); ("rough_draft", rough_draft);
              ("personal_reflection", personal_reflection);
              ("discussion_post", discussion_post);
              ("analytical_essay", analytical_essay); ("research_paper", research_paper);
              ("creative_writing", creative_writing); ("standard", standard)].
Proof. apply elem_of_list_to_map_2. Qed.

Lemma inverted_is_notes :
  inverted "complete_sentences" = true → CURRENT_PROFILE = Some "notes_brainstorm".
Proof.
  unfold inverted, current_invert_checks.
  destruct CURRENT_PROFILE as [key|]; [|done].
  destruct (nonempty key); [|done].
  unfold get_profile. destruct (ASSIGNMENT_PROFILES !! key) as [p|] eqn:Hp; [|done].
  apply profile_of_table in Hp.
  repeat (apply elem_of_cons in Hp as [[= -> ->]|Hp]; [by vm_compute|]).
  by apply elem_of_nil in Hp.
Qed.

Lemma polish_flags_inverted (body : string) (completeness : Q) :
  inverted "complete_sentences" = true →
  check_sentence_completeness body = Ok completeness →
  (inject_Z (get_threshold "complete_sentence_percent") / 100 < completeness)%Q →
  50 < count_words body →
  polish_flags body = Ok [TooPolishedForNotes completeness].
Proof.
  intros Hinv Hc Hgt Hwords. unfold polish_flags.
  assert (is_check_enabled "complete_sentences" = true) as ->.
  { unfold is_check_enabled. by rewrite (inverted_is_notes Hinv). }
  rewrite Hc. simpl. rewrite Hinv.
  apply Qgtb_true in Hgt. rewrite Hgt.
  by apply Nat.ltb_lt in Hwords as ->.
Qed.

(** C7. When the selected profile inverts the check of complete sentences,
    as the profile for notes does, a body of more than 50 words whose ratio
    of complete sentences exceeds the profile's threshold gets the flag
    "Too polished for notes" and does not get "Suspiciously polished". *)
Theorem too_polished_for_notes (sub : submission) (all : list submission)
    (body : string) (completeness : Q) :
  apa_groups_capitalised → well_formed sub → Forall well_formed all →
  inverted "complete_sentences" = true →
  get_or (s_body sub) "" = Some body →
  check_sentence_completeness body = Ok completeness →
  (inject_Z (get_threshold "complete_sentence_percent") / 100 < completeness)%Q →
  50 < count_words body →
  ∃ flags,
    analyze_submission sub all = Ok flags
    ∧ TooPolishedForNotes completeness ∈ flags
    ∧ ∀ c, SuspiciouslyPolished c ∉ flags.
Proof.
  intros Hapa Hsub Hall Hinv Hbody Hc Hgt Hwords.
  destruct (returns_analyze_submission sub all Hapa Hsub Hall) as [flags Hflags].
  exists flags. split; [done|].
  pose proof (polish_flags_inverted body completeness Hinv Hc Hgt Hwords) as Hpolish.
  assert (nonempty body = true) as Hne.
  { destruct body; [|done]. exfalso. unfold count_words in Hwords. simpl in Hwords. lia. }
  pose proof Hflags as (tf & _ & Htf & _)%analyze_submission_Ok.
  rewrite Hbody in Htf. simpl in Htf. rewrite Hne in Htf.
  split.
  - apply (submission_flag_of_body sub all flags); [done | simpl; lia|].
    rewrite Hbody. simpl. split; [done|]. exists tf. split; [done|].
    apply (body_flag_step13 _ _ _ _ (TooPolishedForNotes completeness) Htf eq_refl).
    exists [TooPolishedForNotes completeness]. split; [done|]. apply list_elem_of_here.
  - intros c Hin.
    apply (submission_flag_of_body sub all flags) in Hin as (_ & tf' & Htf' & Hin);
      [|done | simpl; lia].
    rewrite Hbody in Htf'. simpl in Htf'.
    apply (body_flag_step13 _ _ _ _ (SuspiciouslyPolished c) Htf' eq_refl) in Hin
      as (fl & Hfl & Hin).
    rewrite Hpolish in Hfl. injection Hfl as <-.
    by apply list_elem_of_singleton in Hin.
Qed.

(** ** Blank texts *)

Lemma lstrip_blank (s : string) : lstrip s = "" ↔ blank s = true.
Proof.
  induction s as [|c s IH]; simpl; [done|].
  destruct (isspace c); simpl; [done|]. split; discriminate.
Qed.

Lemma lstrip_head (s : string) (c : ascii) (r : string) :
  lstrip s = String c r → isspace c = false.
Proof.
  induction s as [|a s IH]; simpl; [done|].
  destruct (isspace a) eqn:Ha; [done|]. by intros [= <- _].
Qed.

Lemma blank_rev_app (s acc : string) :
  blank (String.rev_app s acc) = blank s && blank acc.
Proof.
  revert acc. induction s as [|c s IH]; intros acc; simpl; [done|].
  rewrite IH. simpl. by destruct (isspace c), (blank s), (blank acc).
Qed.

Lemma blank_rev (s : string) : blank (String.rev s) = blank s.
Proof. unfold String.rev. rewrite blank_rev_app. simpl. apply andb_true_r. Qed.

Lemma rev_app_empty (s acc : string) : String.rev_app s acc = "" → s = "" ∧ acc = "".
Proof.
  revert acc. induction s as [|c s IH]; intros acc; simpl; [done|].
  by intros [_ [=]]%IH.
Qed.

Lemma strip_blank (s : string) : strip s = "" ↔ blank s = true.
Proof.
  unfold strip, rstrip. split.
  - intros [H _]%rev_app_empty. apply lstrip_blank in H. rewrite blank_rev in H.
    destruct (lstrip s) as [|c r] eqn:Hs; [by apply lstrip_blank|].
    apply lstrip_head in Hs. simpl in H. by rewrite Hs in H.
  - intros H%lstrip_blank. by rewrite H.
Qed.

Lemma isspace_lower_char (c : ascii) : isspace (lower_char c) = isspace c.
Proof. by destruct c as [[] [] [] [] [] [] [] []]. Qed.

Lemma blank_lower (s : string) : blank (lower s) = blank s.
Proof. induction s as [|c s IH]; simpl; [done|]. by rewrite isspace_lower_char, IH. Qed.

Lemma startswith_cons (a b : ascii) (p s : string) :
  startswith (String a p) (String b s) = bool_decide (a = b) && startswith p s.
Proof. done. Qed.

Lemma double_newline : newline +:+ newline = String "010"%char newline.
Proof. done. Qed.

Lemma paragraph_pieces_blank (s : string) (skip : nat) (acc : string) :
  skip = 0 ∨ (skip = 1 ∧ startswith newline s = true) →
  Forall (λ p, blank p = true) (split_sep_from (newline +:+ newline) skip acc s) →
  blank acc = true ∧ blank s = true.
Proof.
  revert skip acc. induction s as [|c s IH]; intros skip acc Hskip Hall.
  - cbn [split_sep_from] in Hall. apply Forall_cons in Hall as [Hall _].
    cbv beta in Hall. by rewrite blank_rev in Hall.
  - cbn [split_sep_from] in Hall. destruct skip as [|k].
    + destruct (startswith (newline +:+ newline) (String c s)) eqn:Hsep.
      * apply Forall_cons in Hall as [Hacc Hall]. cbv beta in Hacc.
        rewrite blank_rev in Hacc.
        rewrite double_newline, startswith_cons in Hsep.
        apply andb_true_iff in Hsep as [Hc Hs].
        apply bool_decide_eq_true in Hc as <-.
        apply (IH 1 "") in Hall as [_ Hs']; [|by right].
        cbn [blank]. by rewrite Hs'.
      * apply (IH 0) in Hall as [Hacc Hs]; [|by left].
        cbn [blank] in Hacc. apply andb_true_iff in Hacc as [Hc Hacc].
        cbn [blank]. by rewrite Hc, Hs.
    + destruct Hskip as [[=]|[[= ->] Hnl]].
      unfold newline in Hnl. rewrite startswith_cons in Hnl.
      apply andb_true_iff in Hnl as [Hc _].
      apply bool_decide_eq_true in Hc as <-.
      apply (IH 0) in Hall as [Hacc Hs]; [|by left].
      cbn [blank]. by rewrite Hs.
Qed.

Lemma paragraphs_of_nil (text : string) :
  paragraphs_of text = [] → strip (lower text) = "".
Proof.
  intros Hnil. apply strip_blank. rewrite blank_lower.
  apply (paragraph_pieces_blank text 0 ""); [by left|].
  apply Forall_forall. intros p Hp.
  apply strip_blank. destruct (strip p) eqn:Hstrip; [done|]. exfalso.
  assert (strip p ∈ paragraphs_of text) as Hin.
  { unfold paragraphs_of, stripped_pieces. apply list_elem_of_In, filter_In.
    split; [|by rewrite Hstrip].
    apply list_elem_of_In, list_elem_of_fmap. by exists p. }
  rewrite Hnil in Hin. by apply elem_of_nil in Hin.
Qed.

(** ** Draft comparison *)

Lemma returns_word_change_percent (word_change : Z) (words1 : list string) :
  returns (if bool_decide (words1 ≠ [])
           then truediv (inject_Z word_change) (QofN (length words1)) ≫= λ r, Ok (r * 100)%Q
           else Ok 0%Q).
Proof.
  case_bool_decide; [|apply returns_Ok].
  apply returns_bind; [|intros; apply returns_Ok].
  apply returns_truediv_nat. by destruct words1.
Qed.

(** C6. The comparison of a draft that is not empty with itself returns a
    revision score of 0 and the critical flag that no revision occurred: the
    similarity of the two drafts is 1.0, which is at least 0.98, and the
    function returns on that branch. *)
Theorem compare_drafts_identical (text : string) :
  text ≠ "" →
  calculate_text_similarity text text = 1%Q
  ∧ ∃ details,
      compare_drafts text text =
      Ok {| c_flags := [NoRevision]; c_details := details; revision_score := 0 |}.
Proof.
  intros Htext. split; [by apply similarity_reflexive|].
  unfold compare_drafts. apply nonempty_true in Htext as Hne. rewrite Hne. simpl orb.
  cbv iota.
  destruct (returns_word_change_percent
              (Z.of_nat (length (split_ws text)) - Z.of_nat (length (split_ws text)))
              (split_ws text)) as [percent Hpercent].
  rewrite Hpercent. simpl mbind. cbv zeta.
  rewrite similarity_reflexive by by apply nonempty_true.
  by eexists.
Qed.

(** C10. For all drafts the comparison returns, and its revision score is at
    most 60: it adds at most 30 for the changed sentences, 10 for a changed
    number of paragraphs and 20 for new words, so that the cap at 100 never
    applies. *)
Theorem revision_score_at_most_60 (draft1 draft2 : string) :
  ∃ r, compare_drafts draft1 draft2 = Ok r ∧ (0 ≤ revision_score r ≤ 60)%Z.
Proof.
  unfold compare_drafts.
  destruct (negb (nonempty draft1) || negb (nonempty draft2)) eqn:Hempty.
  { eexists. split; [done|]. simpl. lia. }
  apply orb_false_iff in Hempty as [Hne1%negb_false_iff Hne2%negb_false_iff].
  destruct (returns_word_change_percent
              (Z.of_nat (length (split_ws draft2)) - Z.of_nat (length (split_ws draft1)))
              (split_ws draft1)) as [percent Hpercent].
  rewrite Hpercent. simpl mbind. cbv zeta.
  destruct (Qgeb (calculate_text_similarity draft1 draft2) 0.98).
  { eexists. split; [done|]. simpl. lia. }
  set (total := size (sentence_set draft1 ∪ sentence_set draft2)).
  set (changed := size (sentence_set draft2 ∖ sentence_set draft1)
                  + size (sentence_set draft1 ∖ sentence_set draft2)).
  assert (returns (if 0 <? total then truediv (QofN changed) (QofN total) else Ok 0%Q))
    as [change_ratio ->].
  { destruct (0 <? total) eqn:Ht; [|apply returns_Ok].
    apply Nat.ltb_lt in Ht. apply returns_truediv_nat. lia. }
  simpl mbind.
  set (paras1 := paragraphs_of draft1). set (paras2 := paragraphs_of draft2).
  set (similarity := calculate_text_similarity draft1 draft2).
  assert (returns
            (if Qltb similarity 0.5 && (length paras1 =? length paras2)
             then truediv (QofN (similar_length_paragraphs paras1 paras2))
                          (QofN (length paras1))
                  ≫= λ para_structure_sim,
                       Ok (flag_if (Qgtb para_structure_sim 0.7) PossibleRegeneration)
             else Ok [])) as [flags3 Hflags3].
  { destruct (Qltb similarity 0.5 && (length paras1 =? length paras2)) eqn:Hcond;
      [|apply returns_Ok].
    apply andb_true_iff in Hcond as [Hsim Hlen%Nat.eqb_eq].
    apply returns_bind; [|intros; apply returns_Ok].
    apply returns_truediv_nat. intros Hzero. rewrite Hzero in Hlen.
    assert (strip (lower draft1) = "") as H1
      by (apply paragraphs_of_nil, nil_length_inv; exact Hzero).
    assert (strip (lower draft2) = "") as H2
      by (apply paragraphs_of_nil, nil_length_inv; symmetry; exact Hlen).
    unfold similarity, calculate_text_similarity in Hsim.
    rewrite Hne1, Hne2, H1, H2 in Hsim. done. }
  destruct (Qgeb change_ratio 0.3); [|destruct (Qgeb change_ratio 0.15);
    [|destruct (Qgeb change_ratio 0.05)]];
  cbv beta iota; rewrite Hflags3; simpl mbind;
  (eexists; split; [reflexivity|]); cbn [revision_score];
  destruct (negb (length paras1 =? length paras2));
  repeat match goal with |- context [if ?b then _ else _] => destruct b end; lia.
Qed.

(** ** Citations clustered in one year *)

Lemma string_eqb_true (a b : string) : string_eqb a b = true ↔ a = b.
Proof. apply bool_decide_eq_true. Qed.

Lemma count_in_add (y y' : string) (c : list (string * nat)) :
  count_in y (counter_add y' c) = count_in y c + (if string_eqb y' y then 1 else 0).
Proof.
  induction c as [|[k n] rest IH]; cbn [counter_add count_in]; [done|].
  destruct (string_eqb k y') eqn:Hk; cbn [count_in].
  - apply string_eqb_true in Hk as ->. destruct (string_eqb y' y); lia.
  - destruct (string_eqb k y) eqn:Hy; [|done].
    apply string_eqb_true in Hy as ->.
    destruct (string_eqb y' y) eqn:Hy'; [|lia].
    apply string_eqb_true in Hy' as ->.
    unfold string_eqb in Hk. by rewrite bool_decide_eq_true_2 in Hk.
Qed.

Lemma count_in_foldl (y : string) (l : list string) (c : list (string * nat)) :
  count_in y (foldl (λ c y, counter_add y c) c l) =
  count_in y c + length (List.filter (λ x, string_eqb x y) l).
Proof.
  revert c. induction l as [|x l IH]; intros c; cbn [foldl List.filter]; [simpl; lia|].
  rewrite IH, count_in_add. destruct (string_eqb x y); simpl; lia.
Qed.

Lemma count_in_Counter (y : string) (years : list string) :
  count_in y (Counter years) = length (List.filter (λ x, string_eqb x y) years).
Proof. unfold Counter. by rewrite count_in_foldl. Qed.

Lemma counter_add_keys (y : string) (c : list (string * nat)) :
  (counter_add y c).*1 = if bool_decide (y ∈ c.*1) then c.*1 else c.*1 ++ [y].
Proof.
  induction c as [|[k n] rest IH]; cbn [counter_add]; [done|].
  destruct (string_eqb k y) eqn:Hk.
  - apply string_eqb_true in Hk as ->. rewrite !fmap_cons. cbn [fst].
    rewrite bool_decide_eq_true_2; [done | apply list_elem_of_here].
  - rewrite !fmap_cons, IH. cbn [fst].
    assert (k ≠ y) as Hne by (intros ->; unfold string_eqb in Hk;
                                by rewrite bool_decide_eq_true_2 in Hk).
    destruct (bool_decide (y ∈ rest.*1)) eqn:Hin.
    + apply bool_decide_eq_true in Hin. rewrite bool_decide_eq_true_2; [done|].
      by apply list_elem_of_further.
    + apply bool_decide_eq_false in Hin. rewrite bool_decide_eq_false_2; [done|].
      intros [?|?]%elem_of_cons; congruence.
Qed.

Lemma counter_add_NoDup (y : string) (c : list (string * nat)) :
  NoDup c.*1 → NoDup (counter_add y c).*1.
Proof.
  intros Hc. rewrite counter_add_keys. case_bool_decide as Hin; [done|].
  apply NoDup_app. split; [done|]. split; [|apply NoDup_singleton].
  intros x Hx ->%list_elem_of_singleton. done.
Qed.

Lemma Counter_NoDup (years : list string) : NoDup (Counter years).*1.
Proof.
  unfold Counter. assert (NoDup ([] : list (string * nat)).*1) as Hc by constructor.
  revert Hc. generalize ([] : list (string * nat)).
  induction years as [|y l IH]; intros c Hc; cbn [foldl]; [done|].
  by apply IH, counter_add_NoDup.
Qed.

Lemma count_in_entry (c : list (string * nat)) (k : string) (n : nat) :
  NoDup c.*1 → (k, n) ∈ c → count_in k c = n.
Proof.
  induction c as [|[k' n'] rest IH]; intros Hc Hin; [by apply elem_of_nil in Hin|].
  rewrite fmap_cons in Hc. apply NoDup_cons in Hc as [Hk' Hc].
  cbn [count_in]. apply elem_of_cons in Hin as [[= <- <-]|Hin].
  - unfold string_eqb. by rewrite bool_decide_eq_true_2.
  - destruct (string_eqb k' k) eqn:Hk; [|by apply IH].
    apply string_eqb_true in Hk as ->. exfalso. apply Hk'.
    apply list_elem_of_fmap. by exists (k, n).
Qed.

Lemma count_in_bound (c : list (string * nat)) (y : string) :
  count_in y c = 0 ∨ (y, count_in y c) ∈ c.
Proof.
  induction c as [|[k n] rest IH]; cbn [count_in]; [by left|].
  destruct (string_eqb k y) eqn:Hk.
  - apply string_eqb_true in Hk as ->. right. apply list_elem_of_here.
  - destruct IH as [?|?]; [by left | right; by apply list_elem_of_further].
Qed.

Lemma max_first_spec (best : string * nat) (l : list (string * nat)) :
  max_first best l ∈ best :: l
  ∧ ∀ x, x ∈ best :: l → x.2 ≤ (max_first best l).2.
Proof.
  revert best. induction l as [|x l IH]; intros best; cbn [max_first].
  - split; [apply list_elem_of_here|]. by intros x ->%list_elem_of_singleton.
  - destruct (best.2 <? x.2) eqn:Hlt.
    + apply Nat.ltb_lt in Hlt. destruct (IH x) as [Hin Hmax]. split.
      * by apply list_elem_of_further.
      * intros z [->|Hz]%elem_of_cons; [|by apply Hmax].
        pose proof (Hmax x (list_elem_of_here _ _)). lia.
    + apply Nat.ltb_ge in Hlt. destruct (IH best) as [Hin Hmax]. split.
      * apply elem_of_cons in Hin as [->|Hin];
          [apply list_elem_of_here | by do 2 apply list_elem_of_further].
      * intros z [->|[->|Hz]%elem_of_cons]%elem_of_cons.
        -- apply Hmax, list_elem_of_here.
        -- pose proof (Hmax best (list_elem_of_here _ _)). lia.
        -- by apply Hmax, list_elem_of_further.
Qed.

(** The most common year and its count, as the code obtains them. *)
Lemma most_common_year_spec (years : list string) :
  ∃ year count,
    (if bool_decide (Counter years ≠ [])
     then index0 (most_common_1 (Counter years))
     else Ok ("None", 0)) = Ok (year, count)
    ∧ (∀ y, length (List.filter (λ x, string_eqb x y) years) ≤ count)
    ∧ (count ≠ 0 → count = length (List.filter (λ x, string_eqb x year) years)).
Proof.
  pose proof (Counter_NoDup years) as Hnodup.
  pose proof (count_in_Counter) as Hcount.
  destruct (Counter years) as [|x rest] eqn:Hc.
  - exists "None", 0. split; [done|]. split; [|done].
    intros y. by rewrite <- Hcount, Hc.
  - destruct (max_first_spec x rest) as [Hin Hmax].
    destruct (max_first x rest) as [year count] eqn:Htop.
    exists year, count. split; [by cbn [most_common_1 index0]; rewrite Htop|]. split.
    + intros y. rewrite <- Hcount, Hc.
      destruct (count_in_bound (x :: rest) y) as [->|Hy]; [lia|].
      apply (Hmax _ Hy).
    + intros _. rewrite <- Hcount, Hc. symmetry. by apply count_in_entry.
Qed.

Lemma QofN_le (a b : nat) : a ≤ b → (QofN a <= QofN b)%Q.
Proof. intros H. unfold QofN. rewrite <- Zle_Qle. lia. Qed.

Lemma ratio_above (count total : nat) (t : Q) :
  total ≠ 0 →
  Qgtb (QofN count / QofN total) t = true ↔ (t * QofN total < QofN count)%Q.
Proof.
  intros Htotal. rewrite Qgtb_true.
  assert (0 < QofN total)%Q as Hpos by (apply (QofN_lt 0); lia).
  split; intros H.
  - apply (Qmult_lt_r _ _ (QofN total)) in H; [|done].
    revert H. by field_simplify (QofN count / QofN total * QofN total)%Q;
      [|intros Hz; rewrite Hz in Hpos; by apply Qlt_irrefl in Hpos].
  - by apply Qlt_shift_div_l.
Qed.

Lemma citation_pattern_flags_clustered (all_citations : list (string * string)) :
  all_citations ≠ [] →
  ∃ fl,
    citation_pattern_flags all_citations = Ok fl
    ∧ ((∃ year count, ClusteredYear year count ∈ fl) ↔
       ∃ year,
         3 ≤ citations_in_year year all_citations
         ∧ (0.4 * QofN (length all_citations)
            < QofN (citations_in_year year all_citations))%Q).
Proof.
  intros Hne. unfold citation_pattern_flags. cbv zeta.
  assert (length all_citations ≠ 0) as Hlen by by destruct all_citations.
  set (round_years := length (List.filter (λ c, endswith "0" c.2) all_citations)).
  assert (returns (if 3 <=? length all_citations
                   then truediv (QofN round_years) (QofN (length all_citations))
                        ≫= λ r, Ok (flag_if (Qgtb r 0.5)
                                      (RoundYears round_years (length all_citations)))
                   else Ok [])) as [round Hround].
  { destruct (3 <=? _); [|apply returns_Ok].
    apply returns_bind; [by apply returns_truediv_nat | intros; apply returns_Ok]. }
  rewrite Hround. cbn [mbind result_bind]. cbv zeta.
  assert (Forall (λ f, ∀ y c, f ≠ ClusteredYear y c) round) as Hround_flags.
  { destruct (3 <=? _); [|injection Hround as <-; constructor].
    apply bind_Ok in Hround as (r & _ & [= <-]). by apply Forall_flag_if. }
  set (generic := flag_if _ (CommonSurnames _)).
  assert (Forall (λ f, ∀ y c, f ≠ ClusteredYear y c) generic) as Hgeneric
    by by apply Forall_flag_if.
  destruct (most_common_year_spec (snd <$> all_citations))
    as (year & count & -> & Hmax & Hyear).
  cbn [mbind result_bind]. cbv iota beta.
  assert (∀ clustered,
            ((∃ y c, ClusteredYear y c ∈ clustered) ↔
             (∃ y c, ClusteredYear y c ∈ round ++ generic ++ clustered))) as Hpart.
  { intros clustered. split.
    - intros (y & c & Hin). exists y, c. rewrite !elem_of_app. tauto.
    - intros (y & c & [Hin|[Hin|Hin]%elem_of_app]%elem_of_app); [| |eauto].
      + by destruct (proj1 (Forall_forall _ _) Hround_flags _ Hin y c).
      + by destruct (proj1 (Forall_forall _ _) Hgeneric _ Hin y c). }
  unfold citations_in_year.
  destruct (3 <=? count) eqn:Hcount.
  - apply Nat.leb_le in Hcount. rewrite truediv_nat by done. cbn [mbind result_bind].
    eexists. split; [done|]. rewrite <- Hpart.
    destruct (Qgtb (QofN count / QofN (length all_citations)) 0.4) eqn:Hratio; simpl.
    + apply ratio_above in Hratio; [|done]. split.
      * intros _. exists year. rewrite <- Hyear by lia. done.
      * intros _. exists year, count. apply list_elem_of_here.
    + split; [by intros (y & c & Hin%elem_of_nil)|].
      intros (y & Hy & Hgt). exfalso.
      apply not_true_iff_false in Hratio. apply Hratio, ratio_above; [done|].
      eapply Qlt_le_trans; [exact Hgt|]. apply QofN_le, Hmax.
  - apply Nat.leb_gt in Hcount. eexists. split; [done|]. rewrite <- Hpart.
    split; [by intros (y & c & Hin%elem_of_nil)|].
    intros (y & Hy & _). pose proof (Hmax y). lia.
Qed.

Lemma verification_flags_not_clustered (v : verification) (y : string) (c : nat) :
  ClusteredYear y c ∉ verification_flags v.
Proof.
  unfold verification_flags. destruct (0 <? v_not_found v); [|apply not_elem_of_nil].
  intros [[=]|[Hin|Hin]%elem_of_app]%elem_of_cons.
  - by apply list_elem_of_fmap in Hin as (item & [=] & _).
  - by apply elem_of_flag_if in Hin as [_ [=]].
Qed.

(** C3, as the code has it. On a text that is not empty the check returns,
    and it reports citations clustered in one year exactly when one year has
    at least 3 of the detected citations and more than 40% of them. *)
Theorem clustered_year_flag (text : string) (verify_citations : bool) :
  apa_groups_capitalised → text ≠ "" →
  ∃ all_citations fl,
    for_each first_author
      (re_findall2 apa_parenthetical text ++ re_findall2 apa_narrative text)
      = Ok all_citations
    ∧ check_bibliographic_markers text verify_citations = Ok fl
    ∧ ((∃ year count, ClusteredYear year count ∈ fl) ↔
       ∃ year,
         3 ≤ citations_in_year year all_citations
         ∧ (0.4 * QofN (length all_citations)
            < QofN (citations_in_year year all_citations))%Q).
Proof.
  intros Hapa Htext%nonempty_true. unfold check_bibliographic_markers.
  rewrite Htext. cbn [negb]. cbv zeta.
  assert (returns (for_each first_author
            (re_findall2 apa_parenthetical text ++ re_findall2 apa_narrative text)))
    as [all_citations Hall].
  { apply returns_for_each, Forall_forall. intros [author year] Hin.
    apply returns_first_author. simpl.
    apply elem_of_app in Hin as [Hin|Hin];
      eapply Hapa; [|exact Hin| |exact Hin]; set_solver. }
  rewrite Hall. cbn [mbind result_bind].
  exists all_citations.
  set (vague := flag_if _ (VagueCitations _)).
  set (missing := flag_if _ MissingReferences).
  set (verified := if verify_citations && _ then _ else _).
  assert (∀ patterns,
            (∃ y c, ClusteredYear y c ∈ vague ++ patterns ++ missing ++ verified)
            ↔ (∃ y c, ClusteredYear y c ∈ patterns)) as Hpart.
  { intros patterns. split.
    - intros (y & c & [Hin|[Hin|[Hin|Hin]%elem_of_app]%elem_of_app]%elem_of_app).
      + by apply elem_of_flag_if in Hin as [_ [=]].
      + eauto.
      + by apply elem_of_flag_if in Hin as [_ [=]].
      + unfold verified in Hin. destruct (verify_citations && _).
        * by apply verification_flags_not_clustered in Hin.
        * by apply elem_of_nil in Hin.
    - intros (y & c & Hin). exists y, c. rewrite !elem_of_app. tauto. }
  case_bool_decide as Hne.
  - destruct (citation_pattern_flags_clustered all_citations Hne) as (patterns & -> & Hiff).
    cbn [mbind result_bind]. eexists. split; [done|]. split; [done|].
    by rewrite Hpart.
  - cbn [mbind result_bind]. eexists. split; [done|]. split; [done|].
    rewrite Hpart, Hne.
    split; [by intros (y & c & Hin%elem_of_nil)|].
    intros (y & Hy & _). unfold citations_in_year in Hy. simpl in Hy. lia.
Qed.

(** ** Similarity across assignments *)

Lemma text_of_add (aid i u a : Z) (x : string) (r : gmap Z (gmap Z string)) :
  substantial x = true →
  text_of (add_submission aid i x r) u a =
  if bool_decide (u = i ∧ a = aid) then Some x else text_of r u a.
Proof.
  intros Hx. unfold add_submission, text_of. rewrite Hx.
  destruct (decide (u = i)) as [->|Hu].
  - rewrite lookup_insert_eq. simpl.
    destruct (decide (a = aid)) as [->|Ha].
    + rewrite lookup_insert_eq. by rewrite bool_decide_eq_true_2.
    + rewrite lookup_insert_ne by done. rewrite bool_decide_eq_false_2 by tauto.
      by destruct (r !! i).
  - rewrite lookup_insert_ne by done. by rewrite bool_decide_eq_false_2 by tauto.
Qed.

Lemma inner_fold_spec (aid : Z) (acc : gmap Z (gmap Z string)) (texts : gmap Z string) :
  (∀ u, text_of acc u aid = None) →
  ∀ u a t,
    text_of (map_fold (add_submission aid) acc texts) u a = Some t ↔
    text_of acc u a = Some t ∨ (a = aid ∧ texts !! u = Some t ∧ substantial t = true).
Proof.
  intros Hfresh.
  apply (map_fold_weak_ind
           (λ r m, ∀ u a t, text_of r u a = Some t ↔
                            text_of acc u a = Some t
                            ∨ (a = aid ∧ m !! u = Some t ∧ substantial t = true))).
  - intros u a t. rewrite lookup_empty. intuition congruence.
  - intros i x m r Hi IH u a t.
    destruct (substantial x) eqn:Hx.
    + rewrite text_of_add by done. case_bool_decide as Hcase.
      * destruct Hcase as [-> ->]. rewrite lookup_insert_eq, Hfresh.
        intuition congruence.
      * rewrite IH. destruct (decide (u = i)) as [->|Hu].
        -- rewrite lookup_insert_eq, Hi. intuition congruence.
        -- by rewrite lookup_insert_ne.
    + unfold add_submission. rewrite Hx, IH.
      destruct (decide (u = i)) as [->|Hu].
      * rewrite lookup_insert_eq, Hi. intuition congruence.
      * by rewrite lookup_insert_ne.
Qed.

Lemma build_student_submissions_spec (all_data : gmap Z assignment_data) (u a : Z) (t : string) :
  text_of (build_student_submissions all_data) u a = Some t ↔
  ∃ d, all_data !! a = Some d ∧ ad_submission_texts d !! u = Some t ∧ substantial t = true.
Proof.
  revert u a t. unfold build_student_submissions.
  apply (map_fold_weak_ind
           (λ r m, ∀ u a t, text_of r u a = Some t ↔
              ∃ d, m !! a = Some d ∧ ad_submission_texts d !! u = Some t
                   ∧ substantial t = true)).
  - intros u a t. unfold text_of. rewrite lookup_empty. simpl.
    split; [done|]. by intros (d & Hd & _).
  - intros i x m r Hi IH u a t.
    rewrite inner_fold_spec.
    + rewrite IH. destruct (decide (a = i)) as [->|Ha].
      * rewrite lookup_insert_eq, Hi. split.
        -- intros [(d & [=] & _)|(_ & Hu & Ht)]. by exists x.
        -- intros (d & [= <-] & Hu & Ht). by right.
      * rewrite lookup_insert_ne by done. split.
        -- intros [?|(-> & _)]; done.
        -- by left.
    + intros u'. destruct (text_of r u' i) eqn:Ht; [|done].
      apply IH in Ht as (d & Hd & _). congruence.
Qed.

Lemma substantial_words (t : string) : substantial t = true ↔ 50 < count_words t.
Proof.
  unfold substantial, count_words. destruct (nonempty t); simpl.
  - apply Nat.ltb_lt.
  - split; [done | lia].
Qed.

Lemma all_pairs_distinct {A} (l : list (Z * A)) (x y : Z * A) :
  NoDup l.*1 → (x, y) ∈ all_pairs l → x ∈ l ∧ y ∈ l ∧ x.1 ≠ y.1.
Proof.
  induction l as [|z rest IH]; intros Hl Hin; [by apply elem_of_nil in Hin|].
  rewrite fmap_cons in Hl. apply NoDup_cons in Hl as [Hz Hrest].
  cbn [all_pairs] in Hin. apply elem_of_app in Hin as [Hin|Hin].
  - apply list_elem_of_fmap in Hin as (y' & [= Hx Hy'] & Hy). subst x y'.
    split; [apply list_elem_of_here|]. split; [by apply list_elem_of_further|].
    intros Heq. apply Hz. rewrite Heq. apply list_elem_of_fmap. by exists y.
  - destruct (IH Hrest Hin) as (Hx & Hy & Hne).
    split; [by apply list_elem_of_further|]. split; [by apply list_elem_of_further|]. done.
Qed.

Lemma all_pairs_either {A} (l : list A) (x y : A) :
  x ∈ l → y ∈ l → x ≠ y → (x, y) ∈ all_pairs l ∨ (y, x) ∈ all_pairs l.
Proof.
  induction l as [|z rest IH]; intros Hx Hy Hne; [by apply elem_of_nil in Hx|].
  cbn [all_pairs]. rewrite !elem_of_app, !list_elem_of_fmap.
  apply elem_of_cons in Hx as [->|Hx]; apply elem_of_cons in Hy as [->|Hy].
  - done.
  - left. left. by exists y.
  - right. left. by exists x.
  - destruct (IH Hx Hy Hne); tauto.
Qed.

Lemma self_pair_Ok (all_data : gmap Z assignment_data) (x y : Z * string) :
  is_Some (all_data !! x.1) → is_Some (all_data !! y.1) →
  ∃ ps, self_pair all_data x y = Ok ps
        ∧ (ps ≠ [] ↔ Qgeb (calculate_text_similarity x.2 y.2) 0.7 = true).
Proof.
  intros [d1 H1] [d2 H2]. unfold self_pair, assignment_name.
  rewrite H1, H2. destruct (Qgeb _ _); simpl; eexists; (split; [done|]); done.
Qed.

Lemma similar_pairs_of_Ok (all_data : gmap Z assignment_data) (l : list (Z * string)) :
  Forall (λ x, is_Some (all_data !! x.1)) l →
  ∃ ps, similar_pairs_of all_data l = Ok ps
        ∧ (ps ≠ [] ↔
           ∃ x y, (x, y) ∈ all_pairs l
                  ∧ Qgeb (calculate_text_similarity x.2 y.2) 0.7 = true).
Proof.
  induction 1 as [|x rest Hx Hrest (later & Hlater & IH)].
  - exists []. split; [done|]. split; [done|]. by intros (x & y & Hin%elem_of_nil & _).
  - cbn [similar_pairs_of all_pairs]. rewrite Hlater.
    assert (∃ here, for_each (self_pair all_data x) rest = Ok here
              ∧ (concat here ≠ [] ↔
                 ∃ y, y ∈ rest ∧ Qgeb (calculate_text_similarity x.2 y.2) 0.7 = true))
      as (here & -> & Hhere).
    { clear Hlater IH. induction Hrest as [|y rest Hy _ (here & Hhere & IH)].
      - exists []. split; [done|]. split; [done|]. by intros (y & Hin%elem_of_nil & _).
      - destruct (self_pair_Ok all_data x y Hx Hy) as (ps & Hps & Hiff).
        cbn [for_each]. rewrite Hps, Hhere. exists (ps :: here). split; [done|].
        cbn [concat]. split.
        + intros Hne. destruct ps as [|p ps].
          * apply IH in Hne as (y' & Hin & Hsim). exists y'.
            split; [by apply list_elem_of_further | done].
          * exists y. split; [apply list_elem_of_here | by apply Hiff].
        + intros (y' & [->|Hin]%elem_of_cons & Hsim).
          * apply Hiff in Hsim. by destruct ps.
          * intros [_ Hnil]%app_eq_nil. revert Hnil. apply IH. by exists y'. }
    cbn [mbind result_bind]. eexists. split; [done|]. split.
    + intros Hne. destruct (concat here) as [|p ps] eqn:Hc.
      * apply IH in Hne as (y & z & Hin & Hsim). exists y, z.
        split; [|done]. apply elem_of_app. by right.
      * destruct Hhere as [(y & Hin & Hsim) _]; [done|]. exists x, y.
        split; [|done]. apply elem_of_app. left. apply list_elem_of_fmap. by exists y.
    + intros (y & z & [Hin|Hin]%elem_of_app & Hsim).
      * apply list_elem_of_fmap in Hin as (z' & [= Hy Hz'] & Hz). subst y z'.
        intros [Hnil _]%app_eq_nil. revert Hnil. apply Hhere. by exists z.
      * intros [_ Hnil]%app_eq_nil. revert Hnil. apply IH. by exists y, z.
Qed.

Lemma self_plagiarism_of_Ok (all_data : gmap Z assignment_data)
    (students : list (Z * gmap Z string)) :
  Forall (λ s, ∀ a t, s.2 !! a = Some t → is_Some (all_data !! a)) students →
  ∃ sp, self_plagiarism_of all_data students = Ok sp
        ∧ ∀ u, is_Some (sp !! u) ↔
               ∃ assignments x y,
                 (u, assignments) ∈ students
                 ∧ (x, y) ∈ all_pairs (map_to_list assignments)
                 ∧ Qgeb (calculate_text_similarity x.2 y.2) 0.7 = true.
Proof.
  induction 1 as [|[user_id assignments] rest Hs _ (others & Hothers & IH)].
  - exists ∅. split; [done|]. intros u. rewrite lookup_empty. split.
    + by intros [? [=]].
    + by intros (a & x & y & Hin%elem_of_nil & _).
  - cbn [self_plagiarism_of].
    destruct (similar_pairs_of_Ok all_data (map_to_list assignments))
      as (ps & -> & Hps).
    { apply Forall_forall. intros [a t] Hin%elem_of_map_to_list. by apply (Hs a t). }
    rewrite Hothers. cbn [mbind result_bind]. eexists. split; [done|].
    intros u. case_bool_decide as Hne.
    + destruct (decide (u = user_id)) as [->|Hu].
      * rewrite lookup_insert_eq. split; [|by eauto].
        intros _. apply Hps in Hne as (x & y & Hin & Hsim).
        exists assignments, x, y. split; [apply list_elem_of_here | done].
      * rewrite lookup_insert_ne by done. rewrite IH. split.
        -- intros (a & x & y & Hin & H'). exists a, x, y.
           split; [by apply list_elem_of_further | done].
        -- intros (a & x & y & [[= -> ->]|Hin]%elem_of_cons & H'); [done|].
           by exists a, x, y.
    + rewrite IH. split.
      * intros (a & x & y & Hin & H'). exists a, x, y.
        split; [by apply list_elem_of_further | done].
      * intros (a & x & y & [[= -> ->]|Hin]%elem_of_cons & H').
        -- exfalso. revert Hne. apply Hps. by exists x, y.
        -- by exists a, x, y.
Qed.

Lemma returns_cross_step (all_data : gmap Z assignment_data) (student_names : gmap Z string)
    (x y : Z * Z * string) st :
  is_Some (all_data !! x.1.2) → is_Some (all_data !! y.1.2) →
  returns (cross_step all_data student_names x y st).
Proof.
  destruct x as [[user1 aid1] text1], y as [[user2 aid2] text2].
  intros [d1 H1] [d2 H2]. unfold cross_step, assignment_name. simpl in H1, H2.
  rewrite H1, H2. cbn [mbind result_bind].
  repeat match goal with |- returns (if ?b then _ else _) => destruct b end;
    apply returns_Ok.
Qed.

Lemma returns_fold_result {A S} (f : A → S → result S) (l : list A) (s : S) :
  Forall (λ x, ∀ s, returns (f x s)) l → returns (fold_result f l s).
Proof.
  intros Hl. revert s. induction Hl as [|x rest Hx _ IH]; intros s; [apply returns_Ok|].
  cbn [fold_result]. apply returns_bind; [apply Hx | intros; apply IH].
Qed.

Lemma returns_cross_student_of (all_data : gmap Z assignment_data)
    (student_names : gmap Z string) (l : list (Z * Z * string)) st :
  Forall (λ x, is_Some (all_data !! x.1.2)) l →
  returns (cross_student_of all_data student_names l st).
Proof.
  intros Hl. revert st. induction Hl as [|x rest Hx Hrest IH]; intros st;
    [apply returns_Ok|].
  cbn [cross_student_of]. apply returns_bind; [|intros; apply IH].
  apply returns_fold_result. eapply Forall_impl; [exact Hrest|].
  intros y Hy s. by apply returns_cross_step.
Qed.

Lemma text_of_Some (student_submissions : gmap Z (gmap Z string)) (u a : Z) (t : string) :
  text_of student_submissions u a = Some t ↔
  ∃ assignments, student_submissions !! u = Some assignments ∧ assignments !! a = Some t.
Proof.
  unfold text_of. destruct (student_submissions !! u) as [asg|]; simpl.
  - split; [by exists asg | by intros (? & [= <-] & ?)].
  - split; [done | by intros (? & [=] & _)].
Qed.

(** C5. The check returns, and a student is in the dictionary of
    self-plagiarism exactly when two of the student's submissions to different
    assignments, each of more than 50 words, have a similarity of at least
    0.70; a submission of 50 words or fewer is never considered. *)
Theorem self_plagiarism_result (all_data : gmap Z assignment_data)
    (student_names : gmap Z string) :
  ∃ self_plagiarism cross_student_plagiarism,
    check_cross_assignment_similarity all_data student_names
      = Ok (self_plagiarism, cross_student_plagiarism)
    ∧ ∀ user_id,
        is_Some (self_plagiarism !! user_id) ↔
        ∃ aid1 aid2 data1 data2 text1 text2,
          aid1 ≠ aid2
          ∧ all_data !! aid1 = Some data1
          ∧ all_data !! aid2 = Some data2
          ∧ ad_submission_texts data1 !! user_id = Some text1
          ∧ ad_submission_texts data2 !! user_id = Some text2
          ∧ 50 < count_words text1
          ∧ 50 < count_words text2
          ∧ (0.7 <= calculate_text_similarity text1 text2)%Q.
Proof.
  unfold check_cross_assignment_similarity. cbv zeta.
  set (student_submissions := build_student_submissions all_data).
  assert (∀ u asg a t, student_submissions !! u = Some asg → asg !! a = Some t →
            ∃ d, all_data !! a = Some d ∧ ad_submission_texts d !! u = Some t
                 ∧ substantial t = true) as Hknown.
  { intros u asg a t Hu Ha. apply build_student_submissions_spec, text_of_Some. eauto. }
  destruct (self_plagiarism_of_Ok all_data (map_to_list student_submissions))
    as (sp & -> & Hsp).
  { apply Forall_forall. intros [u asg] Hin%elem_of_map_to_list a t Ha.
    destruct (Hknown u asg a t Hin Ha) as (d & -> & _). eauto. }
  cbn [mbind result_bind].
  match goal with
  | |- context [cross_student_of ?d ?n ?l ?st] =>
      destruct (returns_cross_student_of d n l st) as [st' ->]
  end.
  { apply Forall_forall. intros [[u a] t] Hin.
    apply list_elem_of_bind in Hin as ([u' asg] & Hin & Hu%elem_of_map_to_list).
    apply list_elem_of_bind in Hin as ([a' t'] & Hin & Ha%elem_of_map_to_list).
    apply list_elem_of_singleton in Hin as [= -> -> ->].
    destruct (Hknown u' asg a' t' Hu Ha) as (d & Hd & _). simpl. by rewrite Hd. }
  cbn [mbind result_bind]. exists sp, st'.2. split; [done|].
  intros u. rewrite Hsp. split.
  - intros (asg & [a1 t1] & [a2 t2] & Hu%elem_of_map_to_list & Hpair & Hsim).
    apply all_pairs_distinct in Hpair
      as (H1%elem_of_map_to_list & H2%elem_of_map_to_list & Hne);
      [|apply NoDup_fst_map_to_list].
    destruct (Hknown u asg a1 t1 Hu H1) as (d1 & Hd1 & Ht1 & Hs1).
    destruct (Hknown u asg a2 t2 Hu H2) as (d2 & Hd2 & Ht2 & Hs2).
    exists a1, a2, d1, d2, t1, t2.
    repeat (split; [done || by apply substantial_words|]).
    by apply Qgeb_true.
  - intros (a1 & a2 & d1 & d2 & t1 & t2 & Hne & Hd1 & Hd2 & Ht1 & Ht2
            & Hw1%substantial_words & Hw2%substantial_words & Hsim%Qgeb_true).
    assert (text_of student_submissions u a1 = Some t1) as (asg & Hu & H1)%text_of_Some
      by (apply build_student_submissions_spec; eauto).
    assert (text_of student_submissions u a2 = Some t2) as (asg' & Hu' & H2)%text_of_Some
      by (apply build_student_submissions_spec; eauto).
    rewrite Hu in Hu'. injection Hu' as <-.
    apply elem_of_map_to_list in H1, H2.
    destruct (all_pairs_either (map_to_list asg) (a1, t1) (a2, t2)) as [Hpair|Hpair];
      [done | done | congruence | |].
    + exists asg, (a1, t1), (a2, t2). by rewrite elem_of_map_to_list.
    + exists asg, (a2, t2), (a1, t1). rewrite elem_of_map_to_list.
      simpl. by rewrite similarity_symmetric.
Qed.

(** * Further properties *)

(** ** Which step issues a flag *)

Lemma body_flag_issued body uid all flags f :
  analyze_body body uid all = Ok flags →
  f ∈ flags ↔ issued body uid all f.
Proof.
  intros (f7 & f10 & f11 & f13 & f14 & f16 & f17 & f18
          & H7 & H10 & H11 & H13 & H14 & H16 & H17 & H18 & ->)%analyze_body_Ok.
  pose proof H7 as S7. pose proof H10 as S10. pose proof H11 as S11.
  pose proof H13 as S13. pose proof H14 as S14. pose proof H16 as S16.
  pose proof H17 as S17. pose proof H18 as S18.
  apply passive_voice_flags_step in S7. apply uniformity_flags_step in S10.
  apply repetitive_flags_step in S11. apply polish_flags_step in S13.
  apply organization_flags_step in S14. apply prose_flags_step in S16.
  apply bibliographic_flags_step in S17. apply cross_submission_flags_step in S18.
  pose proof (length_flags_step body) as S1.
  pose proof (transition_flags_step body) as S2.
  pose proof (hedge_flags_step body) as S3.
  pose proof (vocabulary_flags_step body) as S4.
  pose proof (generic_flags_step body) as S5.
  pose proof (balance_flags_step body) as S6.
  pose proof (personal_flags_step body) as S8.
  pose proof (emotional_flags_step body) as S9.
  pose proof (copy_paste_flags_step body) as S12.
  pose proof (heading_flags_step body) as S15.
  unfold issued. rewrite !elem_of_app. split.
  - intros Hin.
    repeat (destruct Hin as [Hin|Hin];
            [match goal with
             | S : Forall (λ f, step_of f = ?k) ?l, Hin : f ∈ ?l |- _ =>
                 rewrite (elem_of_step k l f S Hin); by eauto
             end|]).
    rewrite (elem_of_step 18 f18 f S18 Hin). by eauto.
  - intros Hi. destruct (step_of f) as [|k]; [done|].
    do 18 (destruct k as [|k]; [
      first
        [ tauto
        | destruct Hi as (fl & Heq & Hin);
          match type of Heq with
          | ?a = Ok _ =>
              match goal with
              | E : a = Ok _ |- _ => rewrite E in Heq; injection Heq as <-
              end
          end; tauto ]|]).
    done.
Qed.

(** ** The order of the flags *)

Lemma sorted_chunk (k : nat) (l rest : list flag) :
  Forall (λ f, step_of f = k) l →
  StronglySorted (λ f g, step_of f ≤ step_of g) rest →
  Forall (λ g, k ≤ step_of g) rest →
  StronglySorted (λ f g, step_of f ≤ step_of g) (l ++ rest)
  ∧ Forall (λ g, k ≤ step_of g) (l ++ rest).
Proof.
  intros Hl Hrest Hk. induction Hl as [|f l Hf _ [IH1 IH2]]; [done|].
  simpl. split.
  - constructor; [done|]. rewrite Hf. done.
  - constructor; [lia | done].
Qed.

Lemma sorted_chunk_below (k k' : nat) (l rest : list flag) :
  k ≤ k' →
  Forall (λ f, step_of f = k) l →
  StronglySorted (λ f g, step_of f ≤ step_of g) rest ∧ Forall (λ g, k' ≤ step_of g) rest →
  StronglySorted (λ f g, step_of f ≤ step_of g) (l ++ rest)
  ∧ Forall (λ g, k ≤ step_of g) (l ++ rest).
Proof.
  intros Hk Hl [Hrest Hk']. apply sorted_chunk; [done..|].
  eapply Forall_impl; [exact Hk'|]. simpl. intros; lia.
Qed.

Lemma sorted_last_chunk (k : nat) (l : list flag) :
  Forall (λ f, step_of f = k) l →
  StronglySorted (λ f g, step_of f ≤ step_of g) l ∧ Forall (λ g, k ≤ step_of g) l.
Proof.
  intros Hl. rewrite <- (app_nil_r l). apply sorted_chunk; [done|constructor..].
Qed.

(** X1. The flags of a submission come in the order of the steps that issue
    them: the flags of the text checks in the order of the checks, then those
    of the attached files, then the one about the URL. *)
Theorem flags_in_step_order (sub : submission) (all : list submission) (flags : list flag) :
  analyze_submission sub all = Ok flags →
  StronglySorted (λ f g, step_of f ≤ step_of g) flags.
Proof.
  intros (text_flags & file_flags & Ht & Hf & ->)%analyze_submission_Ok.
  apply attachment_flags_step in Hf.
  assert (StronglySorted (λ f g, step_of f ≤ step_of g)
            (concat file_flags
             ++ flag_if (truthy (get (s_url sub)) && negb (truthy (get_or (s_body sub) ""))
                         && bool_decide (default [] (get_or (s_attachments sub) []) = []))
                        UrlNoDescription)
          ∧ Forall (λ g, 19 ≤ step_of g)
              (concat file_flags
               ++ flag_if (truthy (get (s_url sub)) && negb (truthy (get_or (s_body sub) ""))
                           && bool_decide (default [] (get_or (s_attachments sub) []) = []))
                          UrlNoDescription)) as Htail.
  { apply (sorted_chunk_below 19 20); [lia | done|].
    apply sorted_last_chunk. by apply Forall_flag_if. }
  destruct (truthy (get_or (s_body sub) "")); [|by injection Ht as <-; apply Htail].
  apply analyze_body_Ok in Ht
    as (f7 & f10 & f11 & f13 & f14 & f16 & f17 & f18
        & H7 & H10 & H11 & H13 & H14 & H16 & H17 & H18 & ->).
  pose_steps (default "" (get_or (s_body sub) "")).
  rewrite <- !app_assoc.
  repeat (first
    [ apply (sorted_chunk_below 1 2); [lia | done|]
    | apply (sorted_chunk_below 2 3); [lia | done|]
    | apply (sorted_chunk_below 3 4); [lia | done|]
    | apply (sorted_chunk_below 4 5); [lia | done|]
    | apply (sorted_chunk_below 5 6); [lia | done|]
    | apply (sorted_chunk_below 6 7); [lia | done|]
    | apply (sorted_chunk_below 7 8); [lia | done|]
    | apply (sorted_chunk_below 8 9); [lia | done|]
    | apply (sorted_chunk_below 9 10); [lia | done|]
    | apply (sorted_chunk_below 10 11); [lia | done|]
    | apply (sorted_chunk_below 11 12); [lia | done|]
    | apply (sorted_chunk_below 12 13); [lia | done|]
    | apply (sorted_chunk_below 13 14); [lia | done|]
    | apply (sorted_chunk_below 14 15); [lia | done|]
    | apply (sorted_chunk_below 15 16); [lia | done|]
    | apply (sorted_chunk_below 16 17); [lia | done|]
    | apply (sorted_chunk_below 17 18); [lia | done|]
    | apply (sorted_chunk_below 18 19); [lia | done|] ]).
  exact Htail.
Qed.

(** ** Checks that are switched off, and flags for long texts *)

Lemma text_flag_issued sub all flags f :
  analyze_submission sub all = Ok flags → 1 ≤ step_of f ≤ 18 →
  f ∈ flags ↔
  truthy (get_or (s_body sub) "") = true
  ∧ issued (default "" (get_or (s_body sub) "")) (get (s_user_id sub)) all f.
Proof.
  intros Hflags Hstep.
  rewrite (submission_flag_of_body sub all flags f Hflags Hstep).
  pose proof Hflags as (tf & _ & Htf & _)%analyze_submission_Ok.
  destruct (truthy (get_or (s_body sub) "")) eqn:Hbody.
  - rewrite <- (body_flag_issued _ _ _ _ f Htf). split.
    + intros (_ & tf' & Htf' & Hin). rewrite Htf in Htf'. by injection Htf' as <-.
    + intros [_ Hin]. eauto.
  - split; by intros [[=] _].
Qed.

Ltac unfold_steps :=
  unfold length_flags, transition_flags, hedge_flags, vocabulary_flags, generic_flags,
    balance_flags, passive_voice_flags, personal_flags, emotional_flags,
    uniformity_flags, repetitive_flags, copy_paste_flags, polish_flags,
    organization_flags, heading_flags, prose_flags, bibliographic_flags,
    cross_submission_flags in *.

Lemma issued_enabled body uid all f key :
  issued body uid all f → check_key f = Some key → is_check_enabled key = true.
Proof.
  unfold issued, check_key. intros Hi Hkey.
  destruct (step_of f) as [|k]; [done|].
  do 18 (destruct k as [|k]; [
    try discriminate Hkey; injection Hkey as <-;
    unfold_steps;
    match goal with
    | |- is_check_enabled ?name = true =>
        destruct (is_check_enabled name); [done|];
        first [ by apply elem_of_nil in Hi
              | destruct Hi as (fl & [= <-] & Hin); by apply elem_of_nil in Hin ]
    end|]).
  done.
Qed.

(** X2. A check that the profile switches off issues no flag: every flag of a
    step that a check name controls is there only when that check is
    enabled. *)
Theorem disabled_check_issues_no_flag (sub : submission) (all : list submission)
    (flags : list flag) (f : flag) (key : string) :
  analyze_submission sub all = Ok flags →
  f ∈ flags → check_key f = Some key →
  is_check_enabled key = true.
Proof.
  intros Hflags Hin Hkey.
  assert (1 ≤ step_of f ≤ 18) as Hstep.
  { unfold check_key in Hkey. destruct (step_of f) as [|k]; [done|].
    do 18 (destruct k as [|k]; [lia|]). done. }
  apply (text_flag_issued sub all flags f Hflags Hstep) in Hin as [_ Hi].
  by apply (issued_enabled _ _ _ f key Hi).
Qed.

Lemma inverted_only_notes (check_name : string) :
  inverted check_name = true → CURRENT_PROFILE = Some "notes_brainstorm".
Proof.
  unfold inverted, current_invert_checks.
  destruct CURRENT_PROFILE as [key|]; [|done].
  destruct (nonempty key); [|done].
  unfold get_profile. destruct (ASSIGNMENT_PROFILES !! key) as [p|] eqn:Hp; [|done].
  apply profile_of_table in Hp.
  apply elem_of_cons in Hp as [[= -> ->]|Hp]; [done|].
  repeat (apply elem_of_cons in Hp as [[= -> ->]|Hp];
          [by unfold rough_draft, personal_reflection, discussion_post, analytical_essay,
                research_paper, creative_writing, standard; simpl; rewrite lookup_empty|]).
  by apply elem_of_nil in Hp.
Qed.

(** X3. The two flags for notes belong to the profile for notes: a flag of
    the prose check, or the flag "Too polished for notes", is issued only when
    the selected profile is "notes_brainstorm". *)
Theorem notes_flags_only_under_notes (sub : submission) (all : list submission)
    (flags : list flag) (f : flag) :
  analyze_submission sub all = Ok flags →
  f ∈ flags →
  (∃ p, f = ProseFlag p) ∨ (∃ c, f = TooPolishedForNotes c) →
  CURRENT_PROFILE = Some "notes_brainstorm".
Proof.
  intros Hflags Hin Hf.
  assert (1 ≤ step_of f ≤ 18) as Hstep by (destruct Hf as [[? ->]|[? ->]]; simpl; lia).
  apply (text_flag_issued sub all flags f Hflags Hstep) in Hin as [_ Hi].
  unfold issued in Hi. destruct Hf as [[p ->]|[c ->]]; simpl in Hi.
  - destruct Hi as (fl & Hfl & Hin). unfold prose_flags in Hfl.
    destruct (is_check_enabled _); [|injection Hfl as <-; by apply elem_of_nil in Hin].
    destruct (inverted "paragraph_structure") eqn:Hinv;
      [by apply (inverted_only_notes "paragraph_structure")|].
    injection Hfl as <-. by apply elem_of_nil in Hin.
  - destruct Hi as (fl & Hfl & Hin). unfold polish_flags in Hfl.
    destruct (is_check_enabled _); [|injection Hfl as <-; by apply elem_of_nil in Hin].
    apply bind_Ok in Hfl as (completeness & _ & Hfl).
    apply bind_Ok in Hfl as (threshold & _ & Hfl).
    destruct (inverted "complete_sentences") eqn:Hinv;
      [by apply (inverted_only_notes "complete_sentences")|].
    injection Hfl as <-. by apply elem_of_flag_if in Hin as [_ [=]].
Qed.

(** X4. The length flag does not depend on the checks that a profile
    enables: a body gets "Very short text" with its number of words exactly
    when it has at least one word and fewer words than the profile's
    minimum. *)
Theorem very_short_text_flag (sub : submission) (all : list submission)
    (flags : list flag) (word_count : nat) :
  analyze_submission sub all = Ok flags →
  VeryShortText word_count ∈ flags ↔
  word_count = count_words (default "" (get_or (s_body sub) ""))
  ∧ 0 < word_count
  ∧ (Z.of_nat word_count < get_threshold "min_word_count")%Z.
Proof.
  intros Hflags.
  rewrite (text_flag_issued sub all flags _ Hflags) by (simpl; lia).
  unfold issued, length_flags. simpl step_of. cbv iota zeta.
  rewrite elem_of_flag_if, andb_true_iff, Nat.ltb_lt, Z.ltb_lt.
  split.
  - intros (_ & [Hpos Hlt] & [= ->]). done.
  - intros (-> & Hpos & Hlt). split; [|done].
    destruct (s_body sub) as [| |[|c s]]; [by vm_compute in Hpos; lia..|done].
Qed.

(** X5. The flags for long texts are not issued for short ones: a flag of the
    bibliographic check needs more than 300 words, "Suspiciously polished"
    more than 100, "Too polished for notes" more than 50, and the flags about
    missing personal and emotional language more than 200. *)
Theorem long_text_flags (sub : submission) (all : list submission) (flags : list flag) :
  analyze_submission sub all = Ok flags →
  let word_count := count_words (default "" (get_or (s_body sub) "")) in
  (∀ b, BibFlag b ∈ flags → 300 < word_count)
  ∧ (∀ c, SuspiciouslyPolished c ∈ flags → 100 < word_count)
  ∧ (∀ c, TooPolishedForNotes c ∈ flags → 50 < word_count)
  ∧ (LacksPersonalLanguage ∈ flags → 200 < word_count)
  ∧ (NoEmotionalLanguage ∈ flags → 200 < word_count).
Proof.
  intros Hflags word_count.
  assert (∀ f, 1 ≤ step_of f ≤ 18 → f ∈ flags →
            issued (default "" (get_or (s_body sub) "")) (get (s_user_id sub)) all f)
    as Hissued.
  { intros f Hstep Hin. by apply (text_flag_issued sub all flags f Hflags Hstep) in Hin as [_ ?]. }
  repeat split.
  - intros b Hin%Hissued; [|simpl; lia]. unfold issued in Hin. simpl in Hin.
    destruct Hin as (fl & Hfl & Hin). unfold bibliographic_flags in Hfl.
    destruct (300 <? _) eqn:Hw; [by apply Nat.ltb_lt in Hw|].
    injection Hfl as <-. by apply elem_of_nil in Hin.
  - intros c Hin%Hissued; [|simpl; lia]. unfold issued in Hin. simpl in Hin.
    destruct Hin as (fl & Hfl & Hin). unfold polish_flags in Hfl.
    destruct (is_check_enabled _); [|injection Hfl as <-; by apply elem_of_nil in Hin].
    apply bind_Ok in Hfl as (completeness & _ & Hfl).
    apply bind_Ok in Hfl as (threshold & _ & Hfl).
    destruct (inverted _); injection Hfl as <-;
      apply elem_of_flag_if in Hin as [Hcond [=]].
    apply andb_true_iff in Hcond as [_ Hw]. by apply Nat.ltb_lt in Hw.
  - intros c Hin%Hissued; [|simpl; lia]. unfold issued in Hin. simpl in Hin.
    destruct Hin as (fl & Hfl & Hin). unfold polish_flags in Hfl.
    destruct (is_check_enabled _); [|injection Hfl as <-; by apply elem_of_nil in Hin].
    apply bind_Ok in Hfl as (completeness & _ & Hfl).
    apply bind_Ok in Hfl as (threshold & _ & Hfl).
    destruct (inverted _); injection Hfl as <-;
      apply elem_of_flag_if in Hin as [Hcond [=]].
    apply andb_true_iff in Hcond as [_ Hw]. by apply Nat.ltb_lt in Hw.
  - intros Hin%Hissued; [|simpl; lia]. unfold issued, personal_flags in Hin. simpl in Hin.
    destruct (is_check_enabled _); [|by apply elem_of_nil in Hin].
    apply elem_of_flag_if in Hin as [Hcond _].
    apply andb_true_iff in Hcond as [Hw _]. by apply Nat.ltb_lt in Hw.
  - intros Hin%Hissued; [|simpl; lia]. unfold issued, emotional_flags in Hin. simpl in Hin.
    destruct (is_check_enabled _); [|by apply elem_of_nil in Hin].
    apply elem_of_flag_if in Hin as [Hcond _].
    apply andb_true_iff in Hcond as [Hw _]. by apply Nat.ltb_lt in Hw.
Qed.

(** ** Attached files, the URL and the other submissions *)

Lemma for_each_Forall2 {A B} (f : A → result B) (l : list A) (ys : list B) :
  for_each f l = Ok ys ↔ Forall2 (λ x y, f x = Ok y) l ys.
Proof.
  revert ys. induction l as [|x rest IH]; intros ys; simpl.
  - split; [intros [= <-]; constructor | by intros ->%Forall2_nil_inv_l].
  - split.
    + intros (y & Hy & (ys' & Hys' & [= <-])%bind_Ok)%bind_Ok.
      constructor; [done | by apply IH].
    + intros (y & ys' & Hy & Hys' & ->)%Forall2_cons_inv_l.
      apply IH in Hys'. by rewrite Hy, Hys'.
Qed.

Lemma elem_of_concat {A} (x : A) (ls : list (list A)) :
  x ∈ concat ls ↔ ∃ l, x ∈ l ∧ l ∈ ls.
Proof.
  induction ls as [|l ls IH]; simpl.
  - split; [by intros ?%elem_of_nil | by intros (l & _ & ?%elem_of_nil)].
  - rewrite elem_of_app, IH. split.
    + intros [?|(l' & ? & ?)]; [exists l; split; [done|left] | exists l'; split; [done|by right]].
    + intros (l' & Hx & [->|Hl']%elem_of_cons); [by left | right; eauto].
Qed.

Lemma file_flag_origin sub all flags f :
  analyze_submission sub all = Ok flags → step_of f = 19 →
  f ∈ flags ↔
  ∃ file fl, file ∈ default [] (get_or (s_attachments sub) [])
             ∧ check_attachment file = Ok fl ∧ f ∈ fl.
Proof.
  intros (text_flags & file_flags & Ht & Hf & ->)%analyze_submission_Ok Hstep.
  assert (f ∉ text_flags) as Htext.
  { intros Hin. destruct (truthy _).
    - apply analyze_body_steps in Ht. rewrite Forall_forall in Ht.
      apply Ht in Hin. lia.
    - injection Ht as <-. by apply elem_of_nil in Hin. }
  assert (f ∉ flag_if (truthy (get (s_url sub)) && negb (truthy (get_or (s_body sub) ""))
                       && bool_decide (default [] (get_or (s_attachments sub) []) = []))
                      UrlNoDescription) as Hurl.
  { intros [_ ->]%elem_of_flag_if. done. }
  rewrite !elem_of_app. apply for_each_Forall2 in Hf.
  split.
  - intros [?|[Hin|?]]; [done| |done].
    apply elem_of_concat in Hin as (fl & Hin & Hfl).
    apply list_elem_of_lookup in Hfl as [i Hi].
    destruct (Forall2_lookup_r _ _ _ _ _ Hf Hi) as (file & Hfile & Hcheck).
    exists file, fl. split; [by eapply list_elem_of_lookup_2|done].
  - intros (file & fl & Hfile & Hcheck & Hin). right. left.
    apply list_elem_of_lookup in Hfile as [i Hi].
    destruct (Forall2_lookup_l _ _ _ _ _ Hf Hi) as (fl' & Hfl' & Hcheck').
    rewrite Hcheck in Hcheck'. injection Hcheck' as <-.
    apply elem_of_concat. exists fl. split; [done|]. by eapply list_elem_of_lookup_2.
Qed.

(** X6. The checks on attached files depend on neither the profile nor the
    body: a submission gets "Small file" with a name and a size exactly when
    one of its attachments has that name (or "unknown" when it has none) and
    that size, and the size is positive and below 1024 bytes; a file without
    a size is taken to have size 0 and is not reported. *)
Theorem small_file_flag (sub : submission) (all : list submission) (flags : list flag)
    (file_name : string) (file_size : Z) :
  analyze_submission sub all = Ok flags →
  SmallFile file_name file_size ∈ flags ↔
  ∃ file, file ∈ default [] (get_or (s_attachments sub) [])
          ∧ fmt_str (get_or (a_filename file) "unknown") = file_name
          ∧ get_or (a_size file) 0%Z = Some file_size
          ∧ (0 < file_size < 1024)%Z.
Proof.
  intros Hflags. rewrite (file_flag_origin sub all flags _ Hflags) by done.
  unfold check_attachment. split.
  - intros (file & fl & Hfile & Hcheck & Hin). exists file. split; [done|].
    destruct (get_or (a_size file) 0%Z) as [size|]; [|done].
    injection Hcheck as <-.
    apply elem_of_app in Hin as [Hin|Hin]; apply elem_of_flag_if in Hin as [Hcond [=]].
    subst. apply andb_true_iff in Hcond as [?%Z.ltb_lt ?%Z.ltb_lt].
    unfold MIN_FILE_SIZE in *. done.
  - intros (file & Hfile & Hname & Hsize & Hpos & Hsmall).
    exists file. rewrite Hsize. eexists. split; [done|]. split; [done|].
    apply elem_of_app. left. apply elem_of_flag_if. split; [|by rewrite Hname].
    apply andb_true_iff. by rewrite Z.ltb_lt, Z.ltb_lt.
Qed.

(** X7. "URL with no description" is the flag of a submission that is a URL
    and nothing else: it is issued exactly when the submission has a URL, no
    body and no attachment, and then it is the only flag. *)
Theorem url_flag_alone (sub : submission) (all : list submission) (flags : list flag) :
  analyze_submission sub all = Ok flags →
  (UrlNoDescription ∈ flags ↔
   truthy (get (s_url sub)) = true
   ∧ truthy (get_or (s_body sub) "") = false
   ∧ default [] (get_or (s_attachments sub) []) = [])
  ∧ (UrlNoDescription ∈ flags → flags = [UrlNoDescription]).
Proof.
  intros (text_flags & file_flags & Ht & Hf & ->)%analyze_submission_Ok.
  assert (UrlNoDescription ∉ text_flags) as Htext.
  { intros Hin. destruct (truthy _).
    - apply analyze_body_steps in Ht. rewrite Forall_forall in Ht.
      apply Ht in Hin. simpl in Hin. lia.
    - injection Ht as <-. by apply elem_of_nil in Hin. }
  assert (UrlNoDescription ∉ concat file_flags) as Hfile.
  { intros Hin. apply attachment_flags_step in Hf. rewrite Forall_forall in Hf.
    by apply Hf in Hin. }
  assert (UrlNoDescription ∈ text_flags ++ concat file_flags
            ++ flag_if (truthy (get (s_url sub)) && negb (truthy (get_or (s_body sub) ""))
                        && bool_decide (default [] (get_or (s_attachments sub) []) = []))
                       UrlNoDescription
          ↔ truthy (get (s_url sub)) = true
            ∧ truthy (get_or (s_body sub) "") = false
            ∧ default [] (get_or (s_attachments sub) []) = []) as Hiff.
  { rewrite !elem_of_app, elem_of_flag_if, !andb_true_iff, negb_true_iff,
      bool_decide_eq_true. tauto. }
  split; [done|].
  intros (Hurl & Hbody & Hatt)%Hiff.
  rewrite Hbody in Ht. injection Ht as <-.
  rewrite Hatt in Hf. injection Hf as <-.
  by rewrite Hurl, Hbody, Hatt.
Qed.

Lemma scan_sound body uid all name similarity :
  cross_submission_scan body uid all = Ok [HighlySimilar name similarity] →
  ∃ other, other ∈ all
           ∧ is_duplicate body uid other = true
           ∧ other_name other (get (s_user_id other)) = Ok name
           ∧ similarity
             = calculate_text_similarity body (default "" (get_or (s_body other) "")).
Proof.
  induction all as [|other rest IH]; [done|].
  rewrite scan_step. destruct (is_duplicate body uid other) eqn:Hdup.
  - intros (other_user_name & Hname & [= <- <-])%bind_Ok.
    exists other. split; [left|done].
  - intros (o & Hin & Ho)%IH. exists o. split; [by right|done].
Qed.

Lemma highly_similar_origin (sub : submission) (all : list submission)
    (flags : list flag) (name : string) (similarity : Q) :
  analyze_submission sub all = Ok flags →
  HighlySimilar name similarity ∈ flags →
  is_check_enabled "cross_submission" = true
  ∧ ∃ other, other ∈ all
      ∧ get (s_user_id other) ≠ get (s_user_id sub)
      ∧ truthy (get_or (s_body other) "") = true
      ∧ similarity
        = calculate_text_similarity (default "" (get_or (s_body sub) ""))
            (default "" (get_or (s_body other) ""))
      ∧ (85 # 100 <= similarity)%Q
      ∧ other_name other (get (s_user_id other)) = Ok name.
Proof.
  intros Hflags Hin.
  apply (text_flag_issued sub all flags _ Hflags) in Hin as [_ Hi]; [|simpl; lia].
  unfold issued in Hi. simpl in Hi. destruct Hi as (fl & Hfl & Hin).
  unfold cross_submission_flags in Hfl.
  destruct (is_check_enabled "cross_submission");
    [|injection Hfl as <-; by apply elem_of_nil in Hin].
  split; [done|].
  pose proof (scan_at_most_one _ _ _ _ Hfl) as [Hlen _].
  destruct fl as [|f [|g fl]]; [by apply elem_of_nil in Hin| |simpl in Hlen; lia].
  apply list_elem_of_singleton in Hin as <-.
  apply scan_sound in Hfl as (other & Hother & Hdup & Hname & Hsim).
  exists other. split; [done|].
  unfold is_duplicate in Hdup.
  apply andb_true_iff in Hdup as [[Huid Hbody]%andb_true_iff Hge].
  apply negb_true_iff, bool_decide_eq_false in Huid.
  apply Qgeb_true in Hge. unfold DUPLICATE_SIMILARITY_THRESHOLD in Hge.
  subst similarity. done.
Qed.

(** X8. A report of similarity is about a real neighbour: when the flags of a
    submission say that it is highly similar to a student's submission with a
    score, cross-submission checking is enabled and the list of submissions
    has a submission of another student, with a body, whose word-overlap
    similarity with this body is that score and is at least 0.85. *)
Theorem highly_similar_sound (sub : submission) (all : list submission)
    (flags : list flag) (name : string) (similarity : Q) :
  analyze_submission sub all = Ok flags →
  HighlySimilar name similarity ∈ flags →
  is_check_enabled "cross_submission" = true
  ∧ ∃ other, other ∈ all
      ∧ get (s_user_id other) ≠ get (s_user_id sub)
      ∧ truthy (get_or (s_body other) "") = true
      ∧ similarity
        = calculate_text_similarity (default "" (get_or (s_body sub) ""))
            (default "" (get_or (s_body other) ""))
      ∧ (85 # 100 <= similarity)%Q
      ∧ other_name other (get (s_user_id other)) = Ok name.
Proof. apply highly_similar_origin. Qed.

(** ** The profiles *)

Lemma default_lookup_false (l : list (string * bool)) (k : string) :
  default true ((list_to_map l : gmap string bool) !! k) = false → (k, false) ∈ l.
Proof.
  destruct (_ !! k) as [[]|] eqn:Hk; [done| |done].
  intros _. by apply elem_of_list_to_map_2.
Qed.

(** X9. A check is off only when a profile with a name switches it off: when
    [is_check_enabled] answers no, the selected profile is one of the six
    that disable something, and the check is one of the eight that some
    profile disables.  So no selection, the profile "standard" or
    "personal_reflection", and a key that the table does not have leave every
    check on, and no profile switches off the checks for inflated vocabulary,
    copy-paste artefacts or similarity across submissions. *)
Theorem check_switched_off (check_name : string) :
  is_check_enabled check_name = false →
  (∃ key, CURRENT_PROFILE = Some key
          ∧ key ∈ ["notes_brainstorm"; "rough_draft"; "discussion_post";
                   "analytical_essay"; "research_paper"; "creative_writing"])
  ∧ check_name ∈ ["ai_transitions"; "hedge_phrases"; "generic_phrases";
                  "balance_markers"; "passive_voice"; "personal_markers";
                  "emotional_markers"; "complete_sentences"].
Proof.
  unfold is_check_enabled. destruct CURRENT_PROFILE as [key|]; [|done].
  unfold get_profile.
  destruct (ASSIGNMENT_PROFILES !! key) as [p|] eqn:Hp.
  - apply profile_of_table in Hp.
    repeat (apply elem_of_cons in Hp as [[= -> ->]|Hp];
      [unfold notes_brainstorm, rough_draft, personal_reflection, discussion_post,
         analytical_essay, research_paper, creative_writing, standard;
       cbn [checks_enabled];
       intros Hoff%default_lookup_false;
       repeat (apply elem_of_cons in Hoff as [Heq|Hoff];
               [simplify_eq; (split; [eexists; split; [done|]|]; set_solver)|]);
       by apply elem_of_nil in Hoff|]).
    by apply elem_of_nil in Hp.
  - unfold standard; cbn [checks_enabled default]. intros Hoff%default_lookup_false.
    repeat (apply elem_of_cons in Hoff as [Heq|Hoff]; [by simplify_eq|]).
    by apply elem_of_nil in Hoff.
Qed.

Lemma default_lookup_threshold (l : list (string * Z)) (k : string) (P : Z → Prop) :
  P 50%Z → Forall (λ kv, kv.1 = k → P kv.2) l →
  P (default 50%Z ((list_to_map l : gmap string Z) !! k)).
Proof.
  intros Hdefault Hl. destruct (_ !! k) as [v|] eqn:Hk; [|done].
  apply elem_of_list_to_map_2 in Hk. rewrite Forall_forall in Hl.
  by apply (Hl (k, v)).
Qed.

Lemma min_word_count_range : (20 ≤ get_threshold "min_word_count" ≤ 100)%Z.
Proof.
  unfold get_threshold. destruct CURRENT_PROFILE as [key|]; [|by vm_compute].
  unfold get_profile.
  destruct (ASSIGNMENT_PROFILES !! key) as [p|] eqn:Hp; [|by vm_compute].
  apply profile_of_table in Hp.
  repeat (apply elem_of_cons in Hp as [[= -> ->]|Hp]; [by vm_compute|]).
  by apply elem_of_nil in Hp.
Qed.

(** X10. Every profile asks for at least 20 and at most 100 words, and so
    does a key that the table does not have: under any selection a body of 1
    to 19 words gets "Very short text", and a body of 100 words or more never
    does. *)
Theorem very_short_text_whatever_the_profile (sub : submission) (all : list submission)
    (flags : list flag) :
  analyze_submission sub all = Ok flags →
  let word_count := count_words (default "" (get_or (s_body sub) "")) in
  (0 < word_count < 20 → VeryShortText word_count ∈ flags)
  ∧ (100 ≤ word_count → ∀ n, VeryShortText n ∉ flags).
Proof.
  intros Hflags word_count. pose proof min_word_count_range as Hrange.
  assert (∀ n, VeryShortText n ∈ flags ↔
               truthy (get_or (s_body sub) "") = true
               ∧ issued (default "" (get_or (s_body sub) "")) (get (s_user_id sub)) all
                   (VeryShortText n)) as Hiff.
  { intros n. apply (text_flag_issued sub all flags _ Hflags). simpl. lia. }
  unfold issued, length_flags in Hiff. simpl step_of in Hiff. cbv iota zeta in Hiff.
  fold word_count in Hiff.
  split.
  - intros Hshort. apply Hiff. split.
    + subst word_count. destruct (s_body sub) as [| |[|c s]];
        [by vm_compute in Hshort; lia..|done].
    + apply elem_of_flag_if. split; [|done].
      apply andb_true_iff. rewrite Nat.ltb_lt, Z.ltb_lt. lia.
  - intros Hlong n [_ [Hcond [= ->]]%elem_of_flag_if]%Hiff.
    apply andb_true_iff in Hcond as [_ Hlt%Z.ltb_lt]. lia.
Qed.

(** ** Similarity as a comparison of sets of words *)

Lemma split_ws_from_nil (acc s : string) :
  split_ws_from acc s = [] ↔ acc = "" ∧ blank s = true.
Proof.
  revert acc. induction s as [|c s IH]; intros acc; simpl.
  - destruct acc; simpl; [done|]. split; [done | by intros [[=] _]].
  - destruct (isspace c); simpl.
    + destruct acc; simpl; [apply IH|]. split; [done | by intros [[=] _]].
    + rewrite IH. split; [by intros [[=] _] | by intros [_ [=]]].
Qed.

Lemma word_set_empty (t : string) : word_set t = ∅ ↔ blank t = true.
Proof.
  unfold word_set, split_ws. pose proof (split_ws_from_nil "" t) as Hnil. split.
  - intros Hempty. destruct (split_ws_from "" t) as [|w ws]; [by apply Hnil|].
    assert (w ∈ (∅ : gset string)) as Hw; [|by apply elem_of_empty in Hw].
    rewrite <- Hempty. apply elem_of_list_to_set. left.
  - intros Hblank. by rewrite (proj2 Hnil).
Qed.

Lemma blank_lstrip (s : string) : blank (lstrip s) = blank s.
Proof.
  induction s as [|c s IH]; simpl; [done|].
  destruct (isspace c) eqn:Hc; simpl; [done | by rewrite Hc].
Qed.

Lemma blank_strip (s : string) : blank (strip s) = blank s.
Proof.
  unfold strip, rstrip. by rewrite blank_rev, blank_lstrip, blank_rev, blank_lstrip.
Qed.

Lemma words_of_empty (t : string) : words_of t = ∅ ↔ strip (lower t) = "".
Proof.
  unfold words_of. rewrite word_set_empty, blank_strip. symmetry. apply strip_blank.
Qed.

Lemma ratio_same (n : nat) : n ≠ 0 → (ratio n n == 1)%Q.
Proof.
  intros Hn. unfold ratio, Qeq. simpl. rewrite Z.mul_1_r, Z.mul_1_l.
  rewrite <- (Nat2Pos.id n) at 1 by done. by rewrite positive_nat_Z.
Qed.

Lemma ratio_zero (n d : nat) : (ratio n d == 0)%Q ↔ n = 0.
Proof. unfold ratio, Qeq. simpl. lia. Qed.

Lemma ratio_one (n d : nat) : d ≠ 0 → (ratio n d == 1)%Q ↔ n = d.
Proof.
  intros Hd. unfold ratio, Qeq. simpl. rewrite Z.mul_1_r, Z.mul_1_l.
  assert (Z.pos (Pos.of_nat d) = Z.of_nat d) as ->; [|lia].
  rewrite <- (Nat2Pos.id d) at 2 by done. by rewrite positive_nat_Z.
Qed.

(** The score of two texts that are not empty, in the three cases of the
    code. *)
Lemma similarity_unfold (a b : string) :
  a ≠ "" → b ≠ "" →
  calculate_text_similarity a b =
  if string_eqb (strip (lower a)) (strip (lower b)) then 1%Q
  else if bool_decide (words_of a = ∅) || bool_decide (words_of b = ∅) then 0%Q
  else ratio (size (words_of a ∩ words_of b)) (size (words_of a ∪ words_of b)).
Proof.
  intros Ha%nonempty_true Hb%nonempty_true.
  unfold calculate_text_similarity, words_of. rewrite Ha, Hb. simpl.
  destruct (string_eqb _ _); [done|].
  case_bool_decide as Ha'; [done|]. case_bool_decide as Hb'; [done|]. simpl.
  rewrite bool_decide_eq_false_2; [done|].
  intros Hu. apply Ha'. apply leibniz_equiv. apply leibniz_equiv_iff in Hu.
  set_solver.
Qed.

Lemma union_size_pos (X Y : gset string) : X ≠ ∅ → size (X ∪ Y) ≠ 0.
Proof.
  intros HX Hsize. apply size_empty_inv in Hsize. apply HX.
  apply leibniz_equiv. set_solver.
Qed.

(** X11. The score compares sets of words: two texts that have the same words
    when case and the surrounding white space are put aside, in whatever order
    and however often, get equal scores against every third text. *)
Theorem similarity_bag_of_words (a a' b : string) :
  a ≠ "" → a' ≠ "" →
  words_of a = words_of a' →
  (calculate_text_similarity a b == calculate_text_similarity a' b)%Q.
Proof.
  intros Ha Ha' Hwords.
  destruct (decide (b = "")) as [->|Hb].
  { by rewrite !(proj2 (similarity_empty _)). }
  assert (∀ x y, x ≠ "" → y ≠ "" →
            strip (lower x) = strip (lower b) → words_of x = words_of y →
            strip (lower y) ≠ strip (lower b) →
            (calculate_text_similarity x b == calculate_text_similarity y b)%Q) as Hcase.
  { intros x y Hx Hy Hxb Hxy Hyb.
    rewrite (similarity_unfold x b), (similarity_unfold y b) by done.
    unfold string_eqb. rewrite bool_decide_eq_true_2, bool_decide_eq_false_2 by done.
    assert (words_of b = words_of y) as ->.
    { rewrite <- Hxy. unfold words_of. by rewrite Hxb. }
    rewrite orb_diag. case_bool_decide as Hempty.
    - exfalso. apply Hyb. apply words_of_empty in Hempty as Hyempty.
      rewrite <- Hxy in Hempty. apply words_of_empty in Hempty. congruence.
    - assert (words_of y ∩ words_of y = words_of y) as -> by set_solver.
      assert (words_of y ∪ words_of y = words_of y) as -> by set_solver.
      symmetry. apply ratio_same. intros Hsize. apply size_empty_inv in Hsize.
      by apply leibniz_equiv in Hsize. }
  destruct (decide (strip (lower a) = strip (lower b))) as [Hab|Hab],
           (decide (strip (lower a') = strip (lower b))) as [Hab'|Hab'].
  - rewrite (similarity_unfold a b), (similarity_unfold a' b) by done.
    unfold string_eqb.
    by rewrite (bool_decide_eq_true_2 _ Hab), (bool_decide_eq_true_2 _ Hab').
  - by apply Hcase.
  - symmetry. by apply Hcase.
  - rewrite (similarity_unfold a b), (similarity_unfold a' b) by done.
    unfold string_eqb. rewrite (bool_decide_eq_false_2 _ Hab), (bool_decide_eq_false_2 _ Hab').
    rewrite Hwords. reflexivity.
Qed.

(** X12. The two ends of the scale.  Two texts get the score 1 exactly when
    neither is empty and they are equal, or have the same words, once case
    and the surrounding white space are put aside; they get the score 0
    exactly when one is empty or when they differ and share no word. *)
Theorem similarity_extremes (a b : string) :
  ((calculate_text_similarity a b == 1)%Q ↔
   a ≠ "" ∧ b ≠ ""
   ∧ (strip (lower a) = strip (lower b) ∨ words_of a = words_of b))
  ∧ ((calculate_text_similarity a b == 0)%Q ↔
     a = "" ∨ b = ""
     ∨ (strip (lower a) ≠ strip (lower b) ∧ words_of a ∩ words_of b = ∅)).
Proof.
  destruct (decide (a = "")) as [->|Ha].
  { rewrite (proj1 (similarity_empty b)). split; [|by split; [left|]].
    split; [by intros ?%Qeq_bool_iff | by intros [? _]]. }
  destruct (decide (b = "")) as [->|Hb].
  { rewrite (proj2 (similarity_empty a)). split; [|by split; [right; left|]].
    split; [by intros ?%Qeq_bool_iff | by intros (_ & ? & _)]. }
  rewrite (similarity_unfold a b) by done. unfold string_eqb.
  case_bool_decide as Heq.
  { split.
    - split; [by intros _; repeat split; [..|left] | done].
    - split; [by intros ?%Qeq_bool_iff | by intros [?|[?|[? _]]]]. }
  destruct (decide (words_of a = ∅)) as [Hwa|Hwa].
  { rewrite (bool_decide_eq_true_2 _ Hwa). simpl. split.
    - split; [by intros ?%Qeq_bool_iff|]. intros (_ & _ & [?|Hw]); [done|].
      exfalso. apply Heq. assert (words_of b = ∅) as Hwb by congruence.
      apply words_of_empty in Hwa, Hwb. congruence.
    - split; [|done]. intros _. right. right. split; [done|]. rewrite Hwa. set_solver. }
  destruct (decide (words_of b = ∅)) as [Hwb|Hwb].
  { rewrite (bool_decide_eq_false_2 _ Hwa), (bool_decide_eq_true_2 _ Hwb). simpl. split.
    - split; [by intros ?%Qeq_bool_iff|]. intros (_ & _ & [?|Hw]); [done|]. congruence.
    - split; [|done]. intros _. right. right. split; [done|]. rewrite Hwb. set_solver. }
  rewrite (bool_decide_eq_false_2 _ Hwa), (bool_decide_eq_false_2 _ Hwb). simpl.
  pose proof (union_size_pos (words_of a) (words_of b) Hwa) as Hpos.
  split.
  - rewrite ratio_one by done. split.
    + intros Hsize. repeat split; [done..|]. right.
      assert (words_of a ∩ words_of b ≡ words_of a ∪ words_of b) as Hsets.
      { apply set_subseteq_size_equiv; [set_solver | lia]. }
      apply leibniz_equiv. set_solver.
    + intros (_ & _ & [?|Hw]); [done|]. rewrite Hw. f_equal. apply leibniz_equiv. set_solver.
  - rewrite ratio_zero. split.
    + intros Hsize%size_empty_inv. right. right. split; [done|]. by apply leibniz_equiv.
    + intros [?|[?|[_ ->]]]; [done..|]. apply size_empty.
Qed.

(** ** The comparison of two drafts *)

Lemma similarity_same_words (a b : string) :
  a ≠ "" → b ≠ "" → words_of a = words_of b →
  (calculate_text_similarity a b == 1)%Q.
Proof.
  intros Ha Hb Hwords. rewrite (similarity_unfold a b) by done. unfold string_eqb.
  case_bool_decide as Heq; [done|].
  rewrite Hwords, orb_diag. case_bool_decide as Hempty.
  - exfalso. apply Heq. assert (words_of a = ∅) as Ha' by congruence.
    apply words_of_empty in Ha', Hempty. congruence.
  - assert (words_of b ∩ words_of b = words_of b) as -> by set_solver.
    assert (words_of b ∪ words_of b = words_of b) as -> by set_solver.
    apply ratio_same. intros Hsize. apply size_empty_inv in Hsize.
    by apply leibniz_equiv in Hsize.
Qed.

Lemma compare_drafts_unrevised (draft1 draft2 : string) :
  draft1 ≠ "" → draft2 ≠ "" →
  Qgeb (calculate_text_similarity draft1 draft2) 0.98 = true →
  ∃ details,
    compare_drafts draft1 draft2 =
    Ok {| c_flags := [NoRevision]; c_details := details; revision_score := 0 |}.
Proof.
  intros Hne1%nonempty_true Hne2%nonempty_true Hsim. unfold compare_drafts.
  rewrite Hne1, Hne2. simpl orb. cbv iota.
  destruct (returns_word_change_percent
              (Z.of_nat (length (split_ws draft2)) - Z.of_nat (length (split_ws draft1)))
              (split_ws draft1)) as [percent Hpercent].
  rewrite Hpercent. simpl mbind. cbv zeta. rewrite Hsim. by eexists.
Qed.

Lemma compare_drafts_revised (draft1 draft2 : string) (r : comparison) :
  draft1 ≠ "" → draft2 ≠ "" →
  Qgeb (calculate_text_similarity draft1 draft2) 0.98 = false →
  compare_drafts draft1 draft2 = Ok r →
  ∃ flags2 flags3,
    c_flags r =
      flag_if (Qgeb (calculate_text_similarity draft1 draft2) 0.95) MinimalRevision
      ++ flags2 ++ flags3
      ++ flag_if (Qltb (QofN (length (split_ws draft2)))
                       (QofN (length (split_ws draft1)) * 0.7)) SignificantlyShorter
      ++ flag_if (revision_score r <? 20)%Z InsufficientRevision
    ∧ Forall (λ f, f = FewSentenceChanges) flags2
    ∧ Forall (λ f, f = PossibleRegeneration) flags3.
Proof.
  intros Hne1%nonempty_true Hne2%nonempty_true Hsim. unfold compare_drafts.
  rewrite Hne1, Hne2. simpl orb. cbv iota.
  destruct (returns_word_change_percent
              (Z.of_nat (length (split_ws draft2)) - Z.of_nat (length (split_ws draft1)))
              (split_ws draft1)) as [percent Hpercent].
  rewrite Hpercent. simpl mbind. cbv zeta. rewrite Hsim.
  intros (change_ratio & _ & Hr)%bind_Ok.
  set (paras1 := paragraphs_of draft1) in *. set (paras2 := paragraphs_of draft2) in *.
  set (similarity := calculate_text_similarity draft1 draft2) in *.
  destruct (Qgeb change_ratio 0.3); [|destruct (Qgeb change_ratio 0.15);
    [|destruct (Qgeb change_ratio 0.05)]];
  cbv beta iota in Hr; apply bind_Ok in Hr as (flags3 & Hflags3 & [= <-]);
  cbn [c_flags revision_score];
  first [exists [], flags3; split; [reflexivity|]
        |exists [FewSentenceChanges], flags3; split; [reflexivity|]];
  (split; [by repeat constructor|]);
  (destruct (Qltb similarity 0.5 && (length paras1 =? length paras2));
   [apply bind_Ok in Hflags3 as (s & _ & [= <-]); by apply Forall_flag_if
   |injection Hflags3 as <-; constructor]).
Qed.

(** X13. What the flags of a comparison of two drafts that are not empty say.
    "No revision occurred" is there exactly when the similarity is at least
    0.98, and is then the only flag, with a score of 0; "Insufficient
    revision" is there exactly when the similarity is below 0.98 and the
    score below 20; "Minimal revision" exactly when the similarity is at
    least 0.95 and below 0.98.  So a score below 20 always comes with one of
    the first two flags. *)
Theorem comparison_flags (draft1 draft2 : string) (r : comparison) :
  draft1 ≠ "" → draft2 ≠ "" →
  compare_drafts draft1 draft2 = Ok r →
  let similarity := calculate_text_similarity draft1 draft2 in
  (NoRevision ∈ c_flags r ↔ (0.98 <= similarity)%Q)
  ∧ (NoRevision ∈ c_flags r → c_flags r = [NoRevision] ∧ revision_score r = 0%Z)
  ∧ (InsufficientRevision ∈ c_flags r ↔
     (similarity < 0.98)%Q ∧ (revision_score r < 20)%Z)
  ∧ (MinimalRevision ∈ c_flags r ↔ (0.95 <= similarity < 0.98)%Q)
  ∧ ((revision_score r < 20)%Z →
     NoRevision ∈ c_flags r ∨ InsufficientRevision ∈ c_flags r).
Proof.
  intros Hne1 Hne2 Hr similarity.
  destruct (Qgeb similarity 0.98) eqn:Hsim.
  - destruct (compare_drafts_unrevised draft1 draft2 Hne1 Hne2 Hsim) as [details Heq].
    rewrite Hr in Heq. injection Heq as ->. cbn [c_flags revision_score].
    apply Qgeb_true in Hsim.
    rewrite !list_elem_of_singleton.
    split; [done|]. split; [done|].
    split; [split; [done|]; intros [Hlt%Qlt_not_le _]; by apply Hlt in Hsim|].
    split; [split; [done|]; intros [_ Hlt%Qlt_not_le]; by apply Hlt in Hsim|].
    by left.
  - destruct (compare_drafts_revised draft1 draft2 r Hne1 Hne2 Hsim Hr)
      as (flags2 & flags3 & -> & H2 & H3).
    rewrite Forall_forall in H2. rewrite Forall_forall in H3.
    assert (¬ (0.98 <= similarity)%Q) as Hlow
      by (intros Hge%Qgeb_true; congruence).
    apply Qnot_le_lt in Hlow as Hlt.
    rewrite !elem_of_app, !elem_of_flag_if, Qgeb_true, Z.ltb_lt.
    split; [|split; [|split; [|split]]].
    + split; [|done]. intros [[_ [=]]|[?%H2|[?%H3|[[_ [=]]|[_ [=]]]]]]; done.
    + intros [[_ [=]]|[?%H2|[?%H3|[[_ [=]]|[_ [=]]]]]]; done.
    + split; [|tauto].
      intros [[_ [=]]|[?%H2|[?%H3|[[_ [=]]|[? _]]]]]; done.
    + split; [|tauto].
      intros [[? _]|[?%H2|[?%H3|[[_ [=]]|[_ [=]]]]]]; done.
    + tauto.
Qed.

(** X14. Word order and case are not revision: when the second draft has the
    words of the first, in whatever order and case, the comparison reports
    that no revision occurred, with a score of 0. *)
Theorem reordered_draft_is_no_revision (draft1 draft2 : string) :
  draft1 ≠ "" → draft2 ≠ "" →
  words_of draft1 = words_of draft2 →
  ∃ details,
    compare_drafts draft1 draft2 =
    Ok {| c_flags := [NoRevision]; c_details := details; revision_score := 0 |}.
Proof.
  intros Hne1 Hne2 Hwords. apply compare_drafts_unrevised; [done..|].
  apply Qgeb_true. by rewrite (similarity_same_words draft1 draft2).
Qed.

(** ** Matches between different students *)

Lemma fold_result_app {A S} (f : A → S → result S) (l1 l2 : list A) (s : S) :
  fold_result f (l1 ++ l2) s = fold_result f l1 s ≫= fold_result f l2.
Proof.
  revert s. induction l1 as [|x l1 IH]; intros s; [done|].
  cbn [app fold_result]. destruct (f x s) as [s'|e]; [apply IH | done].
Qed.

Lemma fold_result_fmap {A B S} (g : A → B) (f : B → S → result S) (l : list A) (s : S) :
  fold_result f (g <$> l) s = fold_result (λ x, f (g x)) l s.
Proof.
  revert s. induction l as [|x l IH]; intros s; [done|].
  rewrite fmap_cons. cbn [fold_result]. destruct (f (g x) s) as [s'|e]; [apply IH | done].
Qed.

Lemma cross_student_of_pairs (all_data : gmap Z assignment_data)
    (student_names : gmap Z string) (l : list (Z * Z * string)) st :
  cross_student_of all_data student_names l st =
  fold_result (λ p, cross_step all_data student_names p.1 p.2) (all_pairs l) st.
Proof.
  revert st. induction l as [|x rest IH]; intros st; [done|].
  cbn [cross_student_of all_pairs]. rewrite fold_result_app, fold_result_fmap.
  cbn [fst snd].
  destruct (fold_result (cross_step all_data student_names x) rest st) as [st'|e];
    [apply IH | done].
Qed.

Lemma fold_result_invariant {A S} (f : A → S → result S) (I : list A → S → Prop)
    (l : list A) (s s' : S) :
  I [] s →
  (∀ done x todo s s', l = done ++ x :: todo → I done s → f x s = Ok s' →
                       I (done ++ [x]) s') →
  fold_result f l s = Ok s' → I l s'.
Proof.
  intros Hinit Hstep.
  assert (∀ todo done s, l = done ++ todo → I done s →
            fold_result f todo s = Ok s' → I l s') as Hgen.
  { induction todo as [|x todo IH]; intros done s0 Hl Hdone.
    - intros [= <-]. by rewrite Hl, app_nil_r.
    - cbn [fold_result]. intros (s1 & Hs1 & Hrest)%bind_Ok.
      apply (IH (done ++ [x]) s1); [by rewrite <- app_assoc | by eapply Hstep | done]. }
  by apply (Hgen l [] s).
Qed.

Lemma all_pairs_elem {A} (l : list A) (x y : A) : (x, y) ∈ all_pairs l → x ∈ l ∧ y ∈ l.
Proof.
  induction l as [|z rest IH]; intros Hin; [by apply elem_of_nil in Hin|].
  cbn [all_pairs] in Hin. apply elem_of_app in Hin as [Hin|Hin].
  - apply list_elem_of_fmap in Hin as (y' & [= -> ->] & Hy).
    split; [left | by right].
  - destruct (IH Hin). split; by right.
Qed.

Lemma sorted_pair_eq (p q p' q' : Z * Z) :
  sorted_pair p q = sorted_pair p' q' → (p = p' ∧ q = q') ∨ (p = q' ∧ q = p').
Proof.
  unfold sorted_pair. destruct (pair_leb p q), (pair_leb p' q'); intros [= -> ->]; auto.
Qed.

Lemma NoDup_fmap_inj_on {A B} (k : A → B) (l : list A) (x y : A) :
  NoDup (k <$> l) → x ∈ l → y ∈ l → k x = k y → x = y.
Proof.
  induction l as [|z rest IH]; intros Hl Hx Hy Heq; [by apply elem_of_nil in Hx|].
  rewrite fmap_cons in Hl. apply NoDup_cons in Hl as [Hz Hrest].
  apply elem_of_cons in Hx as [->|Hx]; apply elem_of_cons in Hy as [->|Hy].
  - done.
  - exfalso. apply Hz. rewrite Heq. apply list_elem_of_fmap. by exists y.
  - exfalso. apply Hz. rewrite <- Heq. apply list_elem_of_fmap. by exists x.
  - by apply IH.
Qed.

Lemma NoDup_pair_keys (l : list (Z * Z * string)) :
  NoDup (submission_key <$> l) → NoDup (pair_key_of <$> all_pairs l).
Proof.
  induction l as [|x rest IH]; intros Hl; [constructor|].
  rewrite fmap_cons in Hl. apply NoDup_cons in Hl as [Hx Hrest].
  cbn [all_pairs]. rewrite fmap_app. apply NoDup_app. split; [|split].
  - rewrite <- list_fmap_compose. apply NoDup_fmap_2_strong; [|by eapply NoDup_fmap_1].
    intros y y' Hy Hy' Heq. unfold compose, pair_key_of in Heq. cbn [fst snd] in Heq.
    apply (NoDup_fmap_inj_on submission_key rest); [done..|].
    apply sorted_pair_eq in Heq as [[_ ?]|[? ?]]; congruence.
  - intros key (p & -> & Hp)%list_elem_of_fmap ([a b] & Heq & Hab)%list_elem_of_fmap.
    apply list_elem_of_fmap in Hp as (y & -> & Hy).
    apply all_pairs_elem in Hab as [Ha Hb].
    unfold pair_key_of in Heq. cbn [fst snd] in Heq. apply Hx.
    apply sorted_pair_eq in Heq as [[-> _]|[-> _]]; apply list_elem_of_fmap; eauto.
  - by apply IH.
Qed.

Lemma elem_of_all_submissions (student_submissions : gmap Z (gmap Z string))
    (u a : Z) (t : string) :
  (u, a, t) ∈ all_submissions_of student_submissions ↔
  text_of student_submissions u a = Some t.
Proof.
  unfold all_submissions_of. rewrite text_of_Some, list_elem_of_bind. split.
  - intros ([u' asg] & Hin & Hu%elem_of_map_to_list).
    apply list_elem_of_bind in Hin as ([a' t'] & Hin & Ha%elem_of_map_to_list).
    apply list_elem_of_singleton in Hin as [= -> -> ->]. eauto.
  - intros (asg & Hu & Ha). exists (u, asg). rewrite elem_of_map_to_list.
    split; [|done]. apply list_elem_of_bind. exists (a, t).
    rewrite elem_of_map_to_list. split; [|done]. by apply list_elem_of_singleton.
Qed.

Lemma NoDup_all_submissions (student_submissions : gmap Z (gmap Z string)) :
  NoDup (submission_key <$> all_submissions_of student_submissions).
Proof.
  apply NoDup_fmap_2_strong.
  - intros [[u a] t] [[u' a'] t'] Hx%elem_of_all_submissions Hy%elem_of_all_submissions.
    unfold submission_key. cbn [fst]. intros [= <- <-]. congruence.
  - unfold all_submissions_of. apply NoDup_bind; [..|apply NoDup_map_to_list].
    + intros [u asg] [u' asg'] [[v a] t] Hu%elem_of_map_to_list Hu'%elem_of_map_to_list.
      intros ([a1 t1] & [= -> -> ->]%list_elem_of_singleton & _)%list_elem_of_bind.
      intros ([a2 t2] & [= -> -> ->]%list_elem_of_singleton & _)%list_elem_of_bind.
      congruence.
    + intros [u asg] _. apply NoDup_bind; [..|apply NoDup_map_to_list].
      * intros [a t] [a' t'] y _ _ Hy%list_elem_of_singleton Hy'%list_elem_of_singleton.
        congruence.
      * intros [a t] _. apply NoDup_singleton.
Qed.

Lemma cross_step_invariant (all_data : gmap Z assignment_data)
    (student_names : gmap Z string) done p st st' :
  pair_key_of p ∉ pair_key_of <$> done →
  cross_invariant all_data student_names done st →
  cross_step all_data student_names p.1 p.2 st = Ok st' →
  cross_invariant all_data student_names (done ++ [p]) st'.
Proof.
  intros Hfresh (Hkeys & Hsound & Hcomplete).
  assert (∀ st0, cross_invariant all_data student_names done st0 →
                 st0.1 = st.1 → st0.2 = st.2 → ¬ reportable p →
                 cross_invariant all_data student_names (done ++ [p]) st0) as Hskip.
  { intros st0 (Hk & Hs & Hc) _ _ Hno. split; [|split].
    - intros key Hkey%Hk. rewrite fmap_app. apply elem_of_app. by left.
    - intros m (q & Hq & Hm)%Hs. exists q. split; [|done]. apply elem_of_app. by left.
    - intros q [Hq|Hq%list_elem_of_singleton]%elem_of_app; [by apply Hc | by subst q]. }
  destruct p as [[[user1 aid1] text1] [[user2 aid2] text2]]. cbn [fst snd cross_step].
  destruct (bool_decide (user1 = user2) || bool_decide (aid1 = aid2)) eqn:Hsame.
  { intros [= <-]. apply Hskip; [done..|]. intros (Hu & Ha & _). cbn [fst snd] in Hu, Ha.
    apply orb_true_iff in Hsame as [?%bool_decide_eq_true|?%bool_decide_eq_true]; done. }
  apply orb_false_iff in Hsame as [Hu%bool_decide_eq_false Ha%bool_decide_eq_false].
  case_bool_decide as Hseen.
  { exfalso. apply Hfresh. by apply Hkeys. }
  destruct (Qgeb (calculate_text_similarity text1 text2) 0.75) eqn:Hsim.
  - intros (n1 & Hn1 & (n2 & Hn2 & [= <-])%bind_Ok)%bind_Ok.
    unfold assignment_name in Hn1, Hn2.
    destruct (all_data !! aid1) as [d1|] eqn:Hd1; [|done].
    destruct (all_data !! aid2) as [d2|] eqn:Hd2; [|done].
    injection Hn1 as <-. injection Hn2 as <-. apply Qgeb_true in Hsim.
    set (p := ((user1, aid1, text1), (user2, aid2, text2))).
    assert (reportable p) as Hp by done.
    assert (match_of all_data student_names p
              {| cm_student1 := student_name student_names user1;
                 cm_student1_id := user1;
                 cm_assignment1 := ad_name d1;
                 cm_assignment1_id := aid1;
                 cm_student2 := student_name student_names user2;
                 cm_student2_id := user2;
                 cm_assignment2 := ad_name d2;
                 cm_assignment2_id := aid2;
                 cm_similarity := calculate_text_similarity text1 text2 |}) as Hm.
    { exists d1, d2. done. }
    split; [|split]; cbn [fst snd].
    + intros key [Hkey%elem_of_singleton|Hkey%Hkeys]%elem_of_union;
        rewrite fmap_app; apply elem_of_app; [right | by left].
      subst key. by apply list_elem_of_singleton.
    + intros m [(q & Hq & Hqm)%Hsound|Hnew%list_elem_of_singleton]%elem_of_app.
      * exists q. split; [|done]. apply elem_of_app. by left.
      * subst m. exists p. split; [|done]. apply elem_of_app. right.
        by apply list_elem_of_singleton.
    + intros q [Hq|Hq%list_elem_of_singleton]%elem_of_app Hrep.
      * destruct (Hcomplete q Hq Hrep) as (m & Hin & Hqm).
        exists m. split; [|done]. apply elem_of_app. by left.
      * subst q. eexists. split; [|exact Hm]. apply elem_of_app. right.
        by apply list_elem_of_singleton.
  - intros [= <-]. split; [|split]; cbn [fst snd].
    + intros key [Hkey%elem_of_singleton|Hkey%Hkeys]%elem_of_union;
        rewrite fmap_app; apply elem_of_app; [right | by left].
      subst key. by apply list_elem_of_singleton.
    + intros m (q & Hq & Hqm)%Hsound. exists q. split; [|done]. apply elem_of_app. by left.
    + intros q [Hq|Hq%list_elem_of_singleton]%elem_of_app; [by apply Hcomplete|].
      subst q. intros (_ & _ & Hge%Qgeb_true). cbn [fst snd] in Hge. congruence.
Qed.

Lemma cross_student_of_invariant (all_data : gmap Z assignment_data)
    (student_names : gmap Z string) (l : list (Z * Z * string)) st :
  NoDup (submission_key <$> l) →
  cross_student_of all_data student_names l (∅, []) = Ok st →
  cross_invariant all_data student_names (all_pairs l) st.
Proof.
  intros Hl%NoDup_pair_keys. rewrite cross_student_of_pairs.
  apply (fold_result_invariant _ (cross_invariant all_data student_names)).
  - split; [|split]; cbn [fst snd].
    + by intros key ?%elem_of_empty.
    + by intros m ?%elem_of_nil.
    + by intros p ?%elem_of_nil.
  - intros done p todo s s' Heq Hdone Hstep.
    apply (cross_step_invariant _ _ done p s s'); [|done..].
    rewrite Heq, fmap_app, fmap_cons in Hl.
    apply NoDup_app in Hl as (_ & Hl & _). intros Hin. apply (Hl _ Hin). left.
Qed.

Lemma check_cross_assignment_similarity_Ok (all_data : gmap Z assignment_data)
    (student_names : gmap Z string) sp cs :
  check_cross_assignment_similarity all_data student_names = Ok (sp, cs) →
  cross_invariant all_data student_names
    (all_pairs (all_submissions_of (build_student_submissions all_data)))
    (∅, cs).
Proof.
  unfold check_cross_assignment_similarity. cbv zeta.
  intros (sp' & _ & (st & Hst & [= _ <-])%bind_Ok)%bind_Ok.
  apply cross_student_of_invariant in Hst; [|apply NoDup_all_submissions].
  destruct Hst as (_ & Hsound & Hcomplete). split; [|done].
  by intros key ?%elem_of_empty.
Qed.

Lemma all_submissions_known (all_data : gmap Z assignment_data) (x : Z * Z * string) :
  x ∈ all_submissions_of (build_student_submissions all_data) ↔
  ∃ d, all_data !! x.1.2 = Some d ∧ ad_submission_texts d !! x.1.1 = Some x.2
       ∧ 50 < count_words x.2.
Proof.
  destruct x as [[u a] t]. rewrite elem_of_all_submissions, build_student_submissions_spec.
  cbn [fst snd]. by setoid_rewrite substantial_words.
Qed.

(** X15. A match between different students is about real submissions: every
    entry of the list that [check_cross_assignment_similarity] returns names
    two different students and two different assignments, each student has
    submitted a text of more than 50 words to the assignment named with them,
    the entry holds the similarity of these two texts, which is at least
    0.75, and it holds the names of the two assignments and of the two
    students (or "User" and the number for a student without a name). *)
Theorem cross_student_match_sound (all_data : gmap Z assignment_data)
    (student_names : gmap Z string) (self_plagiarism : gmap Z (list similar_pair))
    (cross_student_plagiarism : list cross_match) (m : cross_match) :
  check_cross_assignment_similarity all_data student_names
    = Ok (self_plagiarism, cross_student_plagiarism) →
  m ∈ cross_student_plagiarism →
  cm_student1_id m ≠ cm_student2_id m
  ∧ cm_assignment1_id m ≠ cm_assignment2_id m
  ∧ ∃ data1 data2 text1 text2,
      all_data !! cm_assignment1_id m = Some data1
      ∧ all_data !! cm_assignment2_id m = Some data2
      ∧ ad_submission_texts data1 !! cm_student1_id m = Some text1
      ∧ ad_submission_texts data2 !! cm_student2_id m = Some text2
      ∧ 50 < count_words text1 ∧ 50 < count_words text2
      ∧ cm_similarity m = calculate_text_similarity text1 text2
      ∧ (0.75 <= cm_similarity m)%Q
      ∧ cm_assignment1 m = ad_name data1 ∧ cm_assignment2 m = ad_name data2
      ∧ cm_student1 m = student_name student_names (cm_student1_id m)
      ∧ cm_student2 m = student_name student_names (cm_student2_id m).
Proof.
  intros (_ & Hsound & _)%check_cross_assignment_similarity_Ok Hm.
  cbn [snd] in Hsound.
  destruct (Hsound m Hm) as ([x y] & Hp & (Hu & Ha & Hsim) & (d1 & d2 & Hd1 & Hd2 & ->)).
  apply all_pairs_elem in Hp as [Hx Hy].
  apply all_submissions_known in Hx as (d1' & Hd1' & Ht1 & Hw1).
  apply all_submissions_known in Hy as (d2' & Hd2' & Ht2 & Hw2).
  cbn [fst snd] in *. rewrite Hd1 in Hd1'. rewrite Hd2 in Hd2'.
  injection Hd1' as <-. injection Hd2' as <-.
  cbn [cm_student1_id cm_student2_id cm_assignment1_id cm_assignment2_id cm_similarity
       cm_assignment1 cm_assignment2 cm_student1 cm_student2].
  split; [done|]. split; [done|].
  exists d1, d2, x.2, y.2. done.
Qed.

(** X16. No match between different students is missed: when two different
    students have submitted, to two different assignments, texts of more than
    50 words each whose similarity is at least 0.75, the list that
    [check_cross_assignment_similarity] returns has an entry for the two
    submissions, in one order or the other, with that similarity. *)
Theorem cross_student_match_complete (all_data : gmap Z assignment_data)
    (student_names : gmap Z string) (self_plagiarism : gmap Z (list similar_pair))
    (cross_student_plagiarism : list cross_match)
    (user1 user2 aid1 aid2 : Z) (data1 data2 : assignment_data) (text1 text2 : string) :
  check_cross_assignment_similarity all_data student_names
    = Ok (self_plagiarism, cross_student_plagiarism) →
  user1 ≠ user2 → aid1 ≠ aid2 →
  all_data !! aid1 = Some data1 → all_data !! aid2 = Some data2 →
  ad_submission_texts data1 !! user1 = Some text1 →
  ad_submission_texts data2 !! user2 = Some text2 →
  50 < count_words text1 → 50 < count_words text2 →
  (0.75 <= calculate_text_similarity text1 text2)%Q →
  ∃ m, m ∈ cross_student_plagiarism
       ∧ cm_similarity m = calculate_text_similarity text1 text2
       ∧ ((cm_student1_id m = user1 ∧ cm_assignment1_id m = aid1
           ∧ cm_student2_id m = user2 ∧ cm_assignment2_id m = aid2)
          ∨ (cm_student1_id m = user2 ∧ cm_assignment1_id m = aid2
             ∧ cm_student2_id m = user1 ∧ cm_assignment2_id m = aid1)).
Proof.
  intros (_ & _ & Hcomplete)%check_cross_assignment_similarity_Ok
    Hu Ha Hd1 Hd2 Ht1 Ht2 Hw1 Hw2 Hsim.
  cbn [snd] in Hcomplete.
  set (L := all_submissions_of (build_student_submissions all_data)) in *.
  assert ((user1, aid1, text1) ∈ L) as Hx by (apply all_submissions_known; eauto).
  assert ((user2, aid2, text2) ∈ L) as Hy by (apply all_submissions_known; eauto).
  destruct (all_pairs_either L _ _ Hx Hy) as [Hp|Hp]; [congruence| |].
  - destruct (Hcomplete _ Hp) as (m & Hm & (d1 & d2 & _ & _ & ->)); [done|].
    eexists. split; [exact Hm|]. cbn. split; [done|]. by left.
  - destruct (Hcomplete _ Hp) as (m & Hm & (d1 & d2 & _ & _ & ->)).
    { split; [done|]. split; [done|]. cbn [fst snd]. by rewrite similarity_symmetric. }
    eexists. split; [exact Hm|]. cbn. split; [apply similarity_symmetric|]. by right.
Qed.

(** ** The two scores of the polish checks *)

Lemma stripped_piece_has_word (pieces : list string) (p : string) :
  p ∈ stripped_pieces pieces → 0 < length (split_ws p).
Proof.
  unfold stripped_pieces. intros [Hin Hne]%list_elem_of_In%filter_In.
  apply list_elem_of_In, list_elem_of_fmap in Hin as (q & -> & _).
  destruct (split_ws (strip q)) as [|w ws] eqn:Hsplit; [|simpl; lia].
  unfold split_ws in Hsplit. apply split_ws_from_nil in Hsplit as [_ Hblank].
  rewrite blank_strip in Hblank. apply strip_blank in Hblank.
  by rewrite Hblank in Hne.
Qed.

Lemma sum_list_constant (lengths : list nat) (n : nat) :
  Forall (λ l, l = n) lengths → sum_list lengths = length lengths * n.
Proof. induction 1 as [|l ls -> _ IH]; simpl; [done|]. by rewrite IH. Qed.

Lemma mean_constant (lengths : list nat) (n : nat) (avg : Q) :
  Forall (λ l, l = n) lengths → mean lengths = Ok avg → (avg == QofN n)%Q.
Proof.
  intros Hn [-> Hlen]%truediv_Ok. rewrite (sum_list_constant lengths n Hn), QofN_mult.
  by field.
Qed.

Lemma variance_constant (lengths : list nat) (n : nat) (avg v : Q) :
  Forall (λ l, l = n) lengths → (avg == QofN n)%Q →
  variance_about avg lengths = Ok v → (v == 0)%Q.
Proof.
  intros Hn Havg [-> Hlen]%truediv_Ok.
  assert (Qsum ((λ l, (QofN l - avg) ^ 2)%Q <$> lengths) == 0)%Q as ->.
  { clear Hlen. induction Hn as [|l ls -> _ IH]; [done|].
    rewrite fmap_cons. cbn [Qsum foldr]. fold (Qsum ((λ l, (QofN l - avg) ^ 2)%Q <$> ls)).
    rewrite IH, Havg.
    change ((QofN n - QofN n) ^ 2)%Q with ((QofN n - QofN n) * (QofN n - QofN n))%Q.
    ring. }
  by field.
Qed.

(** X17. The uniformity score of the paragraphs is a number between 0 and 1,
    for every text.  It is 0 for a text of fewer than three paragraphs, and 1
    when the paragraphs, three or more, all have the same number of words. *)
Theorem paragraph_uniformity_score (text : string) :
  ∃ u, check_paragraph_uniformity text = Ok u
       ∧ (0 <= u <= 1)%R
       ∧ (length (paragraphs_of text) < 3 → u = 0%R)
       ∧ (3 ≤ length (paragraphs_of text) →
          (∃ n, Forall (λ p, length (split_ws p) = n) (paragraphs_of text)) →
          u = 1%R).
Proof.
  unfold check_paragraph_uniformity.
  destruct (nonempty text) eqn:Htext; simpl negb; cbv iota.
  2:{ exists 0%R. split; [done|]. split; [lra|]. split; [done|].
      destruct text; [|done]. vm_compute. lia. }
  destruct (length (paragraphs_of text) <? 3) eqn:Hlen.
  { exists 0%R. split; [done|]. split; [lra|]. split; [done|].
    apply Nat.ltb_lt in Hlen. lia. }
  apply Nat.ltb_ge in Hlen. cbv zeta.
  set (lengths := (λ p, length (split_ws p)) <$> paragraphs_of text).
  assert (lengths ≠ []) as Hne.
  { intros Heq%(f_equal length). unfold lengths in Heq.
    rewrite length_fmap in Heq. simpl in Heq. lia. }
  destruct (returns_mean lengths Hne) as [avg Havg]. rewrite Havg. simpl.
  destruct (returns_variance avg lengths Hne) as [v Hv]. rewrite Hv. simpl.
  destruct (Qeq_bool avg 0) eqn:Hz.
  { exists 0%R. split; [done|]. split; [lra|]. split; [lia|].
    intros _ [n Hn]. exfalso.
    assert (Forall (λ l, l = n) lengths) as Hn'.
    { unfold lengths. by apply Forall_fmap. }
    apply Qeq_bool_iff in Hz. rewrite (mean_constant lengths n avg Hn' Havg) in Hz.
    assert (0 < n) as Hpos.
    { destruct (paragraphs_of text) as [|p ps] eqn:Hps; [simpl in Hlen; lia|].
      apply Forall_cons in Hn as [<- _].
      apply (stripped_piece_has_word (split_sep (newline +:+ newline) text)).
      fold (paragraphs_of text). rewrite Hps. left. }
    apply (QofN_lt 0 n) in Hpos. rewrite Hz in Hpos. by apply Qlt_irrefl in Hpos. }
  eexists. split; [done|].
  assert (0 < avg)%Q as Hpos.
  { apply mean_nonneg, Qle_lteq in Havg as [?|Heq]; [done|].
    symmetry in Heq. apply Qeq_bool_iff in Heq. congruence. }
  assert (0 < Q2R avg)%R as HA
    by (apply Qlt_Rlt in Hpos; by rewrite RMicromega.Q2R_0 in Hpos).
  assert (0 <= sqrt (Q2R v) / Q2R avg)%R as Hcv.
  { apply Rmult_le_pos; [apply sqrt_pos|]. left. by apply Rinv_0_lt_compat. }
  split; [destruct (Rlt_dec _ 1); lra|]. split; [lia|].
  intros _ [n Hn].
  assert (Forall (λ l, l = n) lengths) as Hn'.
  { unfold lengths. by apply Forall_fmap. }
  pose proof (mean_constant lengths n avg Hn' Havg) as Hmean.
  apply (variance_constant lengths n avg v Hn' Hmean) in Hv.
  apply Qeq_eqR in Hv. rewrite RMicromega.Q2R_0 in Hv. rewrite Hv, sqrt_0.
  unfold Rdiv. rewrite Rmult_0_l. destruct (Rlt_dec 0 1); lra.
Qed.

Lemma count_when_bound {A} (p : A → result bool) (l : list A) (n : nat) :
  count_when p l = Ok n → n ≤ length l.
Proof.
  revert n. induction l as [|x rest IH]; intros n; simpl.
  - by intros [= <-].
  - intros (b & _ & (k & Hk%IH & [= <-])%bind_Ok)%bind_Ok. destruct b; lia.
Qed.

Lemma count_when_none {A} (p : A → result bool) (l : list A) :
  Forall (λ x, p x = Ok false) l → count_when p l = Ok 0.
Proof. induction 1 as [|x rest Hx _ IH]; simpl; [done|]. by rewrite Hx, IH. Qed.

(** X18. The share of complete sentences is a number between 0 and 1, for
    every text, and it is 0 for a text none of whose sentences has 8
    words. *)
Theorem sentence_completeness_score (text : string) :
  ∃ q, check_sentence_completeness text = Ok q
       ∧ (0 <= q <= 1)%Q
       ∧ (Forall (λ s, length (split_ws s) < 8) (sentences_of text) → (q == 0)%Q).
Proof.
  unfold check_sentence_completeness.
  destruct (negb (nonempty text)); [by exists 0%Q|].
  case_bool_decide as Hs; [by exists 0%Q|].
  destruct (returns_count_complete (re_split_sentences text)) as [n Hn].
  fold (sentences_of text) in Hn. rewrite Hn. simpl.
  assert (length (sentences_of text) ≠ 0) as Hlen by by destruct (sentences_of text).
  rewrite truediv_nat by done. eexists. split; [done|].
  pose proof (count_when_bound _ _ _ Hn) as Hbound.
  assert (0 < QofN (length (sentences_of text)))%Q as Hpos by (apply (QofN_lt 0); lia).
  split; [split|].
  - apply Qdiv_nat_nonneg, QofN_nonneg.
  - apply Qle_shift_div_r; [done|]. rewrite Qmult_1_l. by apply QofN_le.
  - intros Hshort.
    rewrite count_when_none in Hn.
    + injection Hn as <-. unfold Qdiv. by rewrite Qmult_0_l.
    + eapply Forall_impl; [exact Hshort|]. intros s Hlt. unfold is_complete.
      by apply Nat.leb_gt in Hlt as ->.
Qed.

(** ** White-text keywords *)

Lemma find_keywords_spec (text_lower : string) (keywords : list string) :
  let p := λ keyword, contains (strip (lower keyword)) text_lower in
  find_keywords text_lower keywords
  = (List.filter p keywords, List.filter (λ k, negb (p k)) keywords).
Proof.
  induction keywords as [|k rest IH]; [done|].
  cbn [find_keywords List.filter]. cbv zeta in IH. rewrite IH.
  by destruct (contains (strip (lower k)) text_lower).
Qed.

Lemma filter_partition {A} (p : A → bool) (l : list A) :
  List.filter p l ++ List.filter (λ x, negb (p x)) l ≡ₚ l.
Proof.
  induction l as [|x l IH]; [done|]. cbn [List.filter].
  destruct (p x); simpl.
  - by rewrite IH.
  - by rewrite <- Permutation_middle, IH.
Qed.

Lemma check_white_text_keywords_Ok (text : string) (keywords : list string) :
  text ≠ "" → keywords ≠ [] →
  let present := λ keyword, contains (strip (lower keyword)) (lower text) in
  let found := List.filter present keywords in
  let score := (QofN (length found) / QofN (length keywords))%Q in
  check_white_text_keywords text keywords =
  Ok {| wt_flags :=
          if bool_decide (found ≠ [])
          then KeywordsDetected found
               :: (if Qgeb score 0.8 then [HighConfidence]
                   else if Qgeb score 0.5 then [MediumConfidence]
                   else [])
          else [];
        wt_found := found;
        wt_missing := List.filter (λ k, negb (present k)) keywords;
        wt_score := score |}.
Proof.
  intros Htext%nonempty_true Hkeys present found score.
  unfold check_white_text_keywords.
  rewrite Htext, (bool_decide_eq_false_2 _ Hkeys). simpl orb. cbv iota.
  rewrite find_keywords_spec. cbv zeta. rewrite (bool_decide_eq_true_2 _ Hkeys).
  rewrite truediv_nat by by destruct keywords. done.
Qed.

(** X19. The check of white-text keywords returns for every text and every
    list of keywords, with a score between 0 and 1, and it has flags exactly
    when it has found a keyword.  For a text that is not empty, [found] and
    [missing] share out the keywords, each keyword going to [found] exactly
    when it occurs in the text, case and the white space around the keyword
    put aside; the score is the share of the keywords found, the flag of high
    confidence is there exactly when a keyword is found and the share is at
    least four fifths, and the flag of medium confidence exactly when it is at
    least one half and below four fifths. *)
Theorem white_text_result (text : string) (keywords : list string) :
  ∃ r, check_white_text_keywords text keywords = Ok r
       ∧ (0 <= wt_score r <= 1)%Q
       ∧ (wt_flags r ≠ [] ↔ wt_found r ≠ [])
       ∧ (text ≠ "" →
          wt_found r ++ wt_missing r ≡ₚ keywords
          ∧ (∀ k, k ∈ wt_found r ↔
                  k ∈ keywords ∧ contains (strip (lower k)) (lower text) = true)
          ∧ (keywords ≠ [] →
             (wt_score r == QofN (length (wt_found r)) / QofN (length keywords))%Q)
          ∧ (HighConfidence ∈ wt_flags r ↔
             wt_found r ≠ [] ∧ 4 * length keywords ≤ 5 * length (wt_found r))
          ∧ (MediumConfidence ∈ wt_flags r ↔
             wt_found r ≠ [] ∧ length keywords ≤ 2 * length (wt_found r)
             ∧ 5 * length (wt_found r) < 4 * length keywords)).
Proof.
  destruct (decide (text = "")) as [->|Htext].
  { eexists. split; [done|]. split; [done|]. split; [done|]. done. }
  destruct (decide (keywords = [])) as [->|Hkeys].
  { eexists. split; [unfold check_white_text_keywords; by rewrite orb_true_r|].
    cbn [wt_score wt_flags wt_found wt_missing]. split; [done|]. split; [done|].
    intros _. split; [done|]. split; [|split; [done|]].
    - intros k. split; [by intros ?%elem_of_nil | by intros [?%elem_of_nil _]].
    - split; split; first [by intros ?%elem_of_nil | by intros [? _]]. }
  rewrite (check_white_text_keywords_Ok text keywords Htext Hkeys).
  set (present := λ keyword, contains (strip (lower keyword)) (lower text)).
  set (found := List.filter present keywords).
  eexists. split; [done|]. cbn [wt_score wt_flags wt_found wt_missing].
  assert (length keywords ≠ 0) as Hlen by by destruct keywords.
  assert (length found ≤ length keywords) as Hbound by apply List.filter_length_le.
  assert (0 < QofN (length keywords))%Q as Hpos by (apply (QofN_lt 0); lia).
  assert (∀ n d : nat, d ≠ 0 →
            Qgeb (QofN (length found) / QofN (length keywords)) (Z.of_nat n # Pos.of_nat d)
            = true ↔ n * length keywords ≤ d * length found) as Hge.
  { intros n d Hd. rewrite Qgeb_true.
    assert ((Z.of_nat n # Pos.of_nat d) == QofN n / QofN d)%Q as ->.
    { unfold QofN. rewrite (Qmake_Qdiv (Z.of_nat n) (Pos.of_nat d)).
      by rewrite <- (Nat2Pos.id d) at 2 by done; rewrite positive_nat_Z. }
    assert (0 < QofN d)%Q as Hdpos by (apply (QofN_lt 0); lia).
    rewrite <- (Qmult_le_r _ _ (QofN d * QofN (length keywords)))
      by by apply Qmult_lt_0_compat.
    assert (QofN n / QofN d * (QofN d * QofN (length keywords))
            == QofN (n * length keywords))%Q as ->.
    { rewrite QofN_mult. field. by intros Hz%Qeq_bool_iff; rewrite QofN_zero,
        bool_decide_eq_false_2 in Hz. }
    assert (QofN (length found) / QofN (length keywords)
            * (QofN d * QofN (length keywords))
            == QofN (d * length found))%Q as ->.
    { rewrite QofN_mult. field. by intros Hz%Qeq_bool_iff; rewrite QofN_zero,
        bool_decide_eq_false_2 in Hz. }
    unfold QofN. rewrite <- Zle_Qle. lia. }
  split; [split|].
  { apply Qdiv_nat_nonneg, QofN_nonneg. }
  { apply Qle_shift_div_r; [done|]. rewrite Qmult_1_l. by apply QofN_le. }
  split.
  { case_bool_decide; split; done. }
  intros _. split; [apply filter_partition|]. split.
  { intros k. unfold found. rewrite list_elem_of_In, filter_In, <- list_elem_of_In. done. }
  split; [done|].
  pose proof (Hge 8 10 ltac:(done)) as H80. pose proof (Hge 5 10 ltac:(done)) as H50.
  change (Z.of_nat 8 # Pos.of_nat 10) with 0.8%Q in H80.
  change (Z.of_nat 5 # Pos.of_nat 10) with 0.5%Q in H50.
  case_bool_decide as Hfound.
  - destruct (Qgeb _ 0.8) eqn:Hhigh.
    + apply proj1 in H80. specialize (H80 eq_refl). split; split.
      * intros _. split; [done | lia].
      * intros _. right. left.
      * intros [[=]|[[=]|?%elem_of_nil]%elem_of_cons]%elem_of_cons; done.
      * intros (_ & _ & ?). lia.
    + assert (¬ 8 * length keywords ≤ 10 * length found) as Hlow
        by (by intros ?%H80).
      destruct (Qgeb _ 0.5) eqn:Hmedium.
      * apply proj1 in H50. specialize (H50 eq_refl). split; split.
        -- intros [[=]|[[=]|?%elem_of_nil]%elem_of_cons]%elem_of_cons; done.
        -- intros [_ ?]. lia.
        -- intros _. split; [done | lia].
        -- intros _. right. left.
      * assert (¬ 5 * length keywords ≤ 10 * length found) as Hlower
          by (by intros ?%H50).
        split; split.
        -- intros [[=]|?%elem_of_nil]%elem_of_cons; done.
        -- intros [_ ?]. lia.
        -- intros [[=]|?%elem_of_nil]%elem_of_cons; done.
        -- intros (_ & ? & _). lia.
  - split; split; first [by intros ?%elem_of_nil | by intros [? _]].
Qed.

(** X20. A keyword that is blank is found in every text: when the list of
    keywords has a keyword that is empty or made of white space only, every
    text that is not empty gets that keyword in [found], and so gets the flag
    that white-text keywords were detected. *)
Theorem blank_keyword_always_found (text : string) (keywords : list string)
    (keyword : string) (r : white_text) :
  check_white_text_keywords text keywords = Ok r →
  text ≠ "" → keyword ∈ keywords → blank keyword = true →
  keyword ∈ wt_found r ∧ KeywordsDetected (wt_found r) ∈ wt_flags r.
Proof.
  intros Hr Htext Hin Hblank.
  assert (keywords ≠ []) as Hkeys by (intros ->; by apply elem_of_nil in Hin).
  rewrite (check_white_text_keywords_Ok text keywords Htext Hkeys) in Hr.
  injection Hr as <-. cbn [wt_found wt_flags].
  assert (keyword ∈ List.filter (λ k, contains (strip (lower k)) (lower text)) keywords)
    as Hfound.
  { apply list_elem_of_In, filter_In. split; [by apply list_elem_of_In|].
    assert (strip (lower keyword) = "") as ->
      by (apply strip_blank; by rewrite blank_lower).
    by destruct (lower text). }
  split; [done|].
  rewrite bool_decide_eq_true_2; [left|].
  intros Hnil. rewrite Hnil in Hfound. by apply elem_of_nil in Hfound.
Qed.

(** ** Words, and the texts made of them *)

Lemma app_cons (c : ascii) (a b : string) : String c a +:+ b = String c (a +:+ b).
Proof. done. Qed.

Lemma app_empty_l (s : string) : "" +:+ s = s.
Proof. done. Qed.

Lemma rev_app_rev_app (s a b : string) :
  String.rev_app (String.rev_app s a) b = String.rev_app a (s +:+ b).
Proof.
  revert a b. induction s as [|c s IH]; intros a b; [done|].
  cbn [String.rev_app]. by rewrite IH, app_cons.
Qed.

Lemma app_empty_r (s : string) : s +:+ "" = s.
Proof. induction s as [|c s IH]; [done|]. by rewrite app_cons, IH. Qed.

Lemma rev_rev (s : string) : String.rev (String.rev s) = s.
Proof. unfold String.rev. rewrite rev_app_rev_app. apply app_empty_r. Qed.

Lemma nonempty_rev_app (s a : string) :
  nonempty (String.rev_app s a) = nonempty s || nonempty a.
Proof.
  revert a. induction s as [|c s IH]; intros a; simpl; [done|].
  rewrite IH. simpl. apply orb_true_r.
Qed.

Lemma nonempty_rev (s : string) : nonempty (String.rev s) = nonempty s.
Proof. unfold String.rev. rewrite nonempty_rev_app. apply orb_false_r. Qed.

Lemma string_forall_rev_app (p : ascii → bool) (s a : string) :
  string_forall p (String.rev_app s a) = string_forall p s && string_forall p a.
Proof.
  revert a. induction s as [|c s IH]; intros a; simpl; [done|].
  rewrite IH. simpl. by destruct (p c), (string_forall p s), (string_forall p a).
Qed.

Lemma string_forall_rev (p : ascii → bool) (s : string) :
  string_forall p (String.rev s) = string_forall p s.
Proof. unfold String.rev. rewrite string_forall_rev_app. simpl. apply andb_true_r. Qed.

(** The words that [split] gives have no white space. *)
Lemma split_ws_from_words (acc s : string) :
  string_forall (λ c, negb (isspace c)) acc = true →
  Forall is_word (split_ws_from acc s).
Proof.
  revert acc. induction s as [|c s IH]; intros acc Hacc; simpl.
  - destruct (nonempty acc) eqn:Hne; [|constructor].
    repeat constructor; [by rewrite nonempty_rev | by rewrite string_forall_rev].
  - destruct (isspace c) eqn:Hc.
    + destruct (nonempty acc) eqn:Hne; [|by apply IH].
      constructor; [|by apply IH].
      split; [by rewrite nonempty_rev | by rewrite string_forall_rev].
    + apply IH. simpl. by rewrite Hc.
Qed.

Lemma split_ws_words (s : string) : Forall is_word (split_ws s).
Proof. by apply split_ws_from_words. Qed.

Lemma split_ws_from_word (w acc s : string) :
  string_forall (λ c, negb (isspace c)) w = true →
  split_ws_from acc (w +:+ s) = split_ws_from (String.rev_app w acc) s.
Proof.
  revert acc. induction w as [|c w IH]; intros acc Hw; [done|].
  simpl in Hw. apply andb_true_iff in Hw as [Hc%negb_true_iff Hw].
  rewrite app_cons. cbn [split_ws_from String.rev_app]. rewrite Hc. by apply IH.
Qed.

(** Splitting the words joined by single spaces gives the words back. *)
Lemma split_ws_join (ws : list string) :
  Forall is_word ws → split_ws (join " " ws) = ws.
Proof.
  induction 1 as [|w rest [Hne Hw] Hrest IH]; [done|].
  unfold split_ws. destruct rest as [|y rest]; cbn [join].
  - rewrite <- (app_empty_r w) at 1. rewrite split_ws_from_word by done.
    simpl. fold (String.rev w). by rewrite nonempty_rev, Hne, rev_rev.
  - rewrite split_ws_from_word by done. fold (String.rev w).
    rewrite app_cons, app_empty_l. cbn [split_ws_from].
    change (isspace " ") with true. cbv iota.
    rewrite nonempty_rev, Hne, rev_rev. f_equal. apply IH.
Qed.

Lemma lower_app (a b : string) : lower (a +:+ b) = lower a +:+ lower b.
Proof. induction a as [|c a IH]; [done|]. rewrite !app_cons. simpl. by rewrite IH. Qed.

Lemma lower_rev_app (s a : string) :
  lower (String.rev_app s a) = String.rev_app (lower s) (lower a).
Proof. revert a. induction s as [|c s IH]; intros a; simpl; [done|]. by rewrite IH. Qed.

Lemma lower_rev (s : string) : lower (String.rev s) = String.rev (lower s).
Proof. apply lower_rev_app. Qed.

Lemma split_ws_from_lower (acc s : string) :
  split_ws_from (lower acc) (lower s) = lower <$> split_ws_from acc s.
Proof.
  revert acc. induction s as [|c s IH]; intros acc; cbn [lower split_ws_from].
  - rewrite nonempty_lower. destruct (nonempty acc); [|done]. by rewrite <- lower_rev.
  - rewrite isspace_lower_char. destruct (isspace c).
    + rewrite nonempty_lower. destruct (nonempty acc); [|apply (IH "")].
      rewrite fmap_cons, <- lower_rev. f_equal. apply (IH "").
    + apply (IH (String c acc)).
Qed.

Lemma split_ws_lower (s : string) : split_ws (lower s) = lower <$> split_ws s.
Proof. apply (split_ws_from_lower ""). Qed.

Lemma lower_join (ws : list string) : lower (join " " ws) = join " " (lower <$> ws).
Proof.
  induction ws as [|w rest IH]; [done|].
  destruct rest as [|y rest]; [done|].
  cbn [join fmap list_fmap] in *. by rewrite !lower_app, IH.
Qed.

Lemma is_word_lower (w : string) : is_word w → is_word (lower w).
Proof.
  intros [Hne Hw]. split; [by rewrite nonempty_lower|].
  clear Hne. induction w as [|c w IH]; [done|]. simpl in *.
  apply andb_true_iff in Hw as [Hc Hw]. by rewrite isspace_lower_char, Hc, IH.
Qed.

Lemma filter_chars_rev_app (keep : ascii → bool) (s a : string) :
  filter_chars keep (String.rev_app s a)
  = String.rev_app (filter_chars keep s) (filter_chars keep a).
Proof.
  revert a. induction s as [|c s IH]; intros a; simpl; [done|].
  rewrite IH. simpl. by destruct (keep c).
Qed.

Lemma filter_chars_rev (keep : ascii → bool) (s : string) :
  filter_chars keep (String.rev s) = String.rev (filter_chars keep s).
Proof. apply filter_chars_rev_app. Qed.

(** Removing characters that are not white space removes them from the
    words, and drops the words that had no other characters. *)
Lemma split_ws_from_filter_chars (keep : ascii → bool) (acc s : string) :
  (∀ c, isspace c = true → keep c = true) →
  split_ws_from (filter_chars keep acc) (filter_chars keep s)
  = List.filter nonempty (filter_chars keep <$> split_ws_from acc s).
Proof.
  intros Hkeep. revert acc. induction s as [|c s IH]; intros acc.
  - cbn [filter_chars split_ws_from]. destruct acc as [|a acc]; [done|].
    cbn [nonempty fmap list_fmap List.filter]. rewrite filter_chars_rev, nonempty_rev.
    by destruct (nonempty (filter_chars keep (String a acc))).
  - cbn [filter_chars split_ws_from]. destruct (isspace c) eqn:Hc.
    + rewrite (Hkeep c Hc). cbn [split_ws_from]. rewrite Hc.
      destruct acc as [|a acc]; [apply (IH "")|].
      cbn [nonempty]. rewrite fmap_cons. cbn [List.filter].
      rewrite filter_chars_rev, nonempty_rev.
      destruct (nonempty (filter_chars keep (String a acc))); [f_equal|]; apply (IH "").
    + destruct (keep c) eqn:Hk.
      * cbn [split_ws_from]. rewrite Hc. rewrite <- IH. cbn [filter_chars]. by rewrite Hk.
      * rewrite <- IH. cbn [filter_chars]. by rewrite Hk.
Qed.

Lemma split_ws_filter_chars (keep : ascii → bool) (s : string) :
  (∀ c, isspace c = true → keep c = true) →
  split_ws (filter_chars keep s)
  = List.filter nonempty (filter_chars keep <$> split_ws s).
Proof. intros Hkeep. by apply (split_ws_from_filter_chars keep ""). Qed.

Lemma filter_Permutation {A} (p : A → bool) (l1 l2 : list A) :
  l1 ≡ₚ l2 → List.filter p l1 ≡ₚ List.filter p l2.
Proof.
  induction 1 as [|x l1 l2 _ IH|x y l|l1 l2 l3 _ IH1 _ IH2]; cbn [List.filter].
  - done.
  - destruct (p x); by rewrite IH.
  - destruct (p x), (p y); by try constructor.
  - by etrans.
Qed.

(** *** The order of the texts *)

Lemma code_inj (x y : ascii) : code x = code y → x = y.
Proof.
  unfold code. intros H. by rewrite <- (ascii_N_embedding x), <- (ascii_N_embedding y), H.
Qed.

Global Instance string_le_total : Total string_le.
Proof.
  unfold Total, string_le. intros a. induction a as [|x a IH]; intros b; [by left|].
  destruct b as [|y b]; [by right|]. simpl.
  destruct (N.lt_trichotomy (code x) (code y)) as [Hlt|[Heq|Hgt]].
  - left. apply N.ltb_lt in Hlt. by rewrite Hlt.
  - rewrite Heq, N.ltb_irrefl, N.eqb_refl. simpl. apply IH.
  - right. apply N.ltb_lt in Hgt. by rewrite Hgt.
Qed.

Global Instance string_le_trans : Transitive string_le.
Proof.
  unfold Transitive, string_le. intros a. induction a as [|x a IH]; intros b c; [done|].
  destruct b as [|y b]; [done|]. destruct c as [|z c]; [done|]. simpl.
  rewrite !orb_true_iff, !andb_true_iff, !N.ltb_lt, !N.eqb_eq.
  intros [Hxy|[Hxy Hab]] [Hyz|[Hyz Hbc]].
  - left. lia.
  - left. lia.
  - left. lia.
  - right. split; [lia|]. by apply (IH b).
Qed.

Global Instance string_le_antisymm : AntiSymm (=) string_le.
Proof.
  unfold AntiSymm, string_le. intros a. induction a as [|x a IH]; intros b.
  - by destruct b.
  - destruct b as [|y b]; [done|]. simpl.
    rewrite !orb_true_iff, !andb_true_iff, !N.ltb_lt, !N.eqb_eq.
    intros [Hxy|[Hxy Hab]] [Hyx|[Hyx Hba]]; try lia.
    f_equal; [by apply code_inj | by apply IH].
Qed.

Lemma merge_sort_Permutation_eq (l1 l2 : list string) :
  l1 ≡ₚ l2 → merge_sort string_le l1 = merge_sort string_le l2.
Proof.
  intros Hperm. apply (Sorted_unique string_le); [apply Sorted_merge_sort; apply _..|].
  by rewrite !merge_sort_Permutation.
Qed.

Lemma merge_sort_sorted (l : list string) :
  Sorted string_le l → merge_sort string_le l = l.
Proof.
  intros Hl. apply (Sorted_unique string_le); [apply Sorted_merge_sort; apply _|done|].
  apply merge_sort_Permutation.
Qed.

(** ** Phrases and their normal form *)

Lemma kept_space (c : ascii) : isspace c = true → kept c = true.
Proof. intros Hc. unfold kept. by rewrite Hc, orb_true_r. Qed.

Lemma kept_lower_char (c : ascii) : kept (lower_char c) = kept c.
Proof. by destruct c as [[] [] [] [] [] [] [] []]. Qed.

Lemma filter_chars_lower (s : string) :
  filter_chars kept (lower s) = lower (filter_chars kept s).
Proof.
  induction s as [|c s IH]; [done|]. cbn [lower filter_chars].
  rewrite kept_lower_char. destruct (kept c); cbn [lower]; by rewrite IH.
Qed.

Lemma filter_chars_idempotent (keep : ascii → bool) (s : string) :
  filter_chars keep (filter_chars keep s) = filter_chars keep s.
Proof.
  induction s as [|c s IH]; [done|]. cbn [filter_chars].
  destruct (keep c) eqn:Hc; [|done]. cbn [filter_chars]. by rewrite Hc, IH.
Qed.

(** The words that [normalize_phrase] sorts. *)
Lemma normalize_phrase_words (phrase : string) :
  split_ws (filter_chars kept (lower phrase))
  = List.filter nonempty ((λ w, filter_chars kept (lower w)) <$> split_ws phrase).
Proof.
  rewrite split_ws_filter_chars by apply kept_space.
  by rewrite split_ws_lower, <- list_fmap_compose.
Qed.

(** X21. The normal form of a phrase does not depend on the order of its
    words nor on the white space between them: two phrases with the same
    words, each as often as in the other, have the same normal form. *)
Theorem normalize_phrase_word_order (phrase1 phrase2 : string) :
  split_ws phrase1 ≡ₚ split_ws phrase2 →
  normalize_phrase phrase1 = normalize_phrase phrase2.
Proof.
  intros Hwords. unfold normalize_phrase. fold kept. f_equal.
  apply merge_sort_Permutation_eq. rewrite !normalize_phrase_words.
  by apply filter_Permutation, fmap_Permutation.
Qed.

(** X22. Normalising is idempotent: the normal form of a phrase is its own
    normal form. *)
Theorem normalize_phrase_idempotent (phrase : string) :
  normalize_phrase (normalize_phrase phrase) = normalize_phrase phrase.
Proof.
  unfold normalize_phrase. fold kept.
  set (clean := λ w, filter_chars kept (lower w)).
  set (words := merge_sort string_le (split_ws (filter_chars kept (lower phrase)))).
  assert (words ≡ₚ split_ws (filter_chars kept (lower phrase))) as Hperm
    by apply merge_sort_Permutation.
  assert (Forall is_word words) as Hwords.
  { rewrite Hperm. apply split_ws_words. }
  assert (Forall (λ w, clean w = w ∧ nonempty w = true) words) as Hclean.
  { rewrite Hperm, normalize_phrase_words. apply Forall_forall.
    intros w [Hin Hne]%list_elem_of_In%filter_In. split; [|done].
    apply list_elem_of_In, list_elem_of_fmap in Hin as (x & -> & _).
    unfold clean. rewrite <- filter_chars_lower, lower_idempotent.
    apply filter_chars_idempotent. }
  f_equal. rewrite normalize_phrase_words, split_ws_join by done.
  fold clean.
  assert (List.filter nonempty (clean <$> words) = words) as ->.
  { clear Hperm Hwords. induction Hclean as [|w ws [Hw Hne] _ IH]; [done|].
    rewrite fmap_cons. cbn [List.filter]. by rewrite Hw, Hne, IH. }
  apply merge_sort_sorted. apply Sorted_merge_sort; apply _.
Qed.

Lemma phrases_of_sentence_elem (min_words max_words : nat) (sentence phrase : string) :
  phrase ∈ phrases_of_sentence min_words max_words sentence →
  let words := split_ws (strip sentence) in
  ∃ len i,
    min_words ≤ len ≤ max_words ∧ i + len ≤ length words
    ∧ phrase = lower (join " " (take len (drop i words)))
    ∧ (Z.of_nat min_words - 1
       ≤ Z.of_nat (length (List.filter (λ w, (3 <? String.length w)%nat) (split_ws phrase))))%Z.
Proof.
  unfold phrases_of_sentence. cbv zeta.
  destruct (length (split_ws (strip sentence)) <? min_words); [by intros ?%elem_of_nil|].
  intros (len & Hin & Hlen)%list_elem_of_bind.
  apply list_elem_of_bind in Hin as (i & Hin & Hi).
  unfold range in Hlen. apply elem_of_seq in Hlen. apply elem_of_seq in Hi.
  destruct (_ <=? _)%Z eqn:Hcontent; [|by apply elem_of_nil in Hin].
  apply list_elem_of_singleton in Hin as ->. apply Z.leb_le in Hcontent.
  exists len, i. split; [lia|]. split; [lia|]. done.
Qed.

(** X23. The shape of a key phrase.  Every phrase that [extract_key_phrases]
    returns is in lower case, consists of at least [min_words] and at most
    [max_words] words separated by single spaces, with no space before or
    after, and has at least [min_words - 1] words of more than three
    characters. *)
Theorem key_phrase_shape (text : string) (min_words max_words : nat) (phrase : string) :
  phrase ∈ extract_key_phrases text min_words max_words →
  lower phrase = phrase
  ∧ join " " (split_ws phrase) = phrase
  ∧ min_words ≤ length (split_ws phrase) ≤ max_words
  ∧ (Z.of_nat min_words - 1
     ≤ Z.of_nat (length (List.filter (λ w, (3 <? String.length w)%nat) (split_ws phrase))))%Z.
Proof.
  unfold extract_key_phrases. destruct (negb (nonempty text)); [by intros ?%elem_of_nil|].
  cbv zeta. intros (sentence & Hin & _)%list_elem_of_bind.
  apply phrases_of_sentence_elem in Hin as (len & i & Hlen & Hi & Hphrase & Hcontent).
  set (words := split_ws (strip sentence)) in *.
  set (window := take len (drop i words)) in *.
  assert (Forall is_word window) as Hwindow.
  { apply Forall_take, Forall_drop, split_ws_words. }
  assert (length window = len) as Hwindow_length.
  { unfold window. rewrite length_take, length_drop. lia. }
  assert (split_ws phrase = lower <$> window) as Hsplit.
  { by rewrite Hphrase, split_ws_lower, split_ws_join. }
  split; [by rewrite Hphrase, lower_idempotent|].
  split; [by rewrite Hsplit, <- lower_join|].
  split; [|done]. rewrite Hsplit, length_fmap. lia.
Qed.

(** ** The counts of phrases *)

Lemma startswith_empty_text (sub : string) : sub ≠ "" → startswith sub "" = false.
Proof. by destruct sub. Qed.

Lemma count_from_positive (sub s : string) :
  sub ≠ "" → 0 < count_from sub 0 s ↔ contains sub s = true.
Proof.
  intros Hsub. induction s as [|c s IH].
  - cbn [count_from contains]. rewrite startswith_empty_text by done. simpl.
    split; [lia | done].
  - cbn [count_from contains]. destruct (startswith sub (String c s)); simpl.
    + split; [done | lia].
    + apply IH.
Qed.

Lemma sum_list_positive (l : list nat) : 0 < sum_list l ↔ ∃ n, n ∈ l ∧ 0 < n.
Proof.
  induction l as [|x l IH]; simpl.
  - split; [lia | by intros (n & ?%elem_of_nil & _)].
  - split.
    + intros Hpos. destruct (decide (0 < x)) as [Hx|Hx].
      * exists x. split; [left | done].
      * destruct (proj1 IH ltac:(lia)) as (n & Hn & Hpos'). exists n. split; [by right | done].
    + intros (n & [->|Hn]%elem_of_cons & Hpos); [lia|].
      enough (0 < sum_list l) by lia. apply IH. eauto.
Qed.

Lemma count_phrases_positive (phrases : list string) (text : string) :
  Forall (λ p, p ≠ "") phrases →
  0 < count_phrases phrases text ↔
  ∃ phrase, phrase ∈ phrases ∧ contains phrase (lower text) = true.
Proof.
  intros Hphrases. unfold count_phrases. destruct text as [|c text].
  - cbn [nonempty lower]. split; [lia|]. intros (p & Hp & Hin).
    rewrite Forall_forall in Hphrases.
    cbn [contains] in Hin. rewrite startswith_empty_text in Hin by by apply Hphrases.
    done.
  - cbn [nonempty]. rewrite sum_list_positive. split.
    + intros (n & (p & -> & Hp)%list_elem_of_fmap & Hpos). exists p. split; [done|].
      apply count_from_positive; [|done]. rewrite Forall_forall in Hphrases. by apply Hphrases.
    + intros (p & Hp & Hin). exists (str_count (lower (String c text)) p).
      split; [apply list_elem_of_fmap; by exists p|].
      apply count_from_positive; [|done]. rewrite Forall_forall in Hphrases. by apply Hphrases.
Qed.

(** X24. The five counts of phrases (worn transitions, hedges, generic
    phrases, balance markers, emotional markers) see a phrase wherever it
    occurs in the text, case put aside: each count is positive exactly when
    the text in lower case contains a phrase of its table, and it is the same
    for a text and for that text in lower case. *)
Theorem phrase_counts (text : string) :
  Forall (λ '(check, table),
            (0 < check text ↔
             ∃ phrase : string, phrase ∈ table ∧ contains phrase (lower text) = true)
            ∧ check (lower text) = check text)
    [(check_ai_transitions, AI_TRANSITIONS); (check_hedge_phrases, HEDGE_PHRASES);
     (check_generic_content, GENERIC_PHRASES); (check_balance_markers, BALANCE_MARKERS);
     (check_emotional_markers, EMOTIONAL_MARKERS)].
Proof.
  assert (∀ phrases, count_phrases phrases (lower text) = count_phrases phrases text)
    as Hlower.
  { intros phrases. unfold count_phrases. by rewrite nonempty_lower, lower_idempotent. }
  repeat constructor;
    first [apply Hlower
          | apply count_phrases_positive; by apply Forall_forall; intros p Hp ->;
              vm_compute in Hp; repeat (apply elem_of_cons in Hp as [[=]|Hp]);
              apply elem_of_nil in Hp].
Qed.

(** ** Prose handed in as notes *)

(** X25. The check for prose in notes returns for every text, and its two
    flags are tied to the number of indicators, of which there are four: the
    flag that the submission appears to be prose carries a number between 2
    and 4, and the flag of strong evidence never comes without it, the number
    then being at least 3.  An empty text has no flag. *)
Theorem prose_flags_indicators (text : string) :
  ∃ flags,
    check_paragraph_as_prose_in_notes text = Ok flags
    ∧ (∀ n, ProseNotNotes n ∈ flags → 2 ≤ n ≤ 4)
    ∧ (StrongProseEvidence ∈ flags → ∃ n, ProseNotNotes n ∈ flags ∧ 3 ≤ n)
    ∧ (text = "" → flags = []).
Proof.
  destruct (returns_check_paragraph_as_prose_in_notes text) as [flags Hflags].
  exists flags. split; [done|].
  unfold check_paragraph_as_prose_in_notes in Hflags.
  destruct (nonempty text) eqn:Htext; simpl negb in Hflags; cbv iota in Hflags.
  2:{ injection Hflags as <-. split; [by intros n ?%elem_of_nil|].
      split; [by intros ?%elem_of_nil | done]. }
  cbv zeta in Hflags.
  apply bind_Ok in Hflags as (indicator2 & Hi2 & Hflags).
  apply bind_Ok in Hflags as (complete & _ & Hflags).
  apply bind_Ok in Hflags as (ratio & _ & Hflags).
  injection Hflags as <-.
  assert (indicator2 ≤ 1) as Hbound2.
  { destruct (5 <? _); [|injection Hi2 as <-; lia].
    apply bind_Ok in Hi2 as (r & _ & [= <-]). destruct (Qltb r 0.2); lia. }
  match goal with
  | |- context [ProseNotNotes ?k] => set (prose_indicators := k)
  end.
  assert (prose_indicators ≤ 4) as Hbound.
  { unfold prose_indicators.
    repeat match goal with |- context [if ?b then 1 else 0] => destruct b end; lia. }
  clearbody prose_indicators.
  split; [|split; [|by intros ->]].
  - intros n Hin.
    destruct prose_indicators as [|[|[|[|[|k]]]]]; [..|lia];
      simpl in Hin;
      repeat (apply elem_of_cons in Hin as [Heq|Hin];
              [first [injection Heq as -> | discriminate Heq]; lia|]);
      by apply elem_of_nil in Hin.
  - intros Hin.
    destruct prose_indicators as [|[|[|[|[|k]]]]]; [..|lia];
      simpl in Hin |- *;
      repeat (apply elem_of_cons in Hin as [Heq|Hin];
              [first [discriminate Heq | eexists; split; [left | lia]]|]);
      by apply elem_of_nil in Hin.
Qed.

(** ** The analysis of an assignment *)

Lemma dict_get_set {V} (k k' : Z) (v : V) (d : list (Z * V)) :
  dict_get k (dict_set k' v d) = if bool_decide (k' = k) then Some v else dict_get k d.
Proof.
  induction d as [|[k0 v0] d IH]; cbn [dict_set dict_get].
  - done.
  - destruct (decide (k0 = k')) as [->|Hne].
    + rewrite bool_decide_eq_true_2 by done. cbn [dict_get].
      by destruct (bool_decide (k' = k)).
    + rewrite (bool_decide_eq_false_2 (k0 = k')) by done. cbn [dict_get].
      rewrite IH. destruct (decide (k0 = k)) as [->|Hne'].
      * rewrite bool_decide_eq_true_2 by done. by rewrite bool_decide_eq_false_2 by done.
      * by rewrite (bool_decide_eq_false_2 (k0 = k)) by done.
Qed.

Lemma truthy_id_Some (v : option Z) (z : Z) : truthy_id v = Some z ↔ v = Some z ∧ z ≠ 0%Z.
Proof.
  unfold truthy_id. destruct v as [x|]; [|by split; [|intros [? _]]].
  case_bool_decide as Hx.
  - split; [done|]. intros [[= ->] ?]. done.
  - split; [intros [= ->]; done | by intros [[= ->] _]].
Qed.

(** The dictionary of [get_submissions] holds, for a student, the last of
    the student's submissions in the answer of the API. *)
Lemma get_submissions_lookup (data : list fetched_submission) (user_id : Z) :
  dict_get user_id (get_submissions data)
  = if bool_decide (user_id = 0%Z) then None else last (submissions_of data user_id).
Proof.
  unfold get_submissions, submissions_of.
  induction data as [|sub data IH] using rev_ind.
  - by destruct (bool_decide _).
  - rewrite foldl_app, List.filter_app, last_app. cbn [foldl List.filter].
    destruct (truthy_id (get (s_user_id (f_submission sub)))) as [u|] eqn:Hu.
    + apply truthy_id_Some in Hu as [Hu Hnz]. rewrite dict_get_set, IH, Hu.
      destruct (decide (u = user_id)) as [->|Hne].
      * rewrite (bool_decide_eq_true_2 (user_id = user_id)) by done.
        rewrite (bool_decide_eq_true_2 (Some user_id = Some user_id)) by done.
        by rewrite (bool_decide_eq_false_2 (user_id = 0%Z)) by done.
      * rewrite (bool_decide_eq_false_2 (u = user_id)) by done.
        rewrite (bool_decide_eq_false_2 (Some u = Some user_id)) by congruence. done.
    + rewrite IH. case_bool_decide as Hz; [done|].
      case_bool_decide as Hsub; [|done]. exfalso.
      assert (truthy_id (get (s_user_id (f_submission sub))) = Some user_id) as Heq
        by by apply truthy_id_Some.
      congruence.
Qed.

Lemma enrolled_snoc (done : list enrollment) (student : enrollment) (user_id : Z) :
  enrolled (done ++ [student]) user_id ↔
  enrolled done user_id ∨ truthy_id (get (e_user_id student)) = Some user_id.
Proof.
  unfold enrolled. split.
  - intros (s & [Hs|Hs%list_elem_of_singleton]%elem_of_app & Hid); [left; eauto|].
    subst s. by right.
  - intros [(s & Hs & Hid)|Hid].
    + exists s. split; [apply elem_of_app; by left | done].
    + exists student. split; [|done]. apply elem_of_app. right. by apply list_elem_of_singleton.
Qed.

(** One turn of the loop over the students, for one of the two dictionaries
    that it fills: the dictionary holds for each student seen so far the
    value that [Q] determines. *)
Lemma record_step {V} (Q : Z → V → Prop) (done : list enrollment) (student : enrollment)
    (m m' : gmap Z V) :
  (∀ u v v', Q u v → Q u v' → v = v') →
  (∀ u v, m !! u = Some v ↔ enrolled done u ∧ Q u v) →
  match truthy_id (get (e_user_id student)) with
  | None => m' = m
  | Some user_id =>
      (∃ v, Q user_id v ∧ m' = <[user_id := v]> m) ∨ ((∀ v, ¬ Q user_id v) ∧ m' = m)
  end →
  ∀ u v, m' !! u = Some v ↔ enrolled (done ++ [student]) u ∧ Q u v.
Proof.
  intros Hdet Hm Hstep u v. rewrite enrolled_snoc.
  destruct (truthy_id (get (e_user_id student))) as [user_id|] eqn:Hid.
  - destruct Hstep as [(v0 & Hv0 & ->)|[Hnone ->]].
    + destruct (decide (user_id = u)) as [->|Hne].
      * rewrite lookup_insert_eq. split.
        -- intros [= <-]. split; [by right | done].
        -- intros [_ Hv]. f_equal. by eapply Hdet.
      * rewrite lookup_insert_ne by done. rewrite Hm. split.
        -- intros [? ?]. split; [by left | done].
        -- intros [[?|[= ?]] ?]; [done | congruence].
    + rewrite Hm. split.
      * intros [? ?]. split; [by left | done].
      * intros [[?|[= <-]] Hv]; [done|]. by apply Hnone in Hv.
  - subst m'. rewrite Hm. split.
    + intros [? ?]. split; [by left | done].
    + intros [[?|[=]] ?]. done.
Qed.

Lemma analyze_assignment_Ok (data : list fetched_submission) (students : list enrollment)
    (student_flags : gmap Z (list flag)) (submission_texts : gmap Z string) :
  analyze_assignment data students = Ok (student_flags, submission_texts) →
  let all_submissions_list := (λ entry, f_submission entry.2) <$> get_submissions data in
  (∀ user_id flags,
     student_flags !! user_id = Some flags ↔
     enrolled students user_id
     ∧ flags ≠ []
     ∧ ∃ sub, handed_in data user_id sub
              ∧ analyze_submission (f_submission sub) all_submissions_list = Ok flags)
  ∧ (∀ user_id text,
       submission_texts !! user_id = Some text ↔
       enrolled students user_id
       ∧ text ≠ ""
       ∧ ∃ sub, handed_in data user_id sub
                ∧ get_or (s_body (f_submission sub)) "" = Some text).
Proof.
  unfold analyze_assignment. cbv zeta.
  set (all := (λ entry, f_submission entry.2) <$> get_submissions data).
  assert (∀ u sub, handed_in data u sub → u ≠ 0%Z →
                   dict_get u (get_submissions data) = Some sub) as Hin.
  { intros u sub [Hlast _] Hu. by rewrite get_submissions_lookup, bool_decide_eq_false_2. }
  assert (∀ u sub, dict_get u (get_submissions data) = Some sub →
                   last (submissions_of data u) = Some sub) as Hout.
  { intros u sub. rewrite get_submissions_lookup. by case_bool_decide. }
  case_bool_decide as Hempty.
  { intros [= <- <-]. split; intros u v; rewrite lookup_empty.
    - split; [done|]. intros ((s & _ & [_ Hu]%truthy_id_Some) & _ & sub & Hsub & _).
      apply Hin in Hsub; [|done]. by rewrite Hempty in Hsub.
    - split; [done|]. intros ((s & _ & [_ Hu]%truthy_id_Some) & _ & sub & Hsub & _).
      apply Hin in Hsub; [|done]. by rewrite Hempty in Hsub. }
  pose (Q1 := λ (u : Z) (flags : list flag),
          flags ≠ [] ∧ ∃ sub, handed_in data u sub
                              ∧ analyze_submission (f_submission sub) all = Ok flags).
  pose (Q2 := λ (u : Z) (text : string),
          text ≠ "" ∧ ∃ sub, handed_in data u sub
                             ∧ get_or (s_body (f_submission sub)) "" = Some text).
  intros Hfold.
  apply (fold_result_invariant _
           (λ done st, (∀ u v, st.1 !! u = Some v ↔ enrolled done u ∧ Q1 u v)
                       ∧ (∀ u v, st.2 !! u = Some v ↔ enrolled done u ∧ Q2 u v)))
    in Hfold; [done| |].
  { cbn [fst snd]. split; intros u v; rewrite lookup_empty;
      (split; [done|]); by intros [(s & ?%elem_of_nil & _) _]. }
  clear Hfold. intros done student todo st st' _ [H1 H2] Hstep.
  assert (∀ u v v', Q1 u v → Q1 u v' → v = v') as Hdet1.
  { intros u v v' (_ & sub & [Hsub _] & Hv) (_ & sub' & [Hsub' _] & Hv'). congruence. }
  assert (∀ u v v', Q2 u v → Q2 u v' → v = v') as Hdet2.
  { intros u v v' (_ & sub & [Hsub _] & Hv) (_ & sub' & [Hsub' _] & Hv'). congruence. }
  unfold analyze_student in Hstep.
  split; [apply (record_step Q1 done student st.1 st'.1 Hdet1 H1)
         |apply (record_step Q2 done student st.2 st'.2 Hdet2 H2)];
    (destruct (truthy_id (get (e_user_id student))) as [user_id|] eqn:Hid;
       [|by injection Hstep as <-]);
    apply truthy_id_Some in Hid as [_ Hnz];
    (destruct (dict_get user_id (get_submissions data)) as [sub|] eqn:Hsub;
       [|injection Hstep as <-; right; split; [|done];
         intros v (_ & sub' & Hsub'%Hin & _); [congruence | done]]);
    (case_bool_decide as Hstate;
       [|injection Hstep as <-; right; split; [|done];
         intros v (_ & sub' & Hsub' & _); pose proof (Hin _ _ Hsub' Hnz) as Heq;
         destruct Hsub' as [_ Hstate']; congruence]);
    apply bind_Ok in Hstep as (flags & Hflags & [= <-]); cbn [fst snd];
    assert (handed_in data user_id sub) as Hhand by (split; [by apply Hout | done]).
  - case_bool_decide as Hne.
    + left. exists flags. split; [|done]. split; [done|]. eauto.
    + right. split; [|done]. intros v (Hv & sub' & [Hsub' _] & Hflags').
      apply Hout in Hsub. assert (sub' = sub) as -> by congruence.
      apply Hv. congruence.
  - destruct (get_or (s_body (f_submission sub)) "") as [[|c body]|] eqn:Hbody; cbn [truthy nonempty].
    + right. split; [|done]. intros v (Hv & sub' & [Hsub' _] & Hbody').
      apply Hout in Hsub. assert (sub' = sub) as -> by congruence. congruence.
    + left. exists (String c body). split; [|done]. split; [done|]. eauto.
    + right. split; [|done]. intros v (Hv & sub' & [Hsub' _] & Hbody').
      apply Hout in Hsub. assert (sub' = sub) as -> by congruence. congruence.
Qed.

(** X26. What [analyze_assignment] records.  A student gets an entry in the
    dictionary of flags exactly when the student is enrolled, the last of the
    student's submissions in the answer of the API is not unsubmitted, and
    the analysis of that submission against all the submissions kept gives
    flags, which are then the entry; a student gets an entry in the
    dictionary of texts exactly when that submission has a body that is not
    empty, which is then the entry. *)
Theorem assignment_results (data : list fetched_submission) (students : list enrollment)
    (student_flags : gmap Z (list flag)) (submission_texts : gmap Z string) :
  analyze_assignment data students = Ok (student_flags, submission_texts) →
  let all_submissions_list := (λ entry, f_submission entry.2) <$> get_submissions data in
  (∀ user_id flags,
     student_flags !! user_id = Some flags ↔
     enrolled students user_id
     ∧ flags ≠ []
     ∧ ∃ sub, handed_in data user_id sub
              ∧ analyze_submission (f_submission sub) all_submissions_list = Ok flags)
  ∧ (∀ user_id text,
       submission_texts !! user_id = Some text ↔
       enrolled students user_id
       ∧ text ≠ ""
       ∧ ∃ sub, handed_in data user_id sub
                ∧ get_or (s_body (f_submission sub)) "" = Some text).
Proof. apply analyze_assignment_Ok. Qed.

(** ** The analysis of a discussion *)

Lemma for_each_snoc {A B} (f : A → result B) (l : list A) (x : A) (ys : list B) (y : B) :
  for_each f l = Ok ys → f x = Ok y → for_each f (l ++ [x]) = Ok (ys ++ [y]).
Proof.
  revert ys. induction l as [|a l IH]; intros ys; simpl.
  - intros [= <-] ->. done.
  - intros (b & -> & (ys' & Hys' & [= <-])%bind_Ok)%bind_Ok Hx. simpl.
    by rewrite (IH ys' Hys' Hx).
Qed.

Lemma messages_of_snoc (user_id : Z) (done : list post) (p : post) :
  messages_of user_id (done ++ [p])
  = messages_of user_id done ++ match message_of user_id p with
                                | Some message => [message]
                                | None => []
                                end.
Proof.
  unfold messages_of. rewrite omap_app. simpl.
  by destruct (message_of user_id p).
Qed.

(** What the loop over the posts has recorded for a user when it has gone
    through the posts [done]. *)
Lemma analyze_post_invariant (ids : gset Z) (all_posts all : list post)
    (student_flags : gmap Z (list flag)) (post_texts : gmap Z string) :
  fold_result (analyze_post ids all) all_posts (∅, ∅) = Ok (student_flags, post_texts) →
  ∀ user_id,
    let messages :=
      if bool_decide (user_id ∈ ids) then messages_of user_id all_posts else [] in
    post_texts !! user_id
    = (if bool_decide (messages = []) then None else Some (text_of_messages messages))
    ∧ ∃ results,
        for_each (λ message, analyze_submission (post_submission user_id message)
                               (post_as_submission <$> all))
                 messages = Ok results
        ∧ student_flags !! user_id
          = (if bool_decide (concat results = []) then None else Some (concat results)).
Proof.
  intros Hfold.
  apply (fold_result_invariant (analyze_post ids all)
           (λ done st, ∀ user_id,
              let messages :=
                if bool_decide (user_id ∈ ids) then messages_of user_id done else [] in
              st.2 !! user_id
              = (if bool_decide (messages = []) then None
                 else Some (text_of_messages messages))
              ∧ ∃ results,
                  for_each (λ message, analyze_submission (post_submission user_id message)
                                         (post_as_submission <$> all))
                           messages = Ok results
                  ∧ st.1 !! user_id
                    = (if bool_decide (concat results = []) then None
                       else Some (concat results)))
           all_posts (∅, ∅) (student_flags, post_texts)); [| |exact Hfold].
  { intros u. cbn [fst snd]. rewrite !lookup_empty.
    assert ((if bool_decide (u ∈ ids) then messages_of u [] else []) = []) as ->
      by by destruct (bool_decide _).
    split; [done|]. by exists []. }
  clear Hfold. intros done p todo st st' _ IH Hstep u.
  assert (message_of u p = None →
          (if bool_decide (u ∈ ids) then messages_of u (done ++ [p]) else [])
          = (if bool_decide (u ∈ ids) then messages_of u done else [])) as Hsame.
  { intros Hnone. rewrite messages_of_snoc, Hnone, app_nil_r. done. }
  unfold analyze_post in Hstep.
  destruct (get (p_user_id p)) as [uid|] eqn:Huid.
  2:{ injection Hstep as <-. cbv zeta. rewrite Hsame; [apply IH|].
      unfold message_of. rewrite Huid. by rewrite bool_decide_eq_false_2. }
  destruct (decide (uid ∈ ids)) as [Hids|Hids];
    [rewrite (bool_decide_eq_true_2 _ Hids) in Hstep
    |rewrite (bool_decide_eq_false_2 _ Hids) in Hstep].
  2:{ injection Hstep as <-. cbv zeta. destruct (decide (u = uid)) as [->|Hne].
      - rewrite !(bool_decide_eq_false_2 (uid ∈ ids)) by done.
        specialize (IH uid). cbv zeta in IH.
        by rewrite (bool_decide_eq_false_2 (uid ∈ ids)) in IH by done.
      - rewrite Hsame; [apply IH|]. unfold message_of.
        rewrite Huid. by rewrite bool_decide_eq_false_2 by congruence. }
  destruct (get_or (p_message p) "") as [[|c message]|] eqn:Hmessage;
    cbn [truthy nonempty] in Hstep.
  1,3: injection Hstep as <-; cbv zeta; rewrite Hsame; [apply IH|];
       unfold message_of; rewrite Hmessage;
       by destruct (bool_decide (get (p_user_id p) = Some u)).
  cbn [default] in Hstep. apply bind_Ok in Hstep as (flags & Hflags & [= <-]).
  cbn [fst snd]. cbv zeta. destruct (decide (u = uid)) as [->|Hne].
  - specialize (IH uid). cbv zeta in IH.
    rewrite (bool_decide_eq_true_2 (uid ∈ ids)) in IH |- * by done.
    rewrite messages_of_snoc.
    assert (message_of uid p = Some (String c message)) as ->.
    { unfold message_of. by rewrite Huid, bool_decide_eq_true_2, Hmessage by done. }
    destruct IH as (Htexts & results & Hresults & Hflags'). clear Hsame.
    split.
    + rewrite lookup_insert_eq.
      rewrite (bool_decide_eq_false_2 (_ ++ _ = [])) by by intros [? ?]%app_eq_nil.
      f_equal. unfold text_of_messages. rewrite foldl_app. cbn [foldl]. f_equal.
      rewrite Htexts. destruct (decide (messages_of uid done = [])) as [Hnil|Hnil].
      * by rewrite (bool_decide_eq_true_2 _ Hnil), Hnil.
      * by rewrite (bool_decide_eq_false_2 _ Hnil).
    + exists (results ++ [flags]). split; [by apply for_each_snoc|].
      rewrite concat_app. cbn [concat]. rewrite app_nil_r.
      assert (default [] (st.1 !! uid) = concat results) as Hdefault.
      { rewrite Hflags'. destruct (decide (concat results = [])) as [Hnil|Hnil].
        - by rewrite (bool_decide_eq_true_2 _ Hnil), Hnil.
        - by rewrite (bool_decide_eq_false_2 _ Hnil). }
      destruct (decide (flags = [])) as [->|Hne].
      * rewrite (bool_decide_eq_false_2 ([] ≠ [])) by (intros H; by apply H).
        by rewrite app_nil_r.
      * rewrite (bool_decide_eq_true_2 (flags ≠ [])) by done.
        rewrite lookup_insert_eq, Hdefault.
        by rewrite bool_decide_eq_false_2 by (intros [_ ?]%app_eq_nil; done).
  - rewrite Hsame.
    2:{ unfold message_of. rewrite Huid. by rewrite bool_decide_eq_false_2 by congruence. }
    specialize (IH u). cbv zeta in IH. destruct IH as (Htexts & results & Hresults & Hflags').
    clear Hsame. split; [by rewrite lookup_insert_ne|].
    exists results. split; [done|].
    destruct (bool_decide (flags ≠ [])); [by rewrite lookup_insert_ne | done].
Qed.

Lemma analyze_discussion_posts_Ok (entries : list post) (students : list enrollment)
    (student_flags : gmap Z (list flag)) (post_texts : gmap Z string) :
  analyze_discussion_posts entries students = Ok (student_flags, post_texts) →
  ∃ all_posts,
    flatten_posts entries = Ok all_posts
    ∧ ∀ user_id,
        let messages :=
          if bool_decide (user_id ∈ student_user_ids students)
          then messages_of user_id all_posts else [] in
        post_texts !! user_id
        = (if bool_decide (messages = []) then None else Some (text_of_messages messages))
        ∧ ∃ results,
            for_each (λ message, analyze_submission (post_submission user_id message)
                                   (post_as_submission <$> all_posts))
                     messages = Ok results
            ∧ student_flags !! user_id
              = (if bool_decide (concat results = []) then None else Some (concat results)).
Proof.
  unfold analyze_discussion_posts. case_bool_decide as Hentries.
  - intros [= <- <-]. subst entries. exists []. split; [done|].
    intros u. cbv zeta. rewrite !lookup_empty.
    assert ((if bool_decide (u ∈ student_user_ids students) then messages_of u [] else [])
            = []) as -> by by destruct (bool_decide _).
    split; [done|]. by exists [].
  - intros (all_posts & Hflat & Hfold)%bind_Ok. exists all_posts. split; [done|].
    by apply analyze_post_invariant.
Qed.

(** X27. What [analyze_discussion_posts] records, the posts being the
    entries and their replies, each entry before its replies.  The text kept
    for a user is made of the messages of the user's posts, in the order of
    the posts, each after a space; the flags kept for a user are the flags of
    the analyses of these messages, one after the other; the posts without a
    message and the users who are not enrolled have no part in either, and a
    user without flags has no entry. *)
Theorem discussion_results (entries : list post) (students : list enrollment)
    (student_flags : gmap Z (list flag)) (post_texts : gmap Z string) :
  analyze_discussion_posts entries students = Ok (student_flags, post_texts) →
  ∃ all_posts,
    flatten_posts entries = Ok all_posts
    ∧ ∀ user_id,
        let messages :=
          if bool_decide (user_id ∈ student_user_ids students)
          then messages_of user_id all_posts else [] in
        post_texts !! user_id
        = (if bool_decide (messages = []) then None else Some (text_of_messages messages))
        ∧ ∃ results,
            for_each (λ message, analyze_submission (post_submission user_id message)
                                   (post_as_submission <$> all_posts))
                     messages = Ok results
            ∧ student_flags !! user_id
              = (if bool_decide (concat results = []) then None else Some (concat results)).
Proof. apply analyze_discussion_posts_Ok. Qed.

(** X28. The posts of a discussion are not compared with one another.  The
    analysis of a post looks for the text of the other posts under ["body"];
    when the entries carry their text under ["message"] only, as the entries
    of a discussion do, no flag of [analyze_discussion_posts] says that a
    post is highly similar to another. *)
Theorem discussion_posts_are_not_compared (entries : list post)
    (students : list enrollment) (student_flags : gmap Z (list flag))
    (post_texts : gmap Z string) (all_posts : list post) :
  analyze_discussion_posts entries students = Ok (student_flags, post_texts) →
  flatten_posts entries = Ok all_posts →
  Forall (λ p, truthy (get_or (p_body p) "") = false) all_posts →
  ∀ user_id flags f,
    student_flags !! user_id = Some flags → f ∈ flags → is_highly_similar f = false.
Proof.
  intros (all_posts' & Hflat' & Hall)%analyze_discussion_posts_Ok Hflat Hbody u flags f.
  rewrite Hflat in Hflat'. injection Hflat' as <-.
  destruct (Hall u) as (_ & results & Hresults & ->).
  destruct (decide (concat results = [])) as [Hnil|Hnil];
    [by rewrite (bool_decide_eq_true_2 _ Hnil) | rewrite (bool_decide_eq_false_2 _ Hnil)].
  intros [= <-] Hin.
  apply elem_of_concat in Hin as (r & Hf & Hr).
  apply for_each_Forall2 in Hresults.
  apply list_elem_of_lookup in Hr as [i Hi].
  destruct (Forall2_lookup_r _ _ _ _ _ Hresults Hi) as (message & _ & Hanalysis).
  destruct f; try done.
  apply (highly_similar_origin _ _ _ _ _ Hanalysis) in Hf
    as (_ & other & Hother & _ & Htruthy & _).
  apply list_elem_of_fmap in Hother as (p & -> & Hp).
  rewrite Forall_forall in Hbody. apply Hbody in Hp. cbn [post_as_submission s_body] in Htruthy.
  congruence.
Qed.

(** ** The submissions kept for an assignment *)

Lemma dict_set_keys {V} (k : Z) (v : V) (d : list (Z * V)) :
  (dict_set k v d).*1 = if bool_decide (k ∈ d.*1) then d.*1 else d.*1 ++ [k].
Proof.
  induction d as [|[k0 v0] d IH]; cbn [dict_set].
  - by rewrite bool_decide_eq_false_2 by by intros ?%elem_of_nil.
  - destruct (decide (k0 = k)) as [->|Hne].
    + rewrite (bool_decide_eq_true_2 (k = k)) by done.
      rewrite !fmap_cons. cbn [fst]. by rewrite bool_decide_eq_true_2 by left.
    + rewrite (bool_decide_eq_false_2 (k0 = k)) by done.
      rewrite !fmap_cons, IH. cbn [fst].
      destruct (decide (k ∈ d.*1)) as [Hin|Hin].
      * rewrite (bool_decide_eq_true_2 _ Hin).
        by rewrite bool_decide_eq_true_2 by by right.
      * rewrite (bool_decide_eq_false_2 _ Hin).
        rewrite bool_decide_eq_false_2; [done|].
        intros [?|?]%elem_of_cons; [congruence | done].
Qed.

Lemma dict_set_NoDup {V} (k : Z) (v : V) (d : list (Z * V)) :
  NoDup d.*1 → NoDup (dict_set k v d).*1.
Proof.
  intros Hd. rewrite dict_set_keys. case_bool_decide as Hin; [done|].
  apply NoDup_app. split; [done|]. split; [|apply NoDup_singleton].
  intros x Hx ->%list_elem_of_singleton. done.
Qed.

Lemma dict_set_Forall {V} (P : Z * V → Prop) (k : Z) (v : V) (d : list (Z * V)) :
  P (k, v) → Forall P d → Forall P (dict_set k v d).
Proof.
  intros Hkv. induction 1 as [|[k0 v0] d Hk0 Hd IH]; cbn [dict_set].
  - by repeat constructor.
  - destruct (bool_decide (k0 = k)); by constructor.
Qed.

Lemma dict_get_elem {V} (k : Z) (v : V) (d : list (Z * V)) :
  NoDup d.*1 → (k, v) ∈ d → dict_get k d = Some v.
Proof.
  induction d as [|[k0 v0] d IH]; intros Hd Hin; [by apply elem_of_nil in Hin|].
  rewrite fmap_cons in Hd. apply NoDup_cons in Hd as [Hk0 Hd]. cbn [dict_get].
  apply elem_of_cons in Hin as [[= -> ->]|Hin].
  - by rewrite bool_decide_eq_true_2.
  - rewrite bool_decide_eq_false_2; [by apply IH|].
    intros ->. apply Hk0. apply list_elem_of_fmap. by exists (k, v).
Qed.

Lemma get_submissions_entries (data : list fetched_submission) :
  NoDup (get_submissions data).*1
  ∧ Forall (λ entry, get (s_user_id (f_submission entry.2)) = Some entry.1 ∧ entry.1 ≠ 0%Z)
      (get_submissions data).
Proof.
  unfold get_submissions. induction data as [|sub data [IH1 IH2]] using rev_ind.
  - split; constructor.
  - rewrite foldl_app. cbn [foldl].
    destruct (truthy_id (get (s_user_id (f_submission sub)))) as [u|] eqn:Hu; [|done].
    apply truthy_id_Some in Hu. split; [by apply dict_set_NoDup | by apply dict_set_Forall].
Qed.

(** X29. The dictionary of [get_submissions] has one entry for each student
    of the answer of the API whose identifier counts as true, under that
    identifier: the last of the student's submissions in the answer.  A
    submission without an identifier, or with the identifier 0, is left
    out. *)
Theorem submissions_by_student (data : list fetched_submission) :
  (∀ user_id,
     dict_get user_id (get_submissions data)
     = if bool_decide (user_id = 0%Z) then None else last (submissions_of data user_id))
  ∧ NoDup (get_submissions data).*1
  ∧ Forall (λ entry,
              get (s_user_id (f_submission entry.2)) = Some entry.1 ∧ entry.1 ≠ 0%Z
              ∧ last (submissions_of data entry.1) = Some entry.2)
      (get_submissions data).
Proof.
  destruct (get_submissions_entries data) as [Hkeys Hentries].
  split; [apply get_submissions_lookup|]. split; [done|].
  rewrite Forall_forall in Hentries. apply Forall_forall. intros [u sub] Hin.
  destruct (Hentries _ Hin) as [Hid Hnz]. cbn [fst snd] in *.
  split; [done|]. split; [done|].
  pose proof (dict_get_elem u sub _ Hkeys Hin) as Hget.
  by rewrite get_submissions_lookup, bool_decide_eq_false_2 in Hget.
Qed.

(** X30. In the analysis of an assignment a report of similarity is about
    another student: when the flags of a student say that the submission is
    highly similar to a submission with a score, that submission is the
    submission kept for a different student, it has a body, and the
    similarity of the two bodies is that score and is at least 0.85. *)
Theorem assignment_similarity_is_between_students (data : list fetched_submission)
    (students : list enrollment) (student_flags : gmap Z (list flag))
    (submission_texts : gmap Z string) (user_id : Z) (flags : list flag)
    (name : string) (similarity : Q) :
  analyze_assignment data students = Ok (student_flags, submission_texts) →
  student_flags !! user_id = Some flags →
  HighlySimilar name similarity ∈ flags →
  ∃ sub other_id other,
    handed_in data user_id sub
    ∧ other_id ≠ user_id ∧ other_id ≠ 0%Z
    ∧ last (submissions_of data other_id) = Some other
    ∧ truthy (get_or (s_body (f_submission other)) "") = true
    ∧ similarity
      = calculate_text_similarity
          (default "" (get_or (s_body (f_submission sub)) ""))
          (default "" (get_or (s_body (f_submission other)) ""))
    ∧ (85 # 100 <= similarity)%Q.
Proof.
  intros [Hflags _]%analyze_assignment_Ok Hlookup Hin.
  apply Hflags in Hlookup as (_ & _ & sub & Hsub & Hanalysis).
  apply (highly_similar_origin _ _ _ _ _ Hanalysis) in Hin
    as (_ & other & Hother & Hdiff & Hbody & Hsim & Hge & _).
  apply list_elem_of_fmap in Hother as ([other_id entry] & -> & Hentry).
  destruct (get_submissions_entries data) as [Hkeys Hentries].
  rewrite Forall_forall in Hentries. destruct (Hentries _ Hentry) as [Hid Hnz].
  cbn [fst snd] in *.
  assert (get (s_user_id (f_submission sub)) = Some user_id) as Hsub_id.
  { destruct Hsub as [Hlast _]. apply last_Some_elem_of in Hlast.
    apply list_elem_of_In, filter_In in Hlast as [_ Hp].
    by apply bool_decide_eq_true in Hp. }
  exists sub, other_id, entry. split; [done|].
  split; [congruence|]. split; [done|].
  split; [|done].
  pose proof (dict_get_elem other_id entry _ Hkeys Hentry) as Hget.
  by rewrite get_submissions_lookup, bool_decide_eq_false_2 in Hget.
Qed.

End Checks.

(** * Instances of the properties on the example inputs *)

Lemma example_engine_capitalised : @apa_groups_capitalised example_engine.
Proof.
  intros pattern text author year _ Hin. cbn [re_findall2 example_engine] in Hin.
  assert (author ∈ ["Smith"; "Jones"; "Brown"]) as Hauthor.
  { destruct (string_eqb pattern apa_parenthetical); [|by apply elem_of_nil in Hin].
    destruct (string_eqb text one_citation).
    { apply list_elem_of_singleton in Hin as [= -> _]. set_solver. }
    destruct (string_eqb text three_citations); [|by apply elem_of_nil in Hin].
    repeat (apply elem_of_cons in Hin as [[= -> _]|Hin]; [set_solver|]).
    by apply elem_of_nil in Hin. }
  repeat (apply elem_of_cons in Hauthor as [->|Hauthor];
          [eexists _, _; split; [reflexivity | by vm_compute]|]).
  by apply elem_of_nil in Hauthor.
Qed.

Lemma well_formed_examples :
  Forall well_formed
    [notes_submission; uniform_submission; fox_submission; unrelated_submission;
     ada_submission; later_submission].
Proof. repeat constructor; simpl; discriminate. Qed.

Lemma similarity_score_invariant_witness :
  calculate_text_similarity "a b" "a b" = 1%Q.
Proof. apply (proj1 (proj2 similarity_score_invariant)). discriminate. Defined.


Lemma clustered_year_flag_witness :
  ∃ all_citations fl,
    for_each first_author
      (re_findall2 (Regex := example_engine) apa_parenthetical three_citations
       ++ re_findall2 (Regex := example_engine) apa_narrative three_citations)
      = Ok all_citations
    ∧ check_bibliographic_markers (RE := example_engine) (λ _, no_verification)
        three_citations false = Ok fl
    ∧ ((∃ year count, ClusteredYear year count ∈ fl) ↔
       ∃ year,
         3 ≤ citations_in_year year all_citations
         ∧ (0.4 * QofN (length all_citations)
            < QofN (citations_in_year year all_citations))%Q).
Proof.
  apply (clustered_year_flag (RE := example_engine)).
  - exact example_engine_capitalised.
  - discriminate.
Defined.

Lemma cluster_claim_counterexample :
  ∃ all_citations fl,
    for_each first_author
      (re_findall2 (Regex := example_engine) apa_parenthetical one_citation
       ++ re_findall2 (Regex := example_engine) apa_narrative one_citation)
      = Ok all_citations
    ∧ all_citations ≠ []
    ∧ clustered_in_one_year all_citations
    ∧ check_bibliographic_markers (RE := example_engine) (λ _, no_verification)
        one_citation false = Ok fl
    ∧ ¬ ∃ year count, ClusteredYear year count ∈ fl.
Proof.
  exists [("Smith", "2019")], [].
  split; [reflexivity|]. split; [discriminate|].
  split; [by exists "2019"|]. split; [reflexivity|].
  by intros (year & count & Hin%elem_of_nil).
Qed.

Lemma repetitive_reasoning_check_witness :
  ∃ flags,
    analyze_submission (RE := example_engine) (Some "notes_brainstorm") false
      (λ _, no_verification) notes_submission [ada_submission] = Ok flags
    ∧ (RepetitiveReasoning ∈ flags ↔ check_repetitive_reasoning polished_notes = Ok true).
Proof.
  apply (proj2 (repetitive_reasoning_check (RE := example_engine)
                  (Some "notes_brainstorm") false (λ _, no_verification)
                  notes_submission [ada_submission] polished_notes)).
  - exact example_engine_capitalised.
  - split; [constructor | discriminate].
  - repeat constructor; discriminate.
  - reflexivity.
  - reflexivity.
Defined.

Lemma compare_drafts_identical_witness :
  calculate_text_similarity fox fox = 1%Q
  ∧ ∃ details,
      compare_drafts fox fox =
      Ok {| c_flags := [NoRevision]; c_details := details; revision_score := 0 |}.
Proof. apply compare_drafts_identical. discriminate. Defined.

Lemma too_polished_for_notes_witness :
  ∃ flags,
    analyze_submission (RE := example_engine) (Some "notes_brainstorm") false
      (λ _, no_verification) notes_submission [ada_submission] = Ok flags
    ∧ TooPolishedForNotes (7 # 7) ∈ flags
    ∧ ∀ c, SuspiciouslyPolished c ∉ flags.
Proof.
  apply (too_polished_for_notes (RE := example_engine) (Some "notes_brainstorm") false
           (λ _, no_verification) notes_submission [ada_submission] polished_notes).
  - exact example_engine_capitalised.
  - split; [constructor | discriminate].
  - repeat constructor; discriminate.
  - reflexivity.
  - reflexivity.
  - vm_compute. reflexivity.
  - reflexivity.
  - vm_compute. lia.
Defined.

Lemma analyze_submission_never_raises_witness :
  ∃ flags,
    analyze_submission (RE := example_engine) None false (λ _, no_verification)
      fox_submission
      [fox_submission; unrelated_submission; ada_submission; later_submission]
    = Ok flags
    ∧ (absent (s_body fox_submission) → Forall (λ f, 19 ≤ step_of f) flags)
    ∧ (absent (s_attachments fox_submission) → Forall (λ f, step_of f ≠ 19) flags)
    ∧ (absent (s_url fox_submission) → UrlNoDescription ∉ flags)
    ∧ (absent (s_body fox_submission) → absent (s_attachments fox_submission) →
       absent (s_url fox_submission) → flags = []).
Proof.
  apply (analyze_submission_never_raises (RE := example_engine)).
  - exact example_engine_capitalised.
  - split; [repeat constructor; discriminate | discriminate].
  - repeat constructor; discriminate.
Defined.

Lemma uniform_paragraphs_gate_witness :
  ∃ flags u,
    analyze_submission (RE := example_engine) None false (λ _, no_verification)
      uniform_submission [ada_submission] = Ok flags
    ∧ check_paragraph_uniformity uniform_text = Ok u
    ∧ (UniformParagraphs ∈ flags ↔
       is_check_enabled None "complete_sentences" = true ∧ (0.8 < u)%R)
    ∧ ((None : option string) = None → is_check_enabled None "complete_sentences" = true).
Proof.
  apply (uniform_paragraphs_gate (RE := example_engine) None false
           (λ _, no_verification) uniform_submission [ada_submission] uniform_text).
  - exact example_engine_capitalised.
  - split; [constructor | discriminate].
  - repeat constructor; discriminate.
  - reflexivity.
Defined.

(** ** The analysis evaluated *)

Example notes_flags :
  analyze_submission (RE := example_engine) (Some "notes_brainstorm") false
    (λ _, no_verification) notes_submission [ada_submission]
  = Ok [RepetitiveReasoning; TooPolishedForNotes (7 # 7)].
Proof. vm_compute. reflexivity. Qed.

Example uniform_flags :
  analyze_submission (RE := example_engine) None false (λ _, no_verification)
    uniform_submission [ada_submission]
  = Ok [VeryShortText 9; UniformParagraphs].
Proof. vm_compute. reflexivity. Qed.

Example fox_flags :
  analyze_submission (RE := example_engine) None false (λ _, no_verification)
    fox_submission
    [fox_submission; unrelated_submission; ada_submission; later_submission]
  = Ok [VeryShortText 9; HighlySimilar "Ada" 1; SmallFile "essay_final.docx" 500].
Proof. vm_compute. reflexivity. Qed.

Example three_citations_flags :
  check_bibliographic_markers (RE := example_engine) (λ _, no_verification)
    three_citations false
  = Ok [CommonSurnames 3; ClusteredYear "2019" 3; MissingReferences].
Proof. vm_compute. reflexivity. Qed.

Example transitions_thrice :
  check_ai_transitions
    "It is important to note that it is important to note that it is important to note this."
  = 3.
Proof. vm_compute. reflexivity. Qed.

Example similarity_two_fifths :
  calculate_text_similarity "The cat sat" "the cat ran fast" = (2 # 5)%Q.
Proof. vm_compute. reflexivity. Qed.

Example revision_of_a_short_draft :
  (r ← compare_drafts "First draft text."
         "First draft text, now with a little more detail inside.";
   Ok (revision_score r)) = Ok 30%Z.
Proof. vm_compute. reflexivity. Qed.

(** ** Instances of the further properties *)

Lemma flags_in_step_order_witness :
  StronglySorted (λ f g, step_of f ≤ step_of g)
    [VeryShortText 9; HighlySimilar "Ada" 1; SmallFile "essay_final.docx" 500].
Proof.
  apply (flags_in_step_order (RE := example_engine) None false (λ _, no_verification)
           fox_submission
           [fox_submission; unrelated_submission; ada_submission; later_submission]).
  vm_compute. reflexivity.
Defined.

Lemma disabled_check_issues_no_flag_witness :
  is_check_enabled (Some "notes_brainstorm") "complete_sentences" = true.
Proof.
  apply (disabled_check_issues_no_flag (RE := example_engine) (Some "notes_brainstorm")
           false (λ _, no_verification) notes_submission [ada_submission]
           [RepetitiveReasoning; TooPolishedForNotes (7 # 7)]
           (TooPolishedForNotes (7 # 7))).
  - vm_compute. reflexivity.
  - right. left.
  - reflexivity.
Defined.

Lemma notes_flags_only_under_notes_witness :
  Some "notes_brainstorm" = Some "notes_brainstorm".
Proof.
  apply (notes_flags_only_under_notes (RE := example_engine) (Some "notes_brainstorm")
           false (λ _, no_verification) notes_submission [ada_submission]
           [RepetitiveReasoning; TooPolishedForNotes (7 # 7)]
           (TooPolishedForNotes (7 # 7))).
  - vm_compute. reflexivity.
  - right. left.
  - right. by exists (7 # 7)%Q.
Defined.

Lemma very_short_text_flag_witness :
  VeryShortText 9 ∈ [VeryShortText 9; UniformParagraphs] ↔
  9 = count_words (default "" (get_or (s_body uniform_submission) ""))
  ∧ 0 < 9
  ∧ (Z.of_nat 9 < get_threshold None "min_word_count")%Z.
Proof.
  apply (very_short_text_flag (RE := example_engine) None false (λ _, no_verification)
           uniform_submission [ada_submission]).
  vm_compute. reflexivity.
Defined.

Lemma long_text_flags_witness :
  let flags := [RepetitiveReasoning; TooPolishedForNotes (7 # 7)] in
  let word_count := count_words (default "" (get_or (s_body notes_submission) "")) in
  (∀ b, BibFlag b ∈ flags → 300 < word_count)
  ∧ (∀ c, SuspiciouslyPolished c ∈ flags → 100 < word_count)
  ∧ (∀ c, TooPolishedForNotes c ∈ flags → 50 < word_count)
  ∧ (LacksPersonalLanguage ∈ flags → 200 < word_count)
  ∧ (NoEmotionalLanguage ∈ flags → 200 < word_count).
Proof.
  apply (long_text_flags (RE := example_engine) (Some "notes_brainstorm") false
           (λ _, no_verification) notes_submission [ada_submission]).
  vm_compute. reflexivity.
Defined.

Lemma small_file_flag_witness :
  SmallFile "essay_final.docx" 500
    ∈ [VeryShortText 9; HighlySimilar "Ada" 1; SmallFile "essay_final.docx" 500] ↔
  ∃ file, file ∈ default [] (get_or (s_attachments fox_submission) [])
          ∧ fmt_str (get_or (a_filename file) "unknown") = "essay_final.docx"
          ∧ get_or (a_size file) 0%Z = Some 500%Z
          ∧ (0 < 500 < 1024)%Z.
Proof.
  apply (small_file_flag (RE := example_engine) None false (λ _, no_verification)
           fox_submission
           [fox_submission; unrelated_submission; ada_submission; later_submission]).
  vm_compute. reflexivity.
Defined.

Lemma url_flag_alone_witness :
  (UrlNoDescription ∈ [UrlNoDescription] ↔
   truthy (get (s_url link_submission)) = true
   ∧ truthy (get_or (s_body link_submission) "") = false
   ∧ default [] (get_or (s_attachments link_submission) []) = [])
  ∧ (UrlNoDescription ∈ [UrlNoDescription] → [UrlNoDescription] = [UrlNoDescription]).
Proof.
  apply (url_flag_alone (RE := example_engine) None false (λ _, no_verification)
           link_submission [fox_submission]).
  vm_compute. reflexivity.
Defined.

Lemma highly_similar_sound_witness :
  is_check_enabled None "cross_submission" = true
  ∧ ∃ other,
      other ∈ [fox_submission; unrelated_submission; ada_submission; later_submission]
      ∧ get (s_user_id other) ≠ get (s_user_id fox_submission)
      ∧ truthy (get_or (s_body other) "") = true
      ∧ 1%Q = calculate_text_similarity (default "" (get_or (s_body fox_submission) ""))
                (default "" (get_or (s_body other) ""))
      ∧ (85 # 100 <= 1)%Q
      ∧ other_name other (get (s_user_id other)) = Ok "Ada".
Proof.
  apply (highly_similar_sound (RE := example_engine) None false (λ _, no_verification)
           fox_submission
           [fox_submission; unrelated_submission; ada_submission; later_submission]
           [VeryShortText 9; HighlySimilar "Ada" 1; SmallFile "essay_final.docx" 500]).
  - vm_compute. reflexivity.
  - right. left.
Defined.

Lemma check_switched_off_witness :
  (∃ key, Some "notes_brainstorm" = Some key
          ∧ key ∈ ["notes_brainstorm"; "rough_draft"; "discussion_post";
                   "analytical_essay"; "research_paper"; "creative_writing"])
  ∧ "ai_transitions" ∈ ["ai_transitions"; "hedge_phrases"; "generic_phrases";
                        "balance_markers"; "passive_voice"; "personal_markers";
                        "emotional_markers"; "complete_sentences"].
Proof. apply (check_switched_off (Some "notes_brainstorm")). reflexivity. Defined.

Lemma very_short_text_whatever_the_profile_witness :
  (0 < count_words (default "" (get_or (s_body uniform_submission) "")) < 20 →
   VeryShortText (count_words (default "" (get_or (s_body uniform_submission) "")))
     ∈ [VeryShortText 9; UniformParagraphs])
  ∧ (100 ≤ count_words (default "" (get_or (s_body uniform_submission) "")) →
     ∀ n, VeryShortText n ∉ [VeryShortText 9; UniformParagraphs]).
Proof.
  apply (very_short_text_whatever_the_profile (RE := example_engine) None false
           (λ _, no_verification) uniform_submission [ada_submission]).
  vm_compute. reflexivity.
Defined.

Lemma similarity_bag_of_words_witness :
  (calculate_text_similarity "the cat sat" "the cat ran"
   == calculate_text_similarity "Sat  the CAT the" "the cat ran")%Q.
Proof.
  apply similarity_bag_of_words.
  - discriminate.
  - discriminate.
  - vm_compute. reflexivity.
Defined.

Lemma comparison_flags_witness :
  ∃ r, compare_drafts "alpha beta gamma delta" "alpha beta gamma epsilon zeta" = Ok r
       ∧ (InsufficientRevision ∈ c_flags r ↔
          (calculate_text_similarity "alpha beta gamma delta"
             "alpha beta gamma epsilon zeta" < 0.98)%Q
          ∧ (revision_score r < 20)%Z).
Proof.
  eexists. split; [vm_compute; reflexivity|].
  apply (comparison_flags "alpha beta gamma delta" "alpha beta gamma epsilon zeta").
  - discriminate.
  - discriminate.
  - vm_compute. reflexivity.
Defined.

Lemma reordered_draft_is_no_revision_witness :
  ∃ details,
    compare_drafts "alpha beta gamma delta" "Delta gamma  beta alpha" =
    Ok {| c_flags := [NoRevision]; c_details := details; revision_score := 0 |}.
Proof.
  apply reordered_draft_is_no_revision.
  - discriminate.
  - discriminate.
  - vm_compute. reflexivity.
Defined.

Lemma cross_student_match_sound_witness :
  cm_student1_id ada_grace_match ≠ cm_student2_id ada_grace_match
  ∧ cm_assignment1_id ada_grace_match ≠ cm_assignment2_id ada_grace_match
  ∧ ∃ data1 data2 text1 text2,
      two_assignments !! cm_assignment1_id ada_grace_match = Some data1
      ∧ two_assignments !! cm_assignment2_id ada_grace_match = Some data2
      ∧ ad_submission_texts data1 !! cm_student1_id ada_grace_match = Some text1
      ∧ ad_submission_texts data2 !! cm_student2_id ada_grace_match = Some text2
      ∧ 50 < count_words text1 ∧ 50 < count_words text2
      ∧ cm_similarity ada_grace_match = calculate_text_similarity text1 text2
      ∧ (0.75 <= cm_similarity ada_grace_match)%Q
      ∧ cm_assignment1 ada_grace_match = ad_name data1 ∧ cm_assignment2 ada_grace_match = ad_name data2
      ∧ cm_student1 ada_grace_match = student_name two_names (cm_student1_id ada_grace_match)
      ∧ cm_student2 ada_grace_match = student_name two_names (cm_student2_id ada_grace_match).
Proof.
  apply (cross_student_match_sound two_assignments two_names ∅ [ada_grace_match]
           ada_grace_match).
  - vm_compute. reflexivity.
  - left.
Defined.

Lemma cross_student_match_complete_witness :
  ∃ m, m ∈ [ada_grace_match]
       ∧ cm_similarity m = calculate_text_similarity polished_notes polished_notes
       ∧ ((cm_student1_id m = 1%Z ∧ cm_assignment1_id m = 10%Z
           ∧ cm_student2_id m = 3%Z ∧ cm_assignment2_id m = 20%Z)
          ∨ (cm_student1_id m = 3%Z ∧ cm_assignment1_id m = 20%Z
             ∧ cm_student2_id m = 1%Z ∧ cm_assignment2_id m = 10%Z)).
Proof.
  apply (cross_student_match_complete two_assignments two_names ∅ _ 1 3 10 20
           {| ad_name := "Essay 1"; ad_submission_texts := {[ 1%Z := polished_notes ]} |}
           {| ad_name := "Essay 2"; ad_submission_texts := {[ 3%Z := polished_notes ]} |}
           polished_notes polished_notes).
  - vm_compute. reflexivity.
  - discriminate.
  - discriminate.
  - reflexivity.
  - reflexivity.
  - reflexivity.
  - reflexivity.
  - vm_compute. lia.
  - vm_compute. lia.
  - vm_compute. discriminate.
Defined.

Lemma blank_keyword_always_found_witness :
  " " ∈ ["banana"; " "]
  ∧ KeywordsDetected ["banana"; " "] ∈ [KeywordsDetected ["banana"; " "]; MediumConfidence].
Proof.
  apply (blank_keyword_always_found "The Banana is ripe" ["banana"; " "; "kiwi"] " "
           {| wt_flags := [KeywordsDetected ["banana"; " "]; MediumConfidence];
              wt_found := ["banana"; " "];
              wt_missing := ["kiwi"];
              wt_score := 2 # 3 |}).
  - vm_compute. reflexivity.
  - discriminate.
  - right. left.
  - reflexivity.
Defined.

Lemma normalize_phrase_word_order_witness :
  normalize_phrase "quick brown fox" = normalize_phrase "fox  quick brown".
Proof.
  apply normalize_phrase_word_order. vm_compute.
  apply perm_trans with ["quick"; "fox"; "brown"]; [apply perm_skip, perm_swap | apply perm_swap].
Defined.

Lemma key_phrase_shape_witness :
  lower "the quick brown" = "the quick brown"
  ∧ join " " (split_ws "the quick brown") = "the quick brown"
  ∧ 3 ≤ length (split_ws "the quick brown") ≤ 8
  ∧ (Z.of_nat 3 - 1
     ≤ Z.of_nat (length (List.filter (λ w, (3 <? String.length w)%nat)
                           (split_ws "the quick brown"))))%Z.
Proof.
  apply (key_phrase_shape "The quick brown fox jumps. Over the lazy dog! ok" 3 8).
  vm_compute. left.
Defined.

Lemma assignment_results_witness :
  ∃ student_flags submission_texts,
    analyze_assignment (RE := example_engine) None false (λ _, no_verification)
      fetched_submissions two_students = Ok (student_flags, submission_texts)
    ∧ ((∀ user_id flags,
          student_flags !! user_id = Some flags ↔
          enrolled two_students user_id
          ∧ flags ≠ []
          ∧ ∃ sub, handed_in fetched_submissions user_id sub
                   ∧ analyze_submission (RE := example_engine) None false
                       (λ _, no_verification) (f_submission sub)
                       ((λ entry, f_submission entry.2)
                          <$> get_submissions fetched_submissions) = Ok flags)
       ∧ (∀ user_id text,
            submission_texts !! user_id = Some text ↔
            enrolled two_students user_id
            ∧ text ≠ ""
            ∧ ∃ sub, handed_in fetched_submissions user_id sub
                     ∧ get_or (s_body (f_submission sub)) "" = Some text)).
Proof.
  eexists _, _. split; [vm_compute; reflexivity|].
  apply (assignment_results (RE := example_engine) None false (λ _, no_verification)
           fetched_submissions two_students _ _).
  vm_compute. reflexivity.
Defined.

Lemma discussion_results_witness :
  ∃ student_flags post_texts,
    analyze_discussion_posts (RE := example_engine) None false (λ _, no_verification)
      fox_thread two_students = Ok (student_flags, post_texts)
    ∧ ∃ all_posts,
        flatten_posts fox_thread = Ok all_posts
        ∧ ∀ user_id,
            let messages :=
              if bool_decide (user_id ∈ student_user_ids two_students)
              then messages_of user_id all_posts else [] in
            post_texts !! user_id
            = (if bool_decide (messages = []) then None
               else Some (text_of_messages messages))
            ∧ ∃ results,
                for_each (λ message,
                            analyze_submission (RE := example_engine) None false
                              (λ _, no_verification) (post_submission user_id message)
                              (post_as_submission <$> all_posts))
                         messages = Ok results
                ∧ student_flags !! user_id
                  = (if bool_decide (concat results = []) then None
                     else Some (concat results)).
Proof.
  eexists _, _. split; [vm_compute; reflexivity|].
  apply (discussion_results (RE := example_engine) None false (λ _, no_verification)
           fox_thread two_students _ _).
  vm_compute. reflexivity.
Defined.

Lemma discussion_posts_are_not_compared_witness :
  ∃ student_flags post_texts all_posts,
    analyze_discussion_posts (RE := example_engine) None false (λ _, no_verification)
      fox_thread two_students = Ok (student_flags, post_texts)
    ∧ flatten_posts fox_thread = Ok all_posts
    ∧ ∀ user_id flags f,
        student_flags !! user_id = Some flags → f ∈ flags → is_highly_similar f = false.
Proof.
  eexists _, _, _. split; [vm_compute; reflexivity|]. split; [vm_compute; reflexivity|].
  eapply (discussion_posts_are_not_compared (RE := example_engine) None false
            (λ _, no_verification) fox_thread two_students).
  - vm_compute. reflexivity.
  - vm_compute. reflexivity.
  - repeat constructor.
Defined.

Lemma assignment_similarity_is_between_students_witness :
  ∃ sub other_id other,
    handed_in fetched_submissions 1 sub
    ∧ other_id ≠ 1%Z ∧ other_id ≠ 0%Z
    ∧ last (submissions_of fetched_submissions other_id) = Some other
    ∧ truthy (get_or (s_body (f_submission other)) "") = true
    ∧ 1%Q
      = calculate_text_similarity
          (default "" (get_or (s_body (f_submission sub)) ""))
          (default "" (get_or (s_body (f_submission other)) ""))
    ∧ (85 # 100 <= 1)%Q.
Proof.
  eapply (assignment_similarity_is_between_students (RE := example_engine) None false
            (λ _, no_verification) fetched_submissions two_students _ _ 1
            [VeryShortText 9; HighlySimilar "Ada" 1; SmallFile "essay_final.docx" 500]
            "Ada" 1).
  - vm_compute. reflexivity.
  - vm_compute. reflexivity.
  - right. left.
Defined.
